(** * Request lifecycle of BackendSolicitudes ([server.py]) in Rocq

    A shallow embedding of the request state machine, the status
    normalisation applied when documents are read back from MongoDB, and the
    time-by-state metric, followed by the properties the specification
    states about them.

    Modelling conventions.
    - A Python [str] is a list of Unicode code points ([pystr]).
    - A [datetime] is an integer number of microseconds since the epoch; a
      duration in hours is an exact rational ([Qc]); binary floating point
      rounding is not modelled.
    - A MongoDB collection is the list of its documents in insertion order;
      [find_one] returns the first match and [update_one] rewrites it.
    - Handlers run in a state-and-exception monad over the collections, a
      clock and a uuid source. *)

From Stdlib Require Import ZArith QArith Qround Qcanon Ascii String.
From stdpp Require Import base option list gmap fin_maps fin_sets sorting.

Local Open Scope Z_scope.

(** ** Python strings *)

Definition pystr := list N.

Definition s2p (s : string) : pystr :=
  N_of_ascii <$> list_ascii_of_string s.

(** [str.isspace] on a single code point: the Unicode white space table used
    by [str.strip()] when it is called without argument. *)
Definition py_isspace (c : N) : bool :=
  ((9 <=? c) && (c <=? 13) || (28 <=? c) && (c <=? 32)
   || (c =? 133) || (c =? 160) || (c =? 5760)
   || (8192 <=? c) && (c <=? 8202)
   || (c =? 8232) || (c =? 8233) || (c =? 8239) || (c =? 8287)
   || (c =? 12288))%N.

Fixpoint lstrip (s : pystr) : pystr :=
  match s with
  | c :: s' => if py_isspace c then lstrip s' else s
  | [] => []
  end.

Definition rstrip (s : pystr) : pystr := reverse (lstrip (reverse s)).

Definition strip (s : pystr) : pystr := rstrip (lstrip s).

(** Truth value of a [str]: the empty string is falsy. *)
Definition str_truthy (s : pystr) : bool :=
  match s with [] => false | _ => true end.

(** Truth value of an [Optional[str]]: [None] and [""] are falsy. *)
Definition opt_truthy (o : option pystr) : bool :=
  match o with Some s => str_truthy s | None => false end.

(** [not x or not x.strip()] for an [Optional[str]]. *)
Definition is_blank (o : option pystr) : bool :=
  match o with
  | None => true
  | Some s => negb (str_truthy s) || negb (str_truthy (strip s))
  end.

(** ** Literal types of the models *)

Inductive RequestStatus :=
  Pendiente | En_progreso | En_revision | Finalizada | Rechazada.

Inductive RequestType := Soporte | Mejora | Desarrollo | Capacitacion.

Inductive RequestChannel := WhatsApp | Correo | Sistema.

Inductive Priority := Alta | Media | Baja.

Inductive Rating := up | down.

#[global] Instance RequestStatus_eq_dec : EqDecision RequestStatus.
Proof. solve_decision. Defined.

(** The string each status literal stands for. *)
Definition status_label (s : RequestStatus) : pystr :=
  match s with
  | Pendiente => s2p "Pendiente"
  | En_progreso => s2p "En progreso"
  | En_revision => s2p "En revisi" ++ [243%N] ++ s2p "n"
  | Finalizada => s2p "Finalizada"
  | Rechazada => s2p "Rechazada"
  end.

Definition all_statuses : list RequestStatus :=
  [Pendiente; En_progreso; En_revision; Finalizada; Rechazada].

Definition OPEN_STATES : list RequestStatus :=
  [Pendiente; En_progreso; En_revision].

(** ** Transition table *)

Definition ALLOWED_TRANSITIONS (old : RequestStatus) : list RequestStatus :=
  match old with
  | Pendiente => [En_progreso; Rechazada]
  | En_progreso => [En_revision]
  | En_revision => [Finalizada; En_progreso]
  | Finalizada => []
  | Rechazada => []
  end.

(** ** HTTP errors raised by the handlers *)

Inductive HTTPException :=
  | Not_authorized
  | Request_not_found
  | Transicion_no_permitida (old new : RequestStatus)
  | Motivo_rechazo_requerido
  | Solo_asignado_o_asignador
  | Evidencia_requerida
  | Usuario_destino_no_encontrado
  | Usuario_asignado_no_existe
  | Solo_solicitante_feedback
  | Solicitud_no_finalizada
  | Feedback_ya_registrado
  | Internal_server_error.

Definition status_code (e : HTTPException) : Z :=
  match e with
  | Not_authorized => 403
  | Request_not_found => 404
  | Transicion_no_permitida _ _ => 400
  | Motivo_rechazo_requerido => 422
  | Solo_asignado_o_asignador => 403
  | Evidencia_requerida => 422
  | Usuario_destino_no_encontrado => 400
  | Usuario_asignado_no_existe => 400
  | Solo_solicitante_feedback => 403
  | Solicitud_no_finalizada => 400
  | Feedback_ya_registrado => 400
  | Internal_server_error => 500
  end.

(** The error classes of the specification. *)
Definition InvalidTransition (e : HTTPException) : Prop :=
  ∃ old new, e = Transicion_no_permitida old new.

Definition ValidationError (e : HTTPException) : Prop := status_code e = 422.

Definition Forbidden (e : HTTPException) : Prop := status_code e = 403.

Inductive result (A : Type) :=
  | Ok (a : A)
  | Raise (e : HTTPException).
Arguments Ok {A} a.
Arguments Raise {A} e.

Definition ensure_transition (old new : RequestStatus) : result unit :=
  if bool_decide (new ∈ ALLOWED_TRANSITIONS old) then Ok tt
  else Raise (Transicion_no_permitida old new).

(** ** Normalisation of stored documents *)

(** What a stored document can hold under a key that should be a string. *)
Inductive pyval :=
  | VNone
  | VStr (s : pystr)
  | VInt (z : Z).

#[global] Instance pyval_eq_dec : EqDecision pyval.
Proof. solve_decision. Defined.

Definition VALID_STATUSES : gset pystr :=
  list_to_set (status_label <$> all_statuses).

Definition STATUS_SYNONYMS : gmap pystr pystr :=
  list_to_map
    [ (s2p "Completada", status_label Finalizada);
      (s2p "Completado", status_label Finalizada);
      (s2p "completada", status_label Finalizada);
      (s2p "completado", status_label Finalizada);
      (s2p "En Progreso", status_label En_progreso);
      (s2p "En Revisi" ++ [243%N] ++ s2p "n", status_label En_revision);
      (s2p "Cancelada", status_label Rechazada);
      (s2p "Cancelado", status_label Rechazada) ].

(** [v in VALID_STATUSES] for an arbitrary stored value. *)
Definition in_valid_statuses (v : pyval) : bool :=
  match v with
  | VStr s => bool_decide (s ∈ VALID_STATUSES)
  | _ => false
  end.

(** [if isinstance(st, str) and st in STATUS_SYNONYMS: st = STATUS_SYNONYMS[st]]. *)
Definition apply_synonym (st : pyval) : pyval :=
  match st with
  | VStr s => match STATUS_SYNONYMS !! s with
              | Some canon => VStr canon
              | None => st
              end
  | _ => st
  end.

(** The status part of [_normalize_request_doc]: [None] is an absent key,
    which [setdefault] fills first. *)
Definition normalize_status (stored : option pyval) : pyval :=
  let st := apply_synonym (default (VStr (status_label Pendiente)) stored) in
  if in_valid_statuses st then st else VStr (status_label Pendiente).

(** Validation of the [status: RequestStatus] field by the [Request] model. *)
Definition parse_status (v : pyval) : option RequestStatus :=
  match v with
  | VStr s => list_find (λ st, s = status_label st) all_statuses ≫= λ p, Some p.2
  | _ => None
  end.


(** ** Models *)

Record User := {
  u_id : pystr;
  u_username : pystr;
  u_full_name : pystr;
  u_department : pystr;
  u_position : pystr;
  u_role : pystr;
}.

Record StateEvent := {
  from_status : option RequestStatus;
  to_status : RequestStatus;
  at_ : Z;
  by_user_id : pystr;
  by_user_name : pystr;
}.

Record Feedback := {
  fb_rating : Rating;
  fb_comment : option pystr;
  fb_at : Z;
  fb_by_user_id : pystr;
  fb_by_user_name : pystr;
}.

(** The dictionary stored under [review_evidence]. *)
Record ReviewEvidence := {
  re_type : pystr;
  re_url : pystr;
  re_by : pystr;
  re_at : Z;
}.

(** The pydantic model [Request]. *)
Record Request := {
  id : pystr;
  title : pystr;
  description : pystr;
  priority : Priority;
  type_ : RequestType;
  channel : RequestChannel;
  level : option Z;
  status : RequestStatus;
  requester_id : pystr;
  requester_name : pystr;
  department : pystr;
  assigned_to : option pystr;
  assigned_to_name : option pystr;
  estimated_hours : option Qc;
  estimated_due : option Z;
  requested_at : Z;
  created_at : Z;
  updated_at : Z;
  completion_date : option Z;
  state_history : list StateEvent;
  feedback : option Feedback;
  rejection_reason : option pystr;
  review_evidence : option ReviewEvidence;
  reabierto_count : Z;
}.

(** A document of the [requests] collection.  The keys [type], [channel] and
    [status] may be missing in data written by older versions ([None]); the
    stored status is an arbitrary value.  [assigned_by_id] and
    [assigned_by_name] are written by [assign_request] and are not fields of
    [Request].  For the optional fields a missing key and a stored null are
    both [None]. *)
Record Doc := {
  d_id : pystr;
  d_title : pystr;
  d_description : pystr;
  d_priority : Priority;
  d_type : option RequestType;
  d_channel : option RequestChannel;
  d_level : option Z;
  d_status : option pyval;
  d_requester_id : pystr;
  d_requester_name : pystr;
  d_department : pystr;
  d_assigned_to : option pystr;
  d_assigned_to_name : option pystr;
  d_assigned_by_id : option pystr;
  d_assigned_by_name : option pystr;
  d_estimated_hours : option Qc;
  d_estimated_due : option Z;
  d_requested_at : Z;
  d_created_at : Z;
  d_updated_at : Z;
  d_completion_date : option Z;
  d_state_history : list StateEvent;
  d_feedback : option Feedback;
  d_rejection_reason : option pystr;
  d_review_evidence : option ReviewEvidence;
  d_reabierto_count : Z;
}.

(** A document of the [ticket_status_events] collection. *)
Record StatusEvent := {
  se_id : pystr;
  ticket_id : pystr;
  estado : pystr;
  changed_by : pystr;
  changed_at : Z;
}.

(** ** Request payloads

    For [RequestUpdate] the handler uses [dict(exclude_unset=True)], so a
    field that was not sent ([None]) differs from one sent as null
    ([Some None]). *)

Record RequestCreate := {
  rc_title : pystr;
  rc_description : pystr;
  rc_priority : Priority;
  rc_type : RequestType;
  rc_channel : option RequestChannel;
  rc_requested_at : option Z;
  rc_level : option Z;
  rc_assigned_to : option pystr;
  rc_estimated_hours : option Qc;
  rc_estimated_due : option Z;
}.

Record RequestUpdate := {
  ru_status : option (option RequestStatus);
  ru_assigned_to : option (option pystr);
  ru_estimated_hours : option (option Qc);
  ru_estimated_due : option (option Z);
}.

Record ClassifyPayload := {
  cp_level : Z;
  cp_priority : Priority;
}.

Record AssignPayload := {
  ap_assigned_to : option pystr;
  ap_estimated_hours : option Qc;
  ap_estimated_due : option Z;
}.

Record TransitionPayload := {
  tp_to_status : RequestStatus;
  tp_comment : option pystr;
  tp_evidence_link : option pystr;
}.

Record FeedbackPayload := {
  fp_rating : Rating;
  fp_comment : option pystr;
}.

(** ** Reading a stored document *)

Definition _normalize_request_doc (d : Doc) : Doc :=
  {| d_id := d_id d; d_title := d_title d; d_description := d_description d;
     d_priority := d_priority d;
     d_type := Some (default Soporte (d_type d));
     d_channel := Some (default Sistema (d_channel d));
     d_level := d_level d;
     d_status := Some (normalize_status (d_status d));
     d_requester_id := d_requester_id d;
     d_requester_name := d_requester_name d;
     d_department := d_department d;
     d_assigned_to := d_assigned_to d;
     d_assigned_to_name := d_assigned_to_name d;
     d_assigned_by_id := d_assigned_by_id d;
     d_assigned_by_name := d_assigned_by_name d;
     d_estimated_hours := d_estimated_hours d;
     d_estimated_due := d_estimated_due d;
     d_requested_at := d_requested_at d;
     d_created_at := d_created_at d;
     d_updated_at := d_updated_at d;
     d_completion_date := d_completion_date d;
     d_state_history := d_state_history d;
     d_feedback := d_feedback d;
     d_rejection_reason := d_rejection_reason d;
     d_review_evidence := d_review_evidence d;
     d_reabierto_count := d_reabierto_count d |}.

(** Construction of a [Request] from the keys of [d]: the model's defaults
    fill the missing keys, and the status must be one of the five literals. *)
Definition Request_of_doc (d : Doc) : result Request :=
  match parse_status (default (VStr (status_label Pendiente)) (d_status d)) with
  | None => Raise Internal_server_error
  | Some st =>
      Ok {| id := d_id d; title := d_title d; description := d_description d;
            priority := d_priority d;
            type_ := default Soporte (d_type d);
            channel := default Sistema (d_channel d);
            level := d_level d;
            status := st;
            requester_id := d_requester_id d;
            requester_name := d_requester_name d;
            department := d_department d;
            assigned_to := d_assigned_to d;
            assigned_to_name := d_assigned_to_name d;
            estimated_hours := d_estimated_hours d;
            estimated_due := d_estimated_due d;
            requested_at := d_requested_at d;
            created_at := d_created_at d;
            updated_at := d_updated_at d;
            completion_date := d_completion_date d;
            state_history := d_state_history d;
            feedback := d_feedback d;
            rejection_reason := d_rejection_reason d;
            review_evidence := d_review_evidence d;
            reabierto_count := d_reabierto_count d |}
  end.

Definition _to_request (doc : Doc) : result Request :=
  Request_of_doc (_normalize_request_doc doc).

(** [Request.dict()], the document written by [insert_one]. *)
Definition Request_dict (r : Request) : Doc :=
  {| d_id := id r; d_title := title r; d_description := description r;
     d_priority := priority r;
     d_type := Some (type_ r);
     d_channel := Some (channel r);
     d_level := level r;
     d_status := Some (VStr (status_label (status r)));
     d_requester_id := requester_id r;
     d_requester_name := requester_name r;
     d_department := department r;
     d_assigned_to := assigned_to r;
     d_assigned_to_name := assigned_to_name r;
     d_assigned_by_id := None;
     d_assigned_by_name := None;
     d_estimated_hours := estimated_hours r;
     d_estimated_due := estimated_due r;
     d_requested_at := requested_at r;
     d_created_at := created_at r;
     d_updated_at := updated_at r;
     d_completion_date := completion_date r;
     d_state_history := state_history r;
     d_feedback := feedback r;
     d_rejection_reason := rejection_reason r;
     d_review_evidence := review_evidence r;
     d_reabierto_count := reabierto_count r |}.

(** The status a stored document is read with. *)
Definition doc_status (d : Doc) : RequestStatus :=
  default Pendiente (parse_status (normalize_status (d_status d))).

(** ** The store, the clock and the handler monad *)

Record World := {
  requests : list Doc;
  ticket_status_events : list StatusEvent;
  users : list User;
  clock : nat → Z;
  ticks : nat;
  uuid_source : nat → pystr;
  uuids_drawn : nat;
}.

Definition with_requests (rs : list Doc) (w : World) : World :=
  {| requests := rs; ticket_status_events := ticket_status_events w;
     users := users w; clock := clock w; ticks := ticks w;
     uuid_source := uuid_source w; uuids_drawn := uuids_drawn w |}.

Definition with_events (es : list StatusEvent) (w : World) : World :=
  {| requests := requests w; ticket_status_events := es;
     users := users w; clock := clock w; ticks := ticks w;
     uuid_source := uuid_source w; uuids_drawn := uuids_drawn w |}.

(** A handler either returns or raises, and leaves a store behind in both
    cases. *)
Definition M (A : Type) : Type := World → result A * World.

#[global] Instance M_ret : MRet M := λ A a w, (Ok a, w).

#[global] Instance M_bind : MBind M := λ A B f m w,
  match m w with
  | (Ok a, w') => f a w'
  | (Raise e, w') => (Raise e, w')
  end.

Definition raise {A} (e : HTTPException) : M A := λ w, (Raise e, w).

Definition lift {A} (r : result A) : M A := λ w, (r, w).

(** [datetime.now(timezone.utc)]: the next reading of the clock. *)
Definition datetime_now : M Z := λ w,
  (Ok (clock w (ticks w)),
   {| requests := requests w; ticket_status_events := ticket_status_events w;
      users := users w; clock := clock w; ticks := S (ticks w);
      uuid_source := uuid_source w; uuids_drawn := uuids_drawn w |}).

(** [str(uuid.uuid4())]. *)
Definition uuid4 : M pystr := λ w,
  (Ok (uuid_source w (uuids_drawn w)),
   {| requests := requests w; ticket_status_events := ticket_status_events w;
      users := users w; clock := clock w; ticks := ticks w;
      uuid_source := uuid_source w; uuids_drawn := S (uuids_drawn w) |}).

(** *** MongoDB primitives *)

Fixpoint find_one (rid : pystr) (l : list Doc) : option Doc :=
  match l with
  | [] => None
  | d :: l' => if bool_decide (d_id d = rid) then Some d else find_one rid l'
  end.

Fixpoint find_user (uid : pystr) (l : list User) : option User :=
  match l with
  | [] => None
  | u :: l' => if bool_decide (u_id u = uid) then Some u else find_user uid l'
  end.

(** The [$set] part of an update: [None] leaves the key alone. *)
Record SetOps := {
  set_status : option pyval;
  set_updated_at : option Z;
  set_completion_date : option (option Z);
  set_rejection_reason : option (option pystr);
  set_review_evidence : option (option ReviewEvidence);
  set_assigned_to : option (option pystr);
  set_assigned_to_name : option (option pystr);
  set_assigned_by_id : option (option pystr);
  set_assigned_by_name : option (option pystr);
  set_estimated_hours : option (option Qc);
  set_estimated_due : option (option Z);
  set_level : option (option Z);
  set_priority : option Priority;
  set_feedback : option (option Feedback);
}.

(** An update document: [$set], [$push] on [state_history] and [$inc] on
    [reabierto_count]. *)
Record UpdateOps := {
  op_set : SetOps;
  op_push : option StateEvent;
  op_inc : option Z;
}.

Definition apply_update (ops : UpdateOps) (d : Doc) : Doc :=
  let s := op_set ops in
  {| d_id := d_id d; d_title := d_title d; d_description := d_description d;
     d_priority := default (d_priority d) (set_priority s);
     d_type := d_type d;
     d_channel := d_channel d;
     d_level := default (d_level d) (set_level s);
     d_status := match set_status s with Some v => Some v | None => d_status d end;
     d_requester_id := d_requester_id d;
     d_requester_name := d_requester_name d;
     d_department := d_department d;
     d_assigned_to := default (d_assigned_to d) (set_assigned_to s);
     d_assigned_to_name := default (d_assigned_to_name d) (set_assigned_to_name s);
     d_assigned_by_id := default (d_assigned_by_id d) (set_assigned_by_id s);
     d_assigned_by_name := default (d_assigned_by_name d) (set_assigned_by_name s);
     d_estimated_hours := default (d_estimated_hours d) (set_estimated_hours s);
     d_estimated_due := default (d_estimated_due d) (set_estimated_due s);
     d_requested_at := d_requested_at d;
     d_created_at := d_created_at d;
     d_updated_at := default (d_updated_at d) (set_updated_at s);
     d_completion_date := default (d_completion_date d) (set_completion_date s);
     d_state_history :=
       match op_push ops with
       | Some ev => d_state_history d ++ [ev]
       | None => d_state_history d
       end;
     d_feedback := default (d_feedback d) (set_feedback s);
     d_rejection_reason := default (d_rejection_reason d) (set_rejection_reason s);
     d_review_evidence := default (d_review_evidence d) (set_review_evidence s);
     d_reabierto_count :=
       match op_inc ops with
       | Some n => d_reabierto_count d + n
       | None => d_reabierto_count d
       end |}.

Fixpoint update_one (rid : pystr) (ops : UpdateOps) (l : list Doc) : list Doc :=
  match l with
  | [] => []
  | d :: l' =>
      if bool_decide (d_id d = rid) then apply_update ops d :: l'
      else d :: update_one rid ops l'
  end.

Definition requests_find_one (rid : pystr) : M (option Doc) := λ w,
  (Ok (find_one rid (requests w)), w).

Definition requests_update_one (rid : pystr) (ops : UpdateOps) : M unit := λ w,
  (Ok tt, with_requests (update_one rid ops (requests w)) w).

Definition requests_insert_one (d : Doc) : M unit := λ w,
  (Ok tt, with_requests (requests w ++ [d]) w).

Definition ticket_status_events_insert_one (e : StatusEvent) : M unit := λ w,
  (Ok tt, with_events (ticket_status_events w ++ [e]) w).

Definition users_find_one (uid : pystr) : M (option User) := λ w,
  (Ok (find_user uid (users w)), w).

(** The dependency [require_role(required_roles)]. *)
Definition require_role (required_roles : list pystr) (current_user : User) : M User :=
  if bool_decide (u_role current_user ∈ required_roles) then mret current_user
  else raise Not_authorized.

(** [_to_request(doc)] on the result of a [find_one]; a [None] there makes
    the call fail. *)
Definition to_request_found (odoc : option Doc) : M Request :=
  match odoc with
  | Some doc => lift (_to_request doc)
  | None => raise Internal_server_error
  end.

Definition role_admin : pystr := s2p "admin".
Definition role_support : pystr := s2p "support".
Definition role_employee : pystr := s2p "employee".

(** ** Handlers *)

Definition is_member (s : RequestStatus) (l : list RequestStatus) : bool :=
  bool_decide (s ∈ l).

(** [POST /requests].  The [Request] model draws its id and its
    [created_at] and [updated_at] stamps when it is built, and the
    [StateEvent] its [at] stamp.  The handler returns right after inserting
    the request document. *)
Definition create_request (payload : RequestCreate) (current_user : User) : M Request :=
  requested ← match rc_requested_at payload with
               | Some t => mret t
               | None => datetime_now
               end;
  rid ← uuid4;
  created ← datetime_now;
  updated ← datetime_now;
  let is_admin := bool_decide (u_role current_user = role_admin) in
  assignee ← (if is_admin && opt_truthy (rc_assigned_to payload) then
                 ou ← users_find_one (default [] (rc_assigned_to payload));
                 match ou with
                 | None => raise Usuario_asignado_no_existe
                 | Some u => mret (Some (u_id u), Some (u_full_name u))
                 end
               else mret (None, None) : M (option pystr * option pystr));
  stamp ← datetime_now;
  let new_request :=
    {| id := rid;
       title := rc_title payload;
       description := rc_description payload;
       priority := rc_priority payload;
       type_ := rc_type payload;
       channel := default Sistema (rc_channel payload);
       level := if is_admin then rc_level payload else None;
       status := Pendiente;
       requester_id := u_id current_user;
       requester_name := u_full_name current_user;
       department := u_department current_user;
       assigned_to := assignee.1;
       assigned_to_name := assignee.2;
       estimated_hours := if is_admin then rc_estimated_hours payload else None;
       estimated_due := if is_admin then rc_estimated_due payload else None;
       requested_at := requested;
       created_at := created;
       updated_at := updated;
       completion_date := None;
       state_history :=
         [ {| from_status := None; to_status := Pendiente; at_ := stamp;
              by_user_id := u_id current_user;
              by_user_name := u_full_name current_user |} ];
       feedback := None;
       rejection_reason := None;
       review_evidence := None;
       reabierto_count := 0 |} in
  _ ← requests_insert_one (Request_dict new_request);
  mret new_request.

Definition no_set : SetOps :=
  {| set_status := None; set_updated_at := None; set_completion_date := None;
     set_rejection_reason := None; set_review_evidence := None;
     set_assigned_to := None; set_assigned_to_name := None;
     set_assigned_by_id := None; set_assigned_by_name := None;
     set_estimated_hours := None; set_estimated_due := None;
     set_level := None; set_priority := None; set_feedback := None |}.

(** [POST /requests/{request_id}/classify]. *)
Definition classify_request (request_id : pystr) (payload : ClassifyPayload)
    (current_user : User) : M Request :=
  current_user ← require_role [role_admin] current_user;
  odoc ← requests_find_one request_id;
  match odoc with
  | None => raise Request_not_found
  | Some doc =>
      now ← datetime_now;
      let update :=
        {| set_status := None; set_updated_at := Some now;
           set_completion_date := None;
           set_rejection_reason := None; set_review_evidence := None;
           set_assigned_to := None; set_assigned_to_name := None;
           set_assigned_by_id := None; set_assigned_by_name := None;
           set_estimated_hours := None; set_estimated_due := None;
           set_level := Some (Some (cp_level payload));
           set_priority := Some (cp_priority payload);
           set_feedback := None |} in
      _ ← requests_update_one request_id
            {| op_set := update; op_push := None; op_inc := None |};
      odoc' ← requests_find_one request_id;
      to_request_found odoc'
  end.

(** [payload.assigned_to or current_user.id]. *)
Definition target_user_id (payload : AssignPayload) (current_user : User) : pystr :=
  if opt_truthy (ap_assigned_to payload) then default [] (ap_assigned_to payload)
  else u_id current_user.

(** The [update] dictionary of [assign_request]. *)
Definition assign_update (target_user : User) (payload : AssignPayload)
    (current_user : User) (now : Z) : SetOps :=
  {| set_status := None; set_updated_at := Some now;
     set_completion_date := None;
     set_rejection_reason := None; set_review_evidence := None;
     set_assigned_to := Some (Some (u_id target_user));
     set_assigned_to_name := Some (Some (u_full_name target_user));
     set_assigned_by_id := Some (Some (u_id current_user));
     set_assigned_by_name := Some (Some (u_full_name current_user));
     set_estimated_hours := Some (ap_estimated_hours payload);
     set_estimated_due := Some (ap_estimated_due payload);
     set_level := None; set_priority := None;
     set_feedback := None |}.

(** The [update] dictionary of [unassign_request]. *)
Definition unassign_update (target_user : User) (payload : AssignPayload)
    (now : Z) : SetOps :=
  {| set_status := None; set_updated_at := Some now;
     set_completion_date := None;
     set_rejection_reason := None; set_review_evidence := None;
     set_assigned_to := Some (Some (u_id target_user));
     set_assigned_to_name := Some (Some (u_full_name target_user));
     set_assigned_by_id := None;
     set_assigned_by_name := None;
     set_estimated_hours := Some (ap_estimated_hours payload);
     set_estimated_due := Some (ap_estimated_due payload);
     set_level := None; set_priority := None;
     set_feedback := None |}.

(** [POST /requests/{request_id}/assign]. *)
Definition assign_request (request_id : pystr) (payload : AssignPayload)
    (current_user : User) : M Request :=
  current_user ← require_role [role_admin] current_user;
  odoc ← requests_find_one request_id;
  match odoc with
  | None => raise Request_not_found
  | Some doc =>
      otarget ← users_find_one (target_user_id payload current_user);
      match otarget with
      | None => raise Usuario_destino_no_encontrado
      | Some target_user =>
          now ← datetime_now;
          let update := assign_update target_user payload current_user now in
          _ ← requests_update_one request_id
                {| op_set := update; op_push := None; op_inc := None |};
          odoc' ← requests_find_one request_id;
          to_request_found odoc'
      end
  end.

(** [POST /requests/{request_id}/unassign]. *)
Definition unassign_request (request_id : pystr) (payload : AssignPayload)
    (current_user : User) : M Request :=
  current_user ← require_role [role_admin] current_user;
  odoc ← requests_find_one request_id;
  match odoc with
  | None => raise Request_not_found
  | Some doc =>
      otarget ← users_find_one (target_user_id payload current_user);
      match otarget with
      | None => raise Usuario_destino_no_encontrado
      | Some target_user =>
          now ← datetime_now;
          let update := unassign_update target_user payload now in
          _ ← requests_update_one request_id
                {| op_set := update; op_push := None; op_inc := None |};
          odoc' ← requests_find_one request_id;
          to_request_found odoc'
      end
  end.

(** The flat record written to [ticket_status_events]. *)
Definition status_event (eid request_id : pystr) (to : RequestStatus)
    (current_user : User) (now : Z) : StatusEvent :=
  {| se_id := eid; ticket_id := request_id; estado := status_label to;
     changed_by := u_id current_user; changed_at := now |}.

(** The rework increment: leaving [Finalizada] for an open state. *)
Definition rework_inc (old new : RequestStatus) : option Z :=
  if bool_decide (old = Finalizada) && is_member new OPEN_STATES
  then Some 1 else None.

(** The update document built by [transition_request]: [set_ops], the pushed
    history event (stamped by the [StateEvent] model) and the rework
    increment. *)
Definition transition_ops (old : RequestStatus) (payload : TransitionPayload)
    (current_user : User) (now stamp : Z) : UpdateOps :=
  let to := tp_to_status payload in
  let set_ops :=
    {| set_status := Some (VStr (status_label to));
       set_updated_at := Some now;
       set_completion_date :=
         if is_member to [Finalizada; Rechazada] then Some (Some now) else None;
       set_rejection_reason :=
         if bool_decide (to = Rechazada)
         then Some (Some (strip (default [] (tp_comment payload))))
         else None;
       set_review_evidence :=
         if bool_decide (to = En_revision)
         then Some (Some {| re_type := s2p "link";
                            re_url := strip (default [] (tp_evidence_link payload));
                            re_by := u_id current_user;
                            re_at := now |})
         else None;
       set_assigned_to := None; set_assigned_to_name := None;
       set_assigned_by_id := None; set_assigned_by_name := None;
       set_estimated_hours := None; set_estimated_due := None;
       set_level := None; set_priority := None; set_feedback := None |} in
  let history_event :=
    {| from_status := Some old; to_status := to; at_ := stamp;
       by_user_id := u_id current_user;
       by_user_name := u_full_name current_user |} in
  {| op_set := set_ops; op_push := Some history_event;
     op_inc := rework_inc old to |}.

(** [POST /requests/{request_id}/transition]. *)
Definition transition_request (request_id : pystr) (payload : TransitionPayload)
    (current_user : User) : M Request :=
  current_user ← require_role [role_support; role_admin] current_user;
  odoc ← requests_find_one request_id;
  match odoc with
  | None => raise Request_not_found
  | Some doc =>
      current ← lift (_to_request doc);
      let to := tp_to_status payload in
      _ ← lift (ensure_transition (status current) to);
      now ← datetime_now;
      _ ← (if bool_decide (to = Rechazada) && is_blank (tp_comment payload)
           then raise Motivo_rechazo_requerido else mret tt : M unit);
      _ ← (if bool_decide (to = En_revision) then
             let allowed := [d_assigned_to doc; d_assigned_by_id doc] in
             if bool_decide (Some (u_id current_user) ∉ allowed)
                && bool_decide (u_role current_user ≠ role_admin)
             then raise Solo_asignado_o_asignador
             else if is_blank (tp_evidence_link payload)
                  then raise Evidencia_requerida
                  else mret tt
           else mret tt : M unit);
      stamp ← datetime_now;
      let ops := transition_ops (status current) payload current_user now stamp in
      _ ← requests_update_one request_id ops;
      eid ← uuid4;
      _ ← ticket_status_events_insert_one
            (status_event eid request_id to current_user now);
      odoc' ← requests_find_one request_id;
      to_request_found odoc'
  end.

(** [POST /requests/{request_id}/feedback]. *)
Definition submit_feedback (request_id : pystr) (payload : FeedbackPayload)
    (current_user : User) : M Request :=
  current_user ← require_role [role_employee; role_admin; role_support] current_user;
  odoc ← requests_find_one request_id;
  match odoc with
  | None => raise Request_not_found
  | Some doc =>
      req ← lift (_to_request doc);
      if bool_decide (u_role current_user ≠ role_admin)
         && bool_decide (requester_id req ≠ u_id current_user)
      then raise Solo_solicitante_feedback
      else if bool_decide (status req ≠ Finalizada)
      then raise Solicitud_no_finalizada
      else if bool_decide (is_Some (feedback req))
      then raise Feedback_ya_registrado
      else
        stamp ← datetime_now;
        let fb :=
          {| fb_rating := fp_rating payload; fb_comment := fp_comment payload;
             fb_at := stamp; fb_by_user_id := u_id current_user;
             fb_by_user_name := u_full_name current_user |} in
        let update :=
          {| set_status := None; set_updated_at := None;
             set_completion_date := None;
             set_rejection_reason := None; set_review_evidence := None;
             set_assigned_to := None; set_assigned_to_name := None;
             set_assigned_by_id := None; set_assigned_by_name := None;
             set_estimated_hours := None; set_estimated_due := None;
             set_level := None; set_priority := None;
             set_feedback := Some (Some fb) |} in
        _ ← requests_update_one request_id
              {| op_set := update; op_push := None; op_inc := None |};
        odoc' ← requests_find_one request_id;
        to_request_found odoc'
  end.

(** The status change a generic update asks for: the key is present, its
    value is truthy and differs from the current status. *)
Definition requested_status_change (request_update : RequestUpdate)
    (current : Request) : option RequestStatus :=
  match ru_status request_update with
  | Some (Some new) => if bool_decide (new ≠ status current) then Some new else None
  | _ => None
  end.

(** [PUT /requests/{request_id}], the generic update kept for
    compatibility. *)
Definition update_request_generic (request_id : pystr)
    (request_update : RequestUpdate) (current_user : User) : M Request :=
  current_user ← require_role [role_support; role_admin] current_user;
  odoc ← requests_find_one request_id;
  match odoc with
  | None => raise Request_not_found
  | Some doc =>
      current ← lift (_to_request doc);
      now ← datetime_now;
      transition ←
        match requested_status_change request_update current with
        | Some new =>
            _ ← lift (ensure_transition (status current) new);
            stamp ← datetime_now;
            let history_event :=
              {| from_status := Some (status current); to_status := new;
                 at_ := stamp; by_user_id := u_id current_user;
                 by_user_name := u_full_name current_user |} in
            eid ← uuid4;
            _ ← ticket_status_events_insert_one
                  (status_event eid request_id new current_user now);
            mret (if is_member new [Finalizada; Rechazada]
                  then Some (Some now) else None,
                  Some history_event,
                  rework_inc (status current) new)
        | None => mret (None, None, None)
        end;
      let '(completion, push, inc) := transition in
      assigned_name ←
        match ru_assigned_to request_update with
        | Some (Some uid) =>
            if str_truthy uid then
              ou ← users_find_one uid;
              mret (match ou with
                    | Some assigned_user => Some (Some (u_full_name assigned_user))
                    | None => None
                    end)
            else mret None
        | _ => mret None
        end;
      let update_data :=
        {| set_status :=
             match ru_status request_update with
             | Some (Some new) => Some (VStr (status_label new))
             | Some None => Some VNone
             | None => None
             end;
           set_updated_at := Some now;
           set_completion_date := completion;
           set_rejection_reason := None; set_review_evidence := None;
           set_assigned_to := ru_assigned_to request_update;
           set_assigned_to_name := assigned_name;
           set_assigned_by_id := None; set_assigned_by_name := None;
           set_estimated_hours := ru_estimated_hours request_update;
           set_estimated_due := ru_estimated_due request_update;
           set_level := None; set_priority := None; set_feedback := None |} in
      _ ← requests_update_one request_id
            {| op_set := update_data; op_push := push; op_inc := inc |};
      odoc' ← requests_find_one request_id;
      to_request_found odoc'
  end.

(** ** Time by state *)

(** [timedelta.total_seconds() / 3600] for a difference in microseconds. *)
Definition hours (delta_us : Z) : Qc := Q2Qc (delta_us # 3600000000).

(** Nearest integer, ties to the even one. *)
Definition round_half_even (q : Q) : Z :=
  let f := Qfloor q in
  match (q - inject_Z f ?= 1 # 2)%Q with
  | Lt => f
  | Gt => f + 1
  | Eq => if Z.even f then f else f + 1
  end.

(** [round(v, 1)]. *)
Definition round1 (v : Qc) : Qc :=
  Q2Qc (round_half_even (10 * v) # 10).

(** [if delta_h > 0: state_time[st] += delta_h] on a [defaultdict(float)]. *)
Definition add_hours (st : pystr) (delta_h : Qc) (state_time : gmap pystr Qc) :
    gmap pystr Qc :=
  if bool_decide (0 < delta_h)%Qc
  then <[st := (default 0 (state_time !! st) + delta_h)%Qc]> state_time
  else state_time.

(** Binary order of two strings, as the store sorts them. *)
Fixpoint str_compare (a b : pystr) : comparison :=
  match a, b with
  | [], [] => Eq
  | [], _ :: _ => Lt
  | _ :: _, [] => Gt
  | x :: a', y :: b' =>
      match (x ?= y)%N with
      | Eq => str_compare a' b'
      | c => c
      end
  end.

(** The sort key [[("ticket_id", 1), ("changed_at", 1)]]. *)
Definition event_leb (e1 e2 : StatusEvent) : bool :=
  match str_compare (ticket_id e1) (ticket_id e2) with
  | Lt => true
  | Eq => changed_at e1 <=? changed_at e2
  | Gt => false
  end.

Definition time_leb (e1 e2 : StatusEvent) : bool :=
  changed_at e1 <=? changed_at e2.

Section insertion_sort.
Context {A : Type} (leb : A → A → bool).

Fixpoint insert_sorted (x : A) (l : list A) : list A :=
  match l with
  | [] => [x]
  | y :: l' => if leb x y then x :: l else y :: insert_sorted x l'
  end.

(** Insertion sort.  The store leaves the order of records with equal keys
    open; here they keep the order of the input. *)
Definition sort_by (l : list A) : list A := foldr insert_sorted [] l.

End insertion_sort.

(** The cursor is read with [to_list(200000)]. *)
Definition to_list_limit : nat := Z.to_nat 200000.

(** One iteration of the loop over the sorted events. *)
Definition time_step (acc : gmap pystr Qc * gmap pystr (pystr * Z))
    (ev : StatusEvent) : gmap pystr Qc * gmap pystr (pystr * Z) :=
  let '(state_time, last) := acc in
  let tid := ticket_id ev in
  let st := estado ev in
  let t := changed_at ev in
  let state_time' :=
    match last !! tid with
    | Some (prev_state, prev_t) => add_hours prev_state (hours (t - prev_t)) state_time
    | None => state_time
    end in
  (state_time', <[tid := (st, t)]> last).

(** The loop over [last.items()] that closes every ticket at [end_].  The
    order of the items does not matter for the sums. *)
Definition close_open_segments (end_ : Z) (state_time : gmap pystr Qc)
    (last : gmap pystr (pystr * Z)) : gmap pystr Qc :=
  map_fold (λ _ '(st, last_t) acc, add_hours st (hours (end_ - last_t)) acc)
           state_time last.

(** [GET /metrics/time-by-state], given the stored events and the end of the
    resolved range; the result is [hours_by_state]. *)
Definition metrics_time_by_state (stored : list StatusEvent) (end_ : Z) :
    gmap pystr Qc :=
  let ticket_ids :=
    remove_dups (ticket_id <$> filter (λ e, changed_at e ≤ end_) stored) in
  let events :=
    take to_list_limit
      (sort_by event_leb (filter (λ e, ticket_id e ∈ ticket_ids) stored)) in
  let '(state_time, last) := foldl time_step (∅, ∅) events in
  round1 <$> close_open_segments end_ state_time last.

(** *** The algorithm as the specification words it *)

(** Walking one ticket's events in time order: every event closes the
    segment of the previous state, and the window end closes the last one. *)
Fixpoint walk (prev_state : pystr) (prev_time : Z) (evs : list StatusEvent)
    (window_end : Z) : list (pystr * Qc) :=
  match evs with
  | [] => [(prev_state, hours (window_end - prev_time))]
  | e :: rest =>
      (prev_state, hours (changed_at e - prev_time))
        :: walk (estado e) (changed_at e) rest window_end
  end.

Definition ticket_segments (evs : list StatusEvent) (window_end : Z) :
    list (pystr * Qc) :=
  match evs with
  | [] => []
  | e :: rest => walk (estado e) (changed_at e) rest window_end
  end.

(** Summing segments per state, skipping the ones that are not positive. *)
Definition sum_segments (segs : list (pystr * Qc)) (totals : gmap pystr Qc) :
    gmap pystr Qc :=
  foldr (λ seg acc, add_hours seg.1 seg.2 acc) totals segs.

Definition spec_time_by_state (log : list StatusEvent) (window_end : Z) :
    gmap pystr Qc :=
  let upto := filter (λ e, changed_at e ≤ window_end) log in
  let tickets := remove_dups (ticket_id <$> upto) in
  let segments :=
    tid ← tickets;
    ticket_segments
      (sort_by time_leb (filter (λ e, ticket_id e = tid) upto)) window_end in
  round1 <$> sum_segments segments ∅.

(** ** Vocabulary of the properties *)

(** The roles admitted by the transition and generic update endpoints. *)
Definition staff (u : User) : Prop := u_role u ∈ [role_support; role_admin].

(** Who may send a ticket to review: the assignee, whoever assigned it, or an
    admin. *)
Definition may_send_to_review (doc : Doc) (u : User) : Prop :=
  Some (u_id u) ∈ [d_assigned_to doc; d_assigned_by_id doc]
  ∨ u_role u = role_admin.

(** The [Request] a stored document is read as. *)
Definition request_view (d : Doc) : Request :=
  {| id := d_id d; title := d_title d; description := d_description d;
     priority := d_priority d;
     type_ := default Soporte (d_type d);
     channel := default Sistema (d_channel d);
     level := d_level d;
     status := doc_status d;
     requester_id := d_requester_id d;
     requester_name := d_requester_name d;
     department := d_department d;
     assigned_to := d_assigned_to d;
     assigned_to_name := d_assigned_to_name d;
     estimated_hours := d_estimated_hours d;
     estimated_due := d_estimated_due d;
     requested_at := d_requested_at d;
     created_at := d_created_at d;
     updated_at := d_updated_at d;
     completion_date := d_completion_date d;
     state_history := d_state_history d;
     feedback := d_feedback d;
     rejection_reason := d_rejection_reason d;
     review_evidence := d_review_evidence d;
     reabierto_count := d_reabierto_count d |}.

(** What a handler returned, if it did not raise. *)
Definition returned {A} (x : result A * World) : option A :=
  match x.1 with
  | Ok a => Some a
  | Raise _ => None
  end.


(** Writing who assigned, and nothing else. *)
Definition record_assigner (current_user : User) : UpdateOps :=
  {| op_set :=
       {| set_status := None; set_updated_at := None;
          set_completion_date := None;
          set_rejection_reason := None; set_review_evidence := None;
          set_assigned_to := None; set_assigned_to_name := None;
          set_assigned_by_id := Some (Some (u_id current_user));
          set_assigned_by_name := Some (Some (u_full_name current_user));
          set_estimated_hours := None; set_estimated_due := None;
          set_level := None; set_priority := None; set_feedback := None |};
     op_push := None; op_inc := None |}.

(** ** Reachable stores *)

(** One call of a handler of the request life cycle, whatever its outcome. *)
Inductive step (w : World) : World → Prop :=
  | step_create payload u :
      step w (create_request payload u w).2
  | step_classify rid payload u :
      step w (classify_request rid payload u w).2
  | step_assign rid payload u :
      step w (assign_request rid payload u w).2
  | step_unassign rid payload u :
      step w (unassign_request rid payload u w).2
  | step_transition rid payload u :
      step w (transition_request rid payload u w).2
  | step_feedback rid payload u :
      step w (submit_feedback rid payload u w).2
  | step_update rid payload u :
      step w (update_request_generic rid payload u w).2.

(** The stores the handlers can build from an empty [requests] collection. *)
Definition reachable (w : World) : Prop :=
  ∃ w0, requests w0 = [] ∧ rtc step w0 w.

(** ** Vocabulary of the time-by-state proof *)




(** ** A sample run *)

Definition sample_user (name role : string) : User :=
  {| u_id := s2p name; u_username := s2p name; u_full_name := s2p name;
     u_department := s2p "Directivos"; u_position := s2p "Especialista";
     u_role := s2p role |}.

Definition admin_user : User := sample_user "admin" "admin".
Definition support_user : User := sample_user "soporte1" "support".
Definition employee_user : User := sample_user "facturacion1" "employee".

Definition empty_world : World :=
  {| requests := []; ticket_status_events := [];
     users := [admin_user; support_user; employee_user];
     clock := λ n, 1000000 * Z.of_nat n; ticks := 0;
     uuid_source := λ n, s2p "uuid-" ++ [N.of_nat (48 + n)]; uuids_drawn := 0 |}.

Definition sample_create : RequestCreate :=
  {| rc_title := s2p "Alertas de stock bajo";
     rc_description := s2p "Notificaciones de inventario";
     rc_priority := Media; rc_type := Mejora; rc_channel := None;
     rc_requested_at := None; rc_level := None; rc_assigned_to := None;
     rc_estimated_hours := None; rc_estimated_due := None |}.

Definition sample_ticket : pystr := uuid_source empty_world 0.

Definition to_ (to : RequestStatus) (comment evidence : option pystr) :
    TransitionPayload :=
  {| tp_to_status := to; tp_comment := comment; tp_evidence_link := evidence |}.

(** The ticket is created by an employee, taken by support, sent to review
    by the admin and finalised. *)
Definition world_pending : World :=
  (create_request sample_create employee_user empty_world).2.

Definition world_in_progress : World :=
  (transition_request sample_ticket (to_ En_progreso None None)
     support_user world_pending).2.

Definition world_in_review : World :=
  (transition_request sample_ticket
     (to_ En_revision None (Some (s2p " https://docs/evidencia ")))
     admin_user world_in_progress).2.

Definition world_finalized : World :=
  (transition_request sample_ticket (to_ Finalizada None None)
     support_user world_in_review).2.

(** A generic update that sends only [status]. *)
Definition only_status (new : RequestStatus) : RequestUpdate :=
  {| ru_status := Some (Some new); ru_assigned_to := None;
     ru_estimated_hours := None; ru_estimated_due := None |}.

Definition no_target : AssignPayload :=
  {| ap_assigned_to := None; ap_estimated_hours := None;
     ap_estimated_due := None |}.

(** A document written before the status vocabulary changed. *)
Definition legacy_doc : Doc :=
  {| d_id := s2p "legacy-1"; d_title := s2p "Reporte de ventas diarias";
     d_description := s2p "Reporte diario por email"; d_priority := Media;
     d_type := None; d_channel := None; d_level := None;
     d_status := Some (VStr (s2p "Completada"));
     d_requester_id := u_id employee_user;
     d_requester_name := u_full_name employee_user;
     d_department := s2p "Comerciales";
     d_assigned_to := None; d_assigned_to_name := None;
     d_assigned_by_id := None; d_assigned_by_name := None;
     d_estimated_hours := None; d_estimated_due := None;
     d_requested_at := 0; d_created_at := 0; d_updated_at := 0;
     d_completion_date := None; d_state_history := [];
     d_feedback := None; d_rejection_reason := None;
     d_review_evidence := None; d_reabierto_count := 0 |}.

(** ** Sample event logs *)

(** One hour, in microseconds. *)
Definition hour_us : Z := 3600000000.

(** The log of the worked example: one ticket, pending at [t0], in progress
    two hours later, finalised five hours after [t0]. *)
Definition example_log (tid : pystr) (u : User) (t0 : Z) : list StatusEvent :=
  [ status_event (s2p "ev-1") tid Pendiente u t0;
    status_event (s2p "ev-2") tid En_progreso u (t0 + 2 * hour_us);
    status_event (s2p "ev-3") tid Finalizada u (t0 + 5 * hour_us) ].




(** * Further handlers and their vocabulary *)

(** ** What the life-cycle handlers may do to a stored ticket *)

(** The status a value written under [status] is read back as. *)
Definition status_read (v : pyval) : RequestStatus :=
  default Pendiente (parse_status (normalize_status (Some v))).

(** The update documents the seven handlers build for the ticket [doc]:
    feedback is only written where there was none, the rework counter is not
    touched, at most one history entry is pushed, and a status that reads as
    [Finalizada] or [Rechazada] comes with a completion date unless the
    ticket already reads so. *)
Definition handler_update (doc : Doc) (ops : UpdateOps) : Prop :=
  (set_feedback (op_set ops) = None ∨ d_feedback doc = None)
  ∧ op_inc ops = None
  ∧ (set_completion_date (op_set ops) = None
     ∨ ∃ t, set_completion_date (op_set ops) = Some (Some t))
  ∧ (∀ v, set_status (op_set ops) = Some v →
       status_read v ∈ [Finalizada; Rechazada] →
       (∃ t, set_completion_date (op_set ops) = Some (Some t))
       ∨ doc_status doc = status_read v).

(** A ticket as [create_request] stores it. *)
Definition fresh_ticket (d : Doc) : Prop :=
  d_status d = Some (VStr (status_label Pendiente))
  ∧ length (d_state_history d) = 1%nat
  ∧ d_feedback d = None
  ∧ d_completion_date d = None
  ∧ d_reabierto_count d = 0.

(** How one handler call changes the [requests] collection, and whether it
    writes a flat event for the ticket it updates. *)
Inductive store_change (w w' : World) : Prop :=
  | change_none :
      requests w' = requests w →
      ticket_status_events w' = ticket_status_events w →
      store_change w w'
  | change_update rid ops doc :
      find_one rid (requests w) = Some doc →
      requests w' = update_one rid ops (requests w) →
      handler_update doc ops →
      (op_push ops = None ∧ ticket_status_events w' = ticket_status_events w
       ∨ ∃ ev sev, op_push ops = Some ev
           ∧ ticket_id sev = rid
           ∧ ticket_status_events w' = ticket_status_events w ++ [sev]) →
      store_change w w'
  | change_insert d :
      requests w' = requests w ++ [d] →
      ticket_status_events w' = ticket_status_events w →
      fresh_ticket d →
      store_change w w'.

(** The stores the handlers can build when both [requests] and
    [ticket_status_events] start empty. *)
Definition reachable_from_scratch (w : World) : Prop :=
  ∃ w0, requests w0 = [] ∧ ticket_status_events w0 = [] ∧ rtc step w0 w.

(** History entries held by the tickets stored under [rid], the number of
    those tickets, and the flat events written for [rid]. *)
Definition history_entries (rid : pystr) (w : World) : nat :=
  sum_list (length ∘ d_state_history
              <$> filter (λ d, d_id d = rid) (requests w)).

Definition tickets_with_id (rid : pystr) (w : World) : nat :=
  length (filter (λ d, d_id d = rid) (requests w)).

Definition flat_events_of (rid : pystr) (w : World) : nat :=
  length (filter (λ e, ticket_id e = rid) (ticket_status_events w)).

(** ** More of the sample run *)

Definition thumbs_up : FeedbackPayload :=
  {| fp_rating := up; fp_comment := Some (s2p "gracias") |}.

Definition thumbs_down : FeedbackPayload :=
  {| fp_rating := down; fp_comment := None |}.

(** The requester rates the finalised sample ticket. *)
Definition world_with_feedback : World :=
  (submit_feedback sample_ticket thumbs_up employee_user world_finalized).2.

(** ** One request to the life-cycle API *)

Inductive Call :=
  | Create (payload : RequestCreate)
  | Classify (request_id : pystr) (payload : ClassifyPayload)
  | Assign (request_id : pystr) (payload : AssignPayload)
  | Unassign (request_id : pystr) (payload : AssignPayload)
  | Transition (request_id : pystr) (payload : TransitionPayload)
  | SubmitFeedback (request_id : pystr) (payload : FeedbackPayload)
  | UpdateGeneric (request_id : pystr) (request_update : RequestUpdate).

(** The route table: the handler a request is dispatched to. *)
Definition handle (c : Call) (current_user : User) : M Request :=
  match c with
  | Create payload => create_request payload current_user
  | Classify rid payload => classify_request rid payload current_user
  | Assign rid payload => assign_request rid payload current_user
  | Unassign rid payload => unassign_request rid payload current_user
  | Transition rid payload => transition_request rid payload current_user
  | SubmitFeedback rid payload => submit_feedback rid payload current_user
  | UpdateGeneric rid upd => update_request_generic rid upd current_user
  end.

(** The calls that classify or (un)assign a ticket. *)
Definition administrative (c : Call) : Prop :=
  match c with
  | Classify _ _ | Assign _ _ | Unassign _ _ => True
  | _ => False
  end.

(** The life-cycle part of a stored ticket. *)
Definition same_life_cycle (d d' : Doc) : Prop :=
  d_id d' = d_id d ∧ d_status d' = d_status d
  ∧ d_state_history d' = d_state_history d
  ∧ d_completion_date d' = d_completion_date d
  ∧ d_feedback d' = d_feedback d
  ∧ d_rejection_reason d' = d_rejection_reason d
  ∧ d_review_evidence d' = d_review_evidence d
  ∧ d_reabierto_count d' = d_reabierto_count d.

(** A creation payload that asks for everything an admin may set. *)
Definition greedy_create : RequestCreate :=
  {| rc_title := s2p "Alta urgente"; rc_description := s2p "Con todo";
     rc_priority := Alta; rc_type := Soporte; rc_channel := Some Correo;
     rc_requested_at := Some 5; rc_level := Some 3;
     rc_assigned_to := Some (u_id support_user);
     rc_estimated_hours := Some (Q2Qc 2); rc_estimated_due := Some 77 |}.

Definition create_for_stranger : RequestCreate :=
  {| rc_title := s2p "Alta"; rc_description := s2p "Asignada a nadie";
     rc_priority := Baja; rc_type := Soporte; rc_channel := None;
     rc_requested_at := None; rc_level := None;
     rc_assigned_to := Some (s2p "nadie");
     rc_estimated_hours := None; rc_estimated_due := None |}.

(** A generic update that sends [status: null] and nothing else. *)
Definition null_status : RequestUpdate :=
  {| ru_status := Some None; ru_assigned_to := None;
     ru_estimated_hours := None; ru_estimated_due := None |}.

(** A generic update that hands the ticket to an id no user has. *)
Definition hand_to_stranger : RequestUpdate :=
  {| ru_status := None; ru_assigned_to := Some (Some (s2p "nadie"));
     ru_estimated_hours := None; ru_estimated_due := None |}.

(** The sample ticket as a store holds it. *)
Definition sample_doc (w : World) : Doc :=
  default legacy_doc (find_one sample_ticket (requests w)).

(** ** Migration of stored documents *)

(** [STATUS_SYNONYMS.items()], in the order the dictionary lists them. *)
Definition STATUS_SYNONYMS_items : list (pystr * pystr) :=
  [ (s2p "Completada", status_label Finalizada);
    (s2p "Completado", status_label Finalizada);
    (s2p "completada", status_label Finalizada);
    (s2p "completado", status_label Finalizada);
    (s2p "En Progreso", status_label En_progreso);
    (s2p "En Revisi" ++ [243%N] ++ s2p "n", status_label En_revision);
    (s2p "Cancelada", status_label Rechazada);
    (s2p "Cancelado", status_label Rechazada) ].

(** [{"$set": {"type": t}}], [{"$set": {"channel": c}}] and
    [{"$set": {"status": v}}] on one document. *)
Definition doc_set_type (t : RequestType) (d : Doc) : Doc :=
  {| d_id := d_id d; d_title := d_title d; d_description := d_description d;
     d_priority := d_priority d;
     d_type := Some t;
     d_channel := d_channel d;
     d_level := d_level d;
     d_status := d_status d;
     d_requester_id := d_requester_id d;
     d_requester_name := d_requester_name d;
     d_department := d_department d;
     d_assigned_to := d_assigned_to d;
     d_assigned_to_name := d_assigned_to_name d;
     d_assigned_by_id := d_assigned_by_id d;
     d_assigned_by_name := d_assigned_by_name d;
     d_estimated_hours := d_estimated_hours d;
     d_estimated_due := d_estimated_due d;
     d_requested_at := d_requested_at d;
     d_created_at := d_created_at d;
     d_updated_at := d_updated_at d;
     d_completion_date := d_completion_date d;
     d_state_history := d_state_history d;
     d_feedback := d_feedback d;
     d_rejection_reason := d_rejection_reason d;
     d_review_evidence := d_review_evidence d;
     d_reabierto_count := d_reabierto_count d |}.

Definition doc_set_channel (c : RequestChannel) (d : Doc) : Doc :=
  {| d_id := d_id d; d_title := d_title d; d_description := d_description d;
     d_priority := d_priority d;
     d_type := d_type d;
     d_channel := Some c;
     d_level := d_level d;
     d_status := d_status d;
     d_requester_id := d_requester_id d;
     d_requester_name := d_requester_name d;
     d_department := d_department d;
     d_assigned_to := d_assigned_to d;
     d_assigned_to_name := d_assigned_to_name d;
     d_assigned_by_id := d_assigned_by_id d;
     d_assigned_by_name := d_assigned_by_name d;
     d_estimated_hours := d_estimated_hours d;
     d_estimated_due := d_estimated_due d;
     d_requested_at := d_requested_at d;
     d_created_at := d_created_at d;
     d_updated_at := d_updated_at d;
     d_completion_date := d_completion_date d;
     d_state_history := d_state_history d;
     d_feedback := d_feedback d;
     d_rejection_reason := d_rejection_reason d;
     d_review_evidence := d_review_evidence d;
     d_reabierto_count := d_reabierto_count d |}.

Definition doc_set_status (v : pyval) (d : Doc) : Doc :=
  {| d_id := d_id d; d_title := d_title d; d_description := d_description d;
     d_priority := d_priority d;
     d_type := d_type d;
     d_channel := d_channel d;
     d_level := d_level d;
     d_status := Some v;
     d_requester_id := d_requester_id d;
     d_requester_name := d_requester_name d;
     d_department := d_department d;
     d_assigned_to := d_assigned_to d;
     d_assigned_to_name := d_assigned_to_name d;
     d_assigned_by_id := d_assigned_by_id d;
     d_assigned_by_name := d_assigned_by_name d;
     d_estimated_hours := d_estimated_hours d;
     d_estimated_due := d_estimated_due d;
     d_requested_at := d_requested_at d;
     d_created_at := d_created_at d;
     d_updated_at := d_updated_at d;
     d_completion_date := d_completion_date d;
     d_state_history := d_state_history d;
     d_feedback := d_feedback d;
     d_rejection_reason := d_rejection_reason d;
     d_review_evidence := d_review_evidence d;
     d_reabierto_count := d_reabierto_count d |}.

(** [db.requests.update_many(query, {"$set": ...})]: every document the
    query selects is rewritten, in place. *)
Definition update_many (query : Doc → bool) (set : Doc → Doc) (l : list Doc) :
    list Doc :=
  (λ d, if query d then set d else d) <$> l.

Definition requests_update_many (query : Doc → bool) (set : Doc → Doc) : M unit :=
  λ w, (Ok tt, with_requests (update_many query set (requests w)) w).

(** A [for] loop over a list, for its effects. *)
Fixpoint for_each {A} (l : list A) (body : A → M unit) : M unit :=
  match l with
  | [] => mret tt
  | x :: l' => _ ← body x; for_each l' body
  end.

(** [migrate_requests_schema], run at start-up. *)
Definition migrate_requests_schema : M unit :=
  _ ← requests_update_many (λ d, bool_decide (d_type d = None))
        (doc_set_type Soporte);
  _ ← requests_update_many (λ d, bool_decide (d_channel d = None))
        (doc_set_channel Sistema);
  _ ← requests_update_many (λ d, bool_decide (d_status d = None))
        (doc_set_status (VStr (status_label Pendiente)));
  for_each STATUS_SYNONYMS_items (λ kv,
    requests_update_many (λ d, bool_decide (d_status d = Some (VStr kv.1)))
      (doc_set_status (VStr kv.2))).

(** A stored status that normalisation recognises: absent, or a valid label
    once the synonyms are applied. *)
Definition known_status (d : Doc) : Prop :=
  match d_status d with
  | None => True
  | Some v => in_valid_statuses (apply_synonym v) = true
  end.

(** A store of documents written before the status vocabulary changed. *)
Definition odd_doc : Doc := doc_set_status (VStr (s2p "Archivada")) legacy_doc.

Definition legacy_world : World :=
  with_requests [legacy_doc; odd_doc] world_in_progress.

(** One pass of normalisation over a stored document that keeps a status it
    does not know: the defaults are filled in and the synonyms applied. *)
Definition migrated (d : Doc) : Doc :=
  doc_set_status (apply_synonym (default (VStr (status_label Pendiente)) (d_status d)))
    (doc_set_channel (default Sistema (d_channel d))
       (doc_set_type (default Soporte (d_type d)) d)).

(** ** Administration: users and the trash *)

(** The errors of the administration and login endpoints, beside those of
    the life-cycle handlers. *)
Inductive AdminException :=
  | Handler_error (e : HTTPException)
  | No_puedes_eliminarte
  | Usuario_no_encontrado
  | Ultimo_administrador
  | Solicitudes_abiertas_asignadas
  | No_esta_en_papelera
  | Ya_existe_solicitud
  | Credentials_required
  | Demasiados_intentos_fallidos
  | Incorrect_username_or_password.

Definition admin_status_code (e : AdminException) : Z :=
  match e with
  | Handler_error e => status_code e
  | No_puedes_eliminarte => 400
  | Usuario_no_encontrado => 404
  | Ultimo_administrador => 400
  | Solicitudes_abiertas_asignadas => 400
  | No_esta_en_papelera => 404
  | Ya_existe_solicitud => 409
  | Credentials_required => 422
  | Demasiados_intentos_fallidos => 429
  | Incorrect_username_or_password => 401
  end.

Inductive answer (A : Type) :=
  | Answer (a : A)
  | Refuse (e : AdminException).
Arguments Answer {A} a.
Arguments Refuse {A} e.

(** Handlers over a store [S]. *)
Definition AM (S A : Type) : Type := S → answer A * S.

#[global] Instance AM_ret {S} : MRet (AM S) := λ A a s, (Answer a, s).

#[global] Instance AM_bind {S} : MBind (AM S) := λ A B f m s,
  match m s with
  | (Answer a, s') => f a s'
  | (Refuse e, s') => (Refuse e, s')
  end.

Definition refuse {S A} (e : AdminException) : AM S A := λ s, (Refuse e, s).

Definition answered {S A} (x : answer A * S) : option A :=
  match x.1 with
  | Answer a => Some a
  | Refuse _ => None
  end.

Definition with_users (us : list User) (w : World) : World :=
  {| requests := requests w; ticket_status_events := ticket_status_events w;
     users := us; clock := clock w; ticks := ticks w;
     uuid_source := uuid_source w; uuids_drawn := uuids_drawn w |}.

(** [{"status": {"$in": list(OPEN_STATES)}}]: the stored value is one of the
    three labels. *)
Definition stored_open (d : Doc) : bool :=
  match d_status d with
  | Some (VStr s) => bool_decide (s ∈ status_label <$> OPEN_STATES)
  | _ => false
  end.

(** [db.users.delete_one({"id": user_id})]. *)
Fixpoint users_delete_one (uid : pystr) (l : list User) : list User :=
  match l with
  | [] => []
  | u :: l' => if bool_decide (u_id u = uid) then l' else u :: users_delete_one uid l'
  end.

(** The dependency [require_role] of the administration endpoints. *)
Definition admin_only {S} (current_user : User) : AM S User :=
  if bool_decide (u_role current_user ∈ [role_admin]) then mret current_user
  else refuse (Handler_error Not_authorized).

(** [DELETE /users/{user_id}]. *)
Definition delete_user (user_id : pystr) (current_user : User) : AM World unit :=
  current_user ← admin_only current_user;
  if bool_decide (user_id = u_id current_user) then refuse No_puedes_eliminarte
  else
    user_doc ← (λ w, (Answer (find_user user_id (users w)), w));
    match user_doc with
    | None => refuse Usuario_no_encontrado
    | Some user_doc =>
        _ ← (if bool_decide (u_role user_doc = role_admin) then
               admins ← (λ w, (Answer (length (filter (λ u, u_role u = role_admin)
                                                  (users w))), w));
               if bool_decide (admins ≤ 1)%nat then refuse Ultimo_administrador
               else mret tt
             else mret tt : AM World unit);
        open_assigned ← (λ w,
          (Answer (length (filter (λ d, d_assigned_to d = Some user_id
                                        ∧ stored_open d = true) (requests w))), w));
        if bool_decide (0 < open_assigned)%nat
        then refuse Solicitudes_abiertas_asignadas
        else λ w, (Answer tt, with_users (users_delete_one user_id (users w)) w)
    end.

(** The sample ticket, assigned to the support user and then updated with
    [status: null]. *)
Definition world_assigned : World :=
  (assign_request sample_ticket
     {| ap_assigned_to := Some (u_id support_user); ap_estimated_hours := None;
        ap_estimated_due := None |} admin_user world_in_progress).2.

Definition world_reset : World :=
  (update_request_generic sample_ticket null_status admin_user world_assigned).2.

(** What the handlers write under [status]: one of the five labels, or the
    null of a generic update. *)
Definition written_status (d : Doc) : Prop :=
  d_status d = Some VNone ∨ ∃ st, d_status d = Some (VStr (status_label st)).

(** *** The trash *)

(** A document of the [requests_trash] collection. *)
Record TrashDoc := {
  t_id : pystr;
  request_doc : Doc;
  deleted_at : Z;
  deleted_by_id : pystr;
  deleted_by_name : pystr;
  expireAt : Z;
}.

(** The store of the trash endpoints: the live collections, the trash, and
    whether [ensure_trash_indexes] managed to create the unique index on the
    trash's [id] (its failure is swallowed at start-up). *)
Record Archive := {
  live : World;
  requests_trash : list TrashDoc;
  trash_id_unique : bool;
}.

Definition with_live (w : World) (a : Archive) : Archive :=
  {| live := w; requests_trash := requests_trash a;
     trash_id_unique := trash_id_unique a |}.

Definition with_trash (ts : list TrashDoc) (a : Archive) : Archive :=
  {| live := live a; requests_trash := ts;
     trash_id_unique := trash_id_unique a |}.

Definition TRASH_TTL_DAYS : Z := 14.

(** [timedelta(days=n)], in microseconds. *)
Definition days_us (n : Z) : Z := n * 86400000000.

Fixpoint trash_find_one (rid : pystr) (l : list TrashDoc) : option TrashDoc :=
  match l with
  | [] => None
  | t :: l' => if bool_decide (t_id t = rid) then Some t else trash_find_one rid l'
  end.

(** [delete_one({"id": rid})] on the trash and on the live collection. *)
Fixpoint trash_delete_one (rid : pystr) (l : list TrashDoc) : list TrashDoc :=
  match l with
  | [] => []
  | t :: l' => if bool_decide (t_id t = rid) then l' else t :: trash_delete_one rid l'
  end.

Fixpoint requests_delete_one (rid : pystr) (l : list Doc) : list Doc :=
  match l with
  | [] => []
  | d :: l' => if bool_decide (d_id d = rid) then l' else d :: requests_delete_one rid l'
  end.

(** [datetime.now(timezone.utc)] in a trash endpoint. *)
Definition archive_now : AM Archive Z := λ a,
  (Answer (clock (live a) (ticks (live a))), with_live (datetime_now (live a)).2 a).

(** [db.requests_trash.insert_one]: a duplicate key is an unhandled error
    when the unique index is there. *)
Definition requests_trash_insert_one (t : TrashDoc) : AM Archive unit := λ a,
  if trash_id_unique a && bool_decide (is_Some (trash_find_one (t_id t) (requests_trash a)))
  then (Refuse (Handler_error Internal_server_error), a)
  else (Answer tt, with_trash (requests_trash a ++ [t]) a).

(** [DELETE /requests/{request_id}]: the ticket moves to the trash. *)
Definition delete_request (request_id : pystr) (current_user : User) :
    AM Archive unit :=
  current_user ← admin_only current_user;
  doc ← (λ a, (Answer (find_one request_id (requests (live a))), a));
  match doc return AM Archive unit with
  | None => refuse (Handler_error Request_not_found)
  | Some doc =>
      now ← archive_now;
      let trash_doc :=
        {| t_id := d_id doc; request_doc := doc; deleted_at := now;
           deleted_by_id := u_id current_user;
           deleted_by_name := u_full_name current_user;
           expireAt := now + days_us TRASH_TTL_DAYS |} in
      _ ← requests_trash_insert_one trash_doc;
      ((λ a, (Answer tt,
              with_live (with_requests
                           (requests_delete_one request_id (requests (live a)))
                           (live a)) a)) : AM Archive unit)
  end.

(** [doc["updated_at"] = ...]. *)
Definition doc_set_updated_at (t : Z) (d : Doc) : Doc :=
  apply_update
    {| op_set :=
         {| set_status := None; set_updated_at := Some t;
            set_completion_date := None;
            set_rejection_reason := None; set_review_evidence := None;
            set_assigned_to := None; set_assigned_to_name := None;
            set_assigned_by_id := None; set_assigned_by_name := None;
            set_estimated_hours := None; set_estimated_due := None;
            set_level := None; set_priority := None; set_feedback := None |};
       op_push := None; op_inc := None |} d.

(** [POST /requests/{request_id}/restore]. *)
Definition restore_request (request_id : pystr) (current_user : User) :
    AM Archive Request :=
  current_user ← admin_only current_user;
  tr ← (λ a, (Answer (trash_find_one request_id (requests_trash a)), a));
  match tr return AM Archive Request with
  | None => refuse No_esta_en_papelera
  | Some tr =>
      exists_ ← (λ a, (Answer (find_one request_id (requests (live a))), a));
      match exists_ return AM Archive Request with
      | Some _ => refuse Ya_existe_solicitud
      | None =>
          now ← archive_now;
          let doc := doc_set_updated_at now (request_doc tr) in
          _ ← (λ a, (Answer tt,
                     with_live (with_requests (requests (live a) ++ [doc])
                                  (live a)) a));
          _ ← (λ a, (Answer tt,
                     with_trash (trash_delete_one request_id (requests_trash a)) a));
          match _to_request doc with
          | Ok r => mret r
          | Raise e => refuse (Handler_error e)
          end
      end
  end.





Definition sample_archive : Archive :=
  {| live := world_finalized; requests_trash := []; trash_id_unique := true |}.

(** The ticket a life-cycle call is about. *)
Definition call_target (c : Call) : option pystr :=
  match c with
  | Create _ => None
  | Classify rid _ | Assign rid _ | Unassign rid _ | Transition rid _
  | SubmitFeedback rid _ | UpdateGeneric rid _ => Some rid
  end.

(** ** More metrics *)

(** [db.requests.count_documents(query)]. *)
Definition requests_count_documents (query : Doc → bool) : M Z := λ w,
  (Ok (Z.of_nat (length (filter (λ d, query d = true) (requests w)))), w).

(** The answer of [GET /metrics/rework]. *)
Record ReworkReport := {
  rw_total : Z;
  rw_con_retrabajo : Z;
  rw_pct : Qc;
}.

(** [GET /metrics/rework] over the range [start .. end_] that
    [_resolve_range] has returned.  The [$group] stage yields one row when a
    ticket matches and none otherwise; the percentage is the store's
    floating-point quotient, here an exact rational. *)
Definition metrics_rework (start end_ : Z) (current_user : User) : M ReworkReport :=
  _ ← require_role [role_support; role_admin] current_user;
  ((λ w,
    let matched :=
      filter (λ d, start ≤ d_requested_at d ≤ end_) (requests w) in
    let total := Z.of_nat (length matched) in
    let con_retrabajo :=
      Z.of_nat (length (filter (λ d, 0 < d_reabierto_count d) matched)) in
    let base :=
      match matched with
      | [] => []
      | _ => [ {| rw_total := total; rw_con_retrabajo := con_retrabajo;
                  rw_pct := if bool_decide (0 < total)
                            then (Q2Qc (inject_Z con_retrabajo)
                                  / Q2Qc (inject_Z total) * Q2Qc 100)%Qc
                            else Q2Qc 0 |} ]
      end in
    (Ok (default {| rw_total := 0; rw_con_retrabajo := 0; rw_pct := Q2Qc 0 |}
           (head base)), w)) : M ReworkReport).

(** [t.replace(hour=0, minute=0, second=0, microsecond=0)] for an aware UTC
    time. *)
Definition midnight (t : Z) : Z := t - t mod days_us 1.

(** A row of [GET /metrics/backlog-trend]. *)
Record TrendRow := {
  tr_date : Z;
  tr_new : Z;
  tr_closed : Z;
  tr_backlog : Z;
}.

Definition requested_within (d0 d1 : Z) (d : Doc) : bool :=
  bool_decide (d0 ≤ d_requested_at d < d1).

Definition completed_within (d0 d1 : Z) (d : Doc) : bool :=
  match d_completion_date d with
  | Some t => bool_decide (d0 ≤ t < d1)
  | None => false
  end.

(** The loop of [backlog_trend] over [range(days)]. *)
Fixpoint trend_rows (start_day : Z) (range : list Z) (acc_new acc_closed : Z) :
    M (list TrendRow) :=
  match range with
  | [] => mret []
  | i :: range' =>
      let d0 := start_day + days_us i in
      let d1 := d0 + days_us 1 in
      new_d ← requests_count_documents (requested_within d0 d1);
      closed_d ← requests_count_documents (completed_within d0 d1);
      let acc_new := acc_new + new_d in
      let acc_closed := acc_closed + closed_d in
      let backlog := Z.max (acc_new - acc_closed) 0 in
      rows ← trend_rows start_day range' acc_new acc_closed;
      mret ({| tr_date := d0; tr_new := new_d; tr_closed := closed_d;
               tr_backlog := backlog |} :: rows)
  end.

(** The answer of [GET /metrics/backlog-trend]. *)
Record Trend := {
  trend_from : Z;
  trend_to : Z;
  trend_rows_ : list TrendRow;
}.

(** [GET /metrics/backlog-trend]. *)
Definition backlog_trend (days : Z) (current_user : User) : M Trend :=
  _ ← require_role [role_support; role_admin] current_user;
  tznow ← datetime_now;
  let end_day := midnight tznow in
  let start_day := end_day - days_us (days - 1) in
  rows ← trend_rows start_day (seqZ 0 days) 0 0;
  mret {| trend_from := start_day; trend_to := end_day; trend_rows_ := rows |}.

(** The number of stored tickets a query selects. *)
Definition selected (query : Doc → bool) (w : World) : Z :=
  Z.of_nat (length (filter (λ d, query d = true) (requests w))).

(** ** Listing tickets *)

#[global] Instance RequestType_eq_dec : EqDecision RequestType.
Proof. solve_decision. Defined.

#[global] Instance RequestChannel_eq_dec : EqDecision RequestChannel.
Proof. solve_decision. Defined.

(** The query parameters of [GET /requests]. *)
Record RequestsQuery := {
  gq_page : Z;
  gq_page_size : Z;
  gq_status : option RequestStatus;
  gq_department : option pystr;
  gq_q : option pystr;
  gq_sort : option pystr;
  gq_request_type : option RequestType;
  gq_level : option Z;
  gq_assigned_to : option pystr;
  gq_channel : option RequestChannel;
  gq_date_from : option Z;
  gq_date_to : option Z;
}.

Record PaginatedRequests := {
  items : list Request;
  pg_page : Z;
  pg_page_size : Z;
  pg_total : Z;
  pg_total_pages : Z;
  pg_has_prev : bool;
  pg_has_next : bool;
}.

(** The filter document [filt] of [get_requests], as the test it makes on a
    stored document; [text_search] stands for the store's [$text] operator. *)
Definition requests_filt (text_search : pystr → Doc → bool)
    (query : RequestsQuery) (current_user : User) (d : Doc) : bool :=
  (if bool_decide (u_role current_user = role_employee)
   then bool_decide (d_requester_id d = u_id current_user) else true)
  && match gq_status query with
     | Some st => bool_decide (d_status d = Some (VStr (status_label st)))
     | None => true
     end
  && (if opt_truthy (gq_department query)
      then bool_decide (Some (d_department d) = gq_department query) else true)
  && match gq_request_type query with
     | Some t => bool_decide (d_type d = Some t)
     | None => true
     end
  && match gq_level query with
     | Some l => if bool_decide (l ≠ 0) then bool_decide (d_level d = Some l) else true
     | None => true
     end
  && (if opt_truthy (gq_assigned_to query)
      then bool_decide (d_assigned_to d = gq_assigned_to query) else true)
  && match gq_channel query with
     | Some c => bool_decide (d_channel d = Some c)
     | None => true
     end
  && match gq_date_from query with
     | Some t => bool_decide (t ≤ d_requested_at d)
     | None => true
     end
  && match gq_date_to query with
     | Some t => bool_decide (d_requested_at d ≤ t)
     | None => true
     end
  && (if opt_truthy (gq_q query)
      then text_search (default [] (gq_q query)) d else true).

(** The field and the direction [get_requests] sorts by. *)
Definition sort_spec (sort : option pystr) : pystr * Z :=
  let default_spec := (s2p "created_at", -1) in
  let spec :=
    match sort with
    | Some s =>
        if str_truthy s then
          match s with
          | 45%N :: rest => (rest, -1)
          | _ => (s, 1)
          end
        else default_spec
    | None => default_spec
    end in
  if bool_decide (spec.1 ∈ [s2p "created_at"; s2p "status"; s2p "department";
                            s2p "requested_at"; s2p "priority"; s2p "level"])
  then spec else (s2p "created_at", spec.2).

(** [[_to_request(d) for d in docs]]. *)
Fixpoint to_requests (docs : list Doc) : result (list Request) :=
  match docs with
  | [] => Ok []
  | d :: docs' =>
      match _to_request d, to_requests docs' with
      | Ok r, Ok rs => Ok (r :: rs)
      | Raise e, _ => Raise e
      | _, Raise e => Raise e
      end
  end.

(** [GET /requests].  [cursor_sort field direction] stands for the store's
    [sort]. *)
Definition get_requests (cursor_sort : pystr → Z → list Doc → list Doc)
    (text_search : pystr → Doc → bool)
    (query : RequestsQuery) (current_user : User) : M PaginatedRequests := λ w,
  let filt := requests_filt text_search query current_user in
  let '(sort_field, sort_dir) := sort_spec (gq_sort query) in
  let found := filter (λ d, filt d = true) (requests w) in
  let total := Z.of_nat (length found) in
  let page_size := gq_page_size query in
  let total_pages := Z.max ((total + page_size - 1) `div` page_size) 1 in
  let page := Z.min (gq_page query) total_pages in
  let docs :=
    take (Z.to_nat page_size)
      (drop (Z.to_nat ((page - 1) * page_size))
         (cursor_sort sort_field sort_dir found)) in
  match to_requests docs with
  | Raise e => (Raise e, w)
  | Ok items =>
      (Ok {| items := items; pg_page := page; pg_page_size := page_size;
             pg_total := total; pg_total_pages := total_pages;
             pg_has_prev := bool_decide (1 < page);
             pg_has_next := bool_decide (page < total_pages) |}, w)
  end.

(** The documents [get_requests] reads for its page. *)
Definition listed (cursor_sort : pystr → Z → list Doc → list Doc)
    (text_search : pystr → Doc → bool)
    (query : RequestsQuery) (u : User) (w : World) : list Doc :=
  let found := filter (λ d, requests_filt text_search query u d = true)
                 (requests w) in
  let total := Z.of_nat (length found) in
  let page_size := gq_page_size query in
  let total_pages := Z.max ((total + page_size - 1) `div` page_size) 1 in
  let page := Z.min (gq_page query) total_pages in
  take (Z.to_nat page_size)
    (drop (Z.to_nat ((page - 1) * page_size))
       (cursor_sort (sort_spec (gq_sort query)).1 (sort_spec (gq_sort query)).2
          found)).

(** A query that asks for page [page] of [page_size] tickets and filters
    nothing. *)
Definition plain_query (page page_size : Z) : RequestsQuery :=
  {| gq_page := page; gq_page_size := page_size; gq_status := None;
     gq_department := None; gq_q := None; gq_sort := None;
     gq_request_type := None; gq_level := None; gq_assigned_to := None;
     gq_channel := None; gq_date_from := None; gq_date_to := None |}.

(** A store's sort that leaves the documents as found, and a text search
    that matches everything. *)
Definition natural_order : pystr → Z → list Doc → list Doc := λ _ _ l, l.
Definition match_all : pystr → Doc → bool := λ _ _, true.

(** ** Login and its lock *)


















(** * Properties *)

(** ** Reading stored documents *)

Lemma parse_status_label st : parse_status (VStr (status_label st)) = Some st.
Proof. by destruct st; vm_compute. Qed.

Example normalize_Completada :
  normalize_status (Some (VStr (s2p "Completada"))) = VStr (status_label Finalizada).
Proof. by vm_compute. Qed.

Lemma valid_status_is_label (s : pystr) :
  s ∈ VALID_STATUSES → ∃ st, s = status_label st.
Proof.
  unfold VALID_STATUSES. rewrite elem_of_list_to_set, list_elem_of_fmap.
  intros (st & -> & _). by exists st.
Qed.


Lemma normalize_status_label stored :
  ∃ st, normalize_status stored = VStr (status_label st).
Proof.
  unfold normalize_status.
  destruct (in_valid_statuses _) eqn:Hv; [|by exists Pendiente].
  destruct (apply_synonym _) as [|s|]; simpl in Hv; try done.
  apply bool_decide_eq_true in Hv.
  destruct (valid_status_is_label _ Hv) as [st ->]. by exists st.
Qed.

Lemma parse_normalize_status stored :
  parse_status (normalize_status stored) = Some (default Pendiente (parse_status (normalize_status stored))).
Proof.
  destruct (normalize_status_label stored) as [st ->].
  by rewrite parse_status_label.
Qed.

(** [_to_request] never fails, and reads the document with [doc_status]. *)
Lemma _to_request_view (doc : Doc) : _to_request doc = Ok (request_view doc).
Proof.
  unfold _to_request, Request_of_doc, request_view, doc_status. simpl.
  by rewrite parse_normalize_status.
Qed.

Lemma doc_status_stored_label (d : Doc) st :
  d_status d = Some (VStr (status_label st)) → doc_status d = st.
Proof.
  intros E. unfold doc_status. rewrite E. by destruct st; vm_compute.
Qed.

(** ** The store *)

Lemma find_one_update_one rid ops l d :
  find_one rid l = Some d →
  find_one rid (update_one rid ops l) = Some (apply_update ops d).
Proof.
  induction l as [|x l IH]; simpl; [done|].
  case_bool_decide as Hx; simpl.
  - intros [= ->]. by rewrite bool_decide_true.
  - intros Hl. rewrite bool_decide_false by done. auto.
Qed.

Arguments _to_request : simpl never.

(** Unfolding of the handler monad. *)
Ltac run :=
  unfold mbind, M_bind, mret, M_ret, raise, lift, require_role,
    requests_find_one, requests_update_one, requests_insert_one,
    ticket_status_events_insert_one, users_find_one, datetime_now, uuid4,
    to_request_found; simpl.

(** ** Transitions *)

Lemma ensure_transition_allowed old new :
  new ∈ ALLOWED_TRANSITIONS old → ensure_transition old new = Ok tt.
Proof. intros H. unfold ensure_transition. by rewrite bool_decide_true. Qed.

Lemma ensure_transition_refused old new :
  new ∉ ALLOWED_TRANSITIONS old →
  ensure_transition old new = Raise (Transicion_no_permitida old new).
Proof. intros H. unfold ensure_transition. by rewrite bool_decide_false. Qed.

(** A transition admitted by the table and by the rules of its target. *)
Lemma transition_request_success w rid doc p u :
  staff u →
  find_one rid (requests w) = Some doc →
  tp_to_status p ∈ ALLOWED_TRANSITIONS (doc_status doc) →
  (tp_to_status p = Rechazada → is_blank (tp_comment p) = false) →
  (tp_to_status p = En_revision →
     may_send_to_review doc u ∧ is_blank (tp_evidence_link p) = false) →
  let now := clock w (ticks w) in
  let stamp := clock w (S (ticks w)) in
  let ops := transition_ops (doc_status doc) p u now stamp in
  ∃ r w', transition_request rid p u w = (Ok r, w')
    ∧ r = request_view (apply_update ops doc)
    ∧ requests w' = update_one rid ops (requests w)
    ∧ find_one rid (requests w') = Some (apply_update ops doc)
    ∧ ticket_status_events w' =
        ticket_status_events w
          ++ [status_event (uuid_source w (uuids_drawn w)) rid (tp_to_status p) u now]
    ∧ users w' = users w.
Proof.
  intros Hrole Hfind Hallowed Hrej Hrev now stamp ops.
  unfold staff in Hrole.
  unfold transition_request. run.
  rewrite bool_decide_true by done. simpl.
  rewrite Hfind, !_to_request_view. simpl.
  rewrite ensure_transition_allowed by done. simpl.
  assert (bool_decide (tp_to_status p = Rechazada) && is_blank (tp_comment p) = false)
    as ->.
  { case_bool_decide; [by rewrite Hrej|done]. }
  simpl.
  assert ((if bool_decide (tp_to_status p = En_revision)
           then if bool_decide (Some (u_id u) ∉ [d_assigned_to doc; d_assigned_by_id doc])
                   && bool_decide (u_role u ≠ role_admin)
                then true else is_blank (tp_evidence_link p)
           else false) = false) as Hgate.
  { case_bool_decide as Hto; [|done].
    destruct (Hrev Hto) as [[Hin | Hadm] ->].
    - rewrite bool_decide_false; [done|]. by intros ?.
    - rewrite (bool_decide_false (_ ≠ _)); [by rewrite andb_false_r|]. by intros ?. }
  destruct (bool_decide (tp_to_status p = En_revision)); simpl.
  - destruct (_ && _); [done|]. rewrite Hgate. simpl.
    rewrite (find_one_update_one _ _ _ _ Hfind). fold now stamp ops.
    rewrite _to_request_view.
    eexists _, _. split; [done|]. simpl.
    by rewrite (find_one_update_one _ _ _ _ Hfind).
  - rewrite (find_one_update_one _ _ _ _ Hfind). fold now stamp ops.
    rewrite _to_request_view.
    eexists _, _. split; [done|]. simpl.
    by rewrite (find_one_update_one _ _ _ _ Hfind).
Qed.

(** A pair outside the table is refused before anything is read or
    written. *)
Lemma transition_request_refused w rid doc p u :
  staff u →
  find_one rid (requests w) = Some doc →
  tp_to_status p ∉ ALLOWED_TRANSITIONS (doc_status doc) →
  transition_request rid p u w =
    (Raise (Transicion_no_permitida (doc_status doc) (tp_to_status p)), w).
Proof.
  intros Hrole Hfind Hno. unfold staff in Hrole.
  unfold transition_request. run.
  rewrite bool_decide_true by done. simpl.
  rewrite Hfind, _to_request_view. simpl.
  by rewrite ensure_transition_refused.
Qed.

Lemma transition_request_no_comment w rid doc p u :
  staff u →
  find_one rid (requests w) = Some doc →
  tp_to_status p ∈ ALLOWED_TRANSITIONS (doc_status doc) →
  tp_to_status p = Rechazada →
  is_blank (tp_comment p) = true →
  ∃ w', transition_request rid p u w = (Raise Motivo_rechazo_requerido, w')
    ∧ requests w' = requests w
    ∧ ticket_status_events w' = ticket_status_events w.
Proof.
  intros Hrole Hfind Hal Hto Hblank. unfold staff in Hrole.
  unfold transition_request. run.
  rewrite bool_decide_true by done. simpl.
  rewrite Hfind, _to_request_view. simpl.
  rewrite ensure_transition_allowed by done. simpl.
  rewrite Hblank, bool_decide_true by done. simpl. by eexists.
Qed.

Lemma transition_request_not_reviewer w rid doc p u :
  staff u →
  find_one rid (requests w) = Some doc →
  tp_to_status p ∈ ALLOWED_TRANSITIONS (doc_status doc) →
  tp_to_status p = En_revision →
  ¬ may_send_to_review doc u →
  ∃ w', transition_request rid p u w = (Raise Solo_asignado_o_asignador, w')
    ∧ requests w' = requests w
    ∧ ticket_status_events w' = ticket_status_events w.
Proof.
  intros Hrole Hfind Hal Hto Hno. unfold staff in Hrole.
  unfold may_send_to_review in Hno.
  unfold transition_request. run.
  rewrite bool_decide_true by done. simpl.
  rewrite Hfind, _to_request_view. simpl.
  rewrite ensure_transition_allowed by done. simpl.
  rewrite Hto. simpl.
  rewrite !bool_decide_true by tauto. simpl. by eexists.
Qed.

Lemma transition_request_no_evidence w rid doc p u :
  staff u →
  find_one rid (requests w) = Some doc →
  tp_to_status p ∈ ALLOWED_TRANSITIONS (doc_status doc) →
  tp_to_status p = En_revision →
  may_send_to_review doc u →
  is_blank (tp_evidence_link p) = true →
  ∃ w', transition_request rid p u w = (Raise Evidencia_requerida, w')
    ∧ requests w' = requests w
    ∧ ticket_status_events w' = ticket_status_events w.
Proof.
  intros Hrole Hfind Hal Hto Hmay Hblank. unfold staff in Hrole.
  unfold transition_request. run.
  rewrite bool_decide_true by done. simpl.
  rewrite Hfind, _to_request_view. simpl.
  rewrite ensure_transition_allowed by done. simpl.
  rewrite Hto, Hblank. simpl.
  assert (bool_decide (Some (u_id u) ∉ [d_assigned_to doc; d_assigned_by_id doc])
          && bool_decide (u_role u ≠ role_admin) = false) as ->.
  { destruct Hmay as [Hin | Hadm].
    - rewrite bool_decide_false; [done|]. by intros ?.
    - rewrite (bool_decide_false (_ ≠ _)); [by rewrite andb_false_r|]. by intros ?. }
  simpl. by eexists.
Qed.

(** What a successful transition implies about its request. *)
Lemma transition_request_inv w rid doc p u r w' :
  staff u →
  find_one rid (requests w) = Some doc →
  transition_request rid p u w = (Ok r, w') →
  tp_to_status p ∈ ALLOWED_TRANSITIONS (doc_status doc)
  ∧ (tp_to_status p = Rechazada → is_blank (tp_comment p) = false)
  ∧ (tp_to_status p = En_revision →
       may_send_to_review doc u ∧ is_blank (tp_evidence_link p) = false).
Proof.
  intros Hrole Hfind Hrun.
  destruct (decide (tp_to_status p ∈ ALLOWED_TRANSITIONS (doc_status doc)))
    as [Hal|Hno]; last first.
  { by rewrite (transition_request_refused _ _ _ _ _ Hrole Hfind Hno) in Hrun. }
  split; [done|]. split.
  - intros Hto. destruct (is_blank (tp_comment p)) eqn:Hb; [|done].
    destruct (transition_request_no_comment _ _ _ _ _ Hrole Hfind Hal Hto Hb)
      as (? & E & _). by rewrite E in Hrun.
  - intros Hto.
    destruct (decide (may_send_to_review doc u)) as [Hmay|Hno].
    + split; [done|]. destruct (is_blank (tp_evidence_link p)) eqn:Hb; [|done].
      destruct (transition_request_no_evidence _ _ _ _ _ Hrole Hfind Hal Hto Hmay Hb)
        as (? & E & _). by rewrite E in Hrun.
    + destruct (transition_request_not_reviewer _ _ _ _ _ Hrole Hfind Hal Hto Hno)
        as (? & E & _). by rewrite E in Hrun.
Qed.

(** Closed decidable facts are settled by evaluation. *)
Ltac by_evaluation := apply (bool_decide_unpack _); vm_compute; exact I.

(** C1, the claim as stated, fails at a pair of the table: a pending ticket
    sent to [Rechazada] without a comment is refused with status 422, although
    ([Pendiente], [Rechazada]) is an allowed pair and the caller is support
    staff. *)
Lemma allowed_pair_refused_without_comment :
  staff support_user
  ∧ (doc_status <$> find_one sample_ticket (requests world_pending)) = Some Pendiente
  ∧ Rechazada ∈ ALLOWED_TRANSITIONS Pendiente
  ∧ (transition_request sample_ticket (to_ Rechazada None None)
       support_user world_pending).1 = Raise Motivo_rechazo_requerido.
Proof.
  split; [by_evaluation|]. split; [by vm_compute|].
  split; [by_evaluation|]. by vm_compute.
Qed.

(** C1 (amended): for a ticket read with status [old] and a target [to], if
    ([old], [to]) is in the transition table and the rules of the target hold
    (a non-blank comment for [Rechazada]; an entitled actor and a non-blank
    evidence link for [En_revision]), [transition_request] succeeds, appends
    exactly one [StateEvent] from [old] to [to] by the actor to the ticket's
    history and exactly one flat record to [ticket_status_events]; if the
    pair is not in the table it fails with the invalid-transition error and
    the whole store is unchanged. *)
Theorem transition_follows_table w rid doc p u :
  staff u →
  find_one rid (requests w) = Some doc →
  let old := doc_status doc in
  let to := tp_to_status p in
  (to ∈ ALLOWED_TRANSITIONS old →
   (to = Rechazada → is_blank (tp_comment p) = false) →
   (to = En_revision →
      may_send_to_review doc u ∧ is_blank (tp_evidence_link p) = false) →
   ∃ r w' doc' ev sev,
     transition_request rid p u w = (Ok r, w')
     ∧ find_one rid (requests w') = Some doc'
     ∧ doc_status doc' = to
     ∧ d_state_history doc' = d_state_history doc ++ [ev]
     ∧ (from_status ev, to_status ev, by_user_id ev) = (Some old, to, u_id u)
     ∧ ticket_status_events w' = ticket_status_events w ++ [sev]
     ∧ (ticket_id sev, estado sev, changed_by sev, changed_at sev)
       = (rid, status_label to, u_id u, clock w (ticks w)))
  ∧ (to ∉ ALLOWED_TRANSITIONS old →
     ∃ e, transition_request rid p u w = (Raise e, w) ∧ InvalidTransition e).
Proof.
  intros Hrole Hfind old to. split.
  - intros Hal Hrej Hrev.
    destruct (transition_request_success w rid doc p u Hrole Hfind Hal Hrej Hrev)
      as (r & w' & Hrun & _ & _ & Hfind' & Hev & _).
    eexists r, w', _, _, _. split; [done|]. split; [exact Hfind'|].
    split; [by apply doc_status_stored_label|].
    split; [done|]. split; [done|]. split; [exact Hev|done].
  - intros Hno. eexists. split.
    + by apply transition_request_refused.
    + by eexists _, _.
Qed.

Lemma transition_follows_table_witness :
  ∃ r w' doc' ev sev,
    transition_request sample_ticket (to_ En_progreso None None)
      support_user world_pending = (Ok r, w')
    ∧ find_one sample_ticket (requests w') = Some doc'
    ∧ doc_status doc' = En_progreso
    ∧ length (d_state_history doc') = 2%nat
    ∧ to_status ev = En_progreso
    ∧ ticket_status_events w' = ticket_status_events world_pending ++ [sev]
    ∧ estado sev = status_label En_progreso.
Proof.
  assert (staff support_user) as Hs by by_evaluation.
  assert (∃ doc, find_one sample_ticket (requests world_pending) = Some doc
                 ∧ doc_status doc = Pendiente
                 ∧ length (d_state_history doc) = 1%nat) as (doc & Hf & Hst & Hlen).
  { eexists. split; [by vm_compute|]. split; by vm_compute. }
  destruct (transition_follows_table world_pending sample_ticket doc
              (to_ En_progreso None None) support_user Hs Hf) as [Hok _].
  destruct Hok as (r & w' & doc' & ev & sev & H1 & H2 & H3 & H4 & H5 & H6 & H7).
  - rewrite Hst. by_evaluation.
  - done.
  - done.
  - exists r, w', doc', ev, sev. split; [done|]. split; [done|].
    split; [done|]. split; [by rewrite H4, length_app, Hlen|].
    split; [by injection H5|]. split; [done|]. by injection H7.
Defined.

(** Nothing leaves [Finalizada]: every transition is refused by the table
    before the rework increment is looked at. *)
Lemma transition_from_finalizada_refused w rid doc p u :
  staff u →
  find_one rid (requests w) = Some doc →
  doc_status doc = Finalizada →
  transition_request rid p u w =
    (Raise (Transicion_no_permitida Finalizada (tp_to_status p)), w).
Proof.
  intros Hrole Hfind Hst.
  rewrite (transition_request_refused w rid doc p u Hrole Hfind); rewrite Hst.
  - done.
  - simpl. apply not_elem_of_nil.
Qed.

(** C2 (the code departs from the claim): the sample ticket, finalised
    through the handlers, cannot be sent back to [En_progreso]; the call is
    refused with status 400, the store is unchanged and [reabierto_count]
    stays 0, where the claim expects success and a count of 1. *)
Theorem finalized_ticket_cannot_be_reopened :
  (doc_status <$> find_one sample_ticket (requests world_finalized)) = Some Finalizada
  ∧ transition_request sample_ticket (to_ En_progreso None None)
      admin_user world_finalized
    = (Raise (Transicion_no_permitida Finalizada En_progreso), world_finalized)
  ∧ (d_reabierto_count <$> find_one sample_ticket (requests world_finalized)) = Some 0.
Proof.
  assert (staff admin_user) as Hs by by_evaluation.
  assert (∃ doc, find_one sample_ticket (requests world_finalized) = Some doc
                 ∧ doc_status doc = Finalizada ∧ d_reabierto_count doc = 0)
    as (doc & Hf & Hst & Hc).
  { eexists. split; [by vm_compute|]. split; by vm_compute. }
  split; [by rewrite Hf; simpl; rewrite Hst|].
  split; [|by rewrite Hf; simpl; rewrite Hc].
  exact (transition_from_finalizada_refused _ _ _ (to_ En_progreso None None) _ Hs Hf Hst).
Qed.

(** C5, the claim as stated, fails when both conditions meet: a support user
    who is neither assignee nor assigner and who sends no evidence link gets
    status 403, not the validation error 422. *)
Lemma missing_evidence_by_stranger_is_forbidden :
  staff support_user
  ∧ (doc_status <$> find_one sample_ticket (requests world_in_progress))
    = Some En_progreso
  ∧ is_blank (tp_evidence_link (to_ En_revision None None)) = true
  ∧ (transition_request sample_ticket (to_ En_revision None None)
       support_user world_in_progress).1 = Raise Solo_asignado_o_asignador
  ∧ ¬ ValidationError Solo_asignado_o_asignador.
Proof.
  split; [by_evaluation|]. split; [by vm_compute|]. split; [done|].
  split; [by vm_compute|]. by unfold ValidationError.
Qed.

(** C5 (amended): for a ticket read as [En_progreso] and a transition to
    [En_revision] by support staff or an admin: it fails with status 403 when
    the actor is neither the assignee, nor who assigned, nor an admin; for an
    entitled actor it fails with status 422 when the evidence link is absent
    or blank; otherwise it succeeds and [review_evidence] holds the stripped
    link, the actor's id and the time read by the handler.  In both failures
    the requests and the event log are unchanged. *)
Theorem review_needs_entitled_actor_and_evidence w rid doc p u :
  staff u →
  find_one rid (requests w) = Some doc →
  doc_status doc = En_progreso →
  tp_to_status p = En_revision →
  (¬ may_send_to_review doc u →
     ∃ e w', transition_request rid p u w = (Raise e, w') ∧ Forbidden e
       ∧ requests w' = requests w
       ∧ ticket_status_events w' = ticket_status_events w)
  ∧ (may_send_to_review doc u → is_blank (tp_evidence_link p) = true →
     ∃ e w', transition_request rid p u w = (Raise e, w') ∧ ValidationError e
       ∧ requests w' = requests w
       ∧ ticket_status_events w' = ticket_status_events w)
  ∧ (may_send_to_review doc u → is_blank (tp_evidence_link p) = false →
     ∃ link r w',
       tp_evidence_link p = Some link
       ∧ transition_request rid p u w = (Ok r, w')
       ∧ find_one rid (requests w') ≫= d_review_evidence = review_evidence r
       ∧ status r = En_revision
       ∧ review_evidence r =
           Some {| re_type := s2p "link"; re_url := strip link;
                   re_by := u_id u; re_at := clock w (ticks w) |}).
Proof.
  intros Hrole Hfind Hst Hto.
  assert (tp_to_status p ∈ ALLOWED_TRANSITIONS (doc_status doc)) as Hal.
  { rewrite Hst, Hto. by_evaluation. }
  split; [|split].
  - intros Hno.
    destruct (transition_request_not_reviewer w rid doc p u) as (w' & ? & ? & ?);
      try done.
    by exists Solo_asignado_o_asignador, w'.
  - intros Hmay Hblank.
    destruct (transition_request_no_evidence w rid doc p u) as (w' & ? & ? & ?);
      try done.
    by exists Evidencia_requerida, w'.
  - intros Hmay Hblank.
    destruct (transition_request_success w rid doc p u) as
      (r & w' & Hrun & -> & _ & Hfind' & _); try done.
    { by rewrite Hto. }
    destruct (tp_evidence_link p) as [link|] eqn:Hlink; [|done].
    eexists link, _, w'. split; [done|]. split; [exact Hrun|].
    rewrite Hfind'. simpl. unfold doc_status. simpl. rewrite Hto. simpl.
    by rewrite Hlink.
Qed.

Lemma review_needs_entitled_actor_and_evidence_witness :
  ∃ link r w',
    tp_evidence_link (to_ En_revision None (Some (s2p " https://docs/evidencia ")))
      = Some link
    ∧ transition_request sample_ticket
        (to_ En_revision None (Some (s2p " https://docs/evidencia ")))
        admin_user world_in_progress = (Ok r, w')
    ∧ review_evidence r =
        Some {| re_type := s2p "link"; re_url := s2p "https://docs/evidencia";
                re_by := u_id admin_user; re_at := 6000000 |}.
Proof.
  assert (staff admin_user) as Hs by by_evaluation.
  assert (∃ doc, find_one sample_ticket (requests world_in_progress) = Some doc
                 ∧ doc_status doc = En_progreso) as (doc & Hf & Hst).
  { eexists. split; by vm_compute. }
  destruct (review_needs_entitled_actor_and_evidence world_in_progress
              sample_ticket doc
              (to_ En_revision None (Some (s2p " https://docs/evidencia ")))
              admin_user Hs Hf Hst eq_refl) as (_ & _ & Hok).
  destruct Hok as (link & r & w' & H1 & H2 & _ & _ & H3).
  - right. by vm_compute.
  - by vm_compute.
  - exists link, r, w'. split; [done|]. split; [done|].
    rewrite H3. injection H1 as <-. by vm_compute.
Defined.

(** C6: for a ticket read as [Pendiente] and a transition to [Rechazada] by
    support staff or an admin: with an absent or blank comment it fails with
    status 422 and changes neither the requests nor the event log; with a
    non-blank comment it succeeds, [rejection_reason] is the stripped comment
    and [completion_date] the time read by the handler.  For any successful
    transition [completion_date] is written exactly when the target is
    [Finalizada] or [Rechazada], and is left as stored otherwise. *)
Theorem reject_requires_comment w rid doc u :
  staff u →
  find_one rid (requests w) = Some doc →
  (doc_status doc = Pendiente →
   ∀ p, tp_to_status p = Rechazada →
     (is_blank (tp_comment p) = true →
        ∃ e w', transition_request rid p u w = (Raise e, w') ∧ ValidationError e
          ∧ requests w' = requests w
          ∧ ticket_status_events w' = ticket_status_events w)
     ∧ (is_blank (tp_comment p) = false →
        ∃ c r w',
          tp_comment p = Some c
          ∧ transition_request rid p u w = (Ok r, w')
          ∧ (request_view <$> find_one rid (requests w')) = Some r
          ∧ status r = Rechazada
          ∧ rejection_reason r = Some (strip c)
          ∧ completion_date r = Some (clock w (ticks w))))
  ∧ (∀ p r w',
       transition_request rid p u w = (Ok r, w') →
       completion_date r =
         if is_member (tp_to_status p) [Finalizada; Rechazada]
         then Some (clock w (ticks w)) else d_completion_date doc).
Proof.
  intros Hrole Hfind. split.
  - intros Hst p Hto.
    assert (tp_to_status p ∈ ALLOWED_TRANSITIONS (doc_status doc)) as Hal.
    { rewrite Hst, Hto. by_evaluation. }
    split.
    + intros Hblank.
      destruct (transition_request_no_comment w rid doc p u) as (w' & ? & ? & ?);
        try done.
      by exists Motivo_rechazo_requerido, w'.
    + intros Hblank.
      destruct (transition_request_success w rid doc p u) as
        (r & w' & Hrun & -> & _ & Hfind' & _); try done.
      { by rewrite Hto. }
      destruct (tp_comment p) as [c|] eqn:Hc; [|done].
      eexists c, _, w'. split; [done|]. split; [exact Hrun|].
      rewrite Hfind'. split; [done|]. simpl. unfold doc_status. simpl.
      rewrite Hto, Hc. simpl. split; [by vm_compute|done].
  - intros p r w' Hrun.
    destruct (transition_request_inv _ _ _ _ _ _ _ Hrole Hfind Hrun)
      as (Hal & Hrej & Hrev).
    destruct (transition_request_success w rid doc p u Hrole Hfind Hal Hrej Hrev)
      as (r' & w'' & Hrun' & -> & _).
    rewrite Hrun in Hrun'. injection Hrun' as -> _. simpl.
    by destruct (is_member _ _).
Qed.

Lemma reject_requires_comment_witness :
  ∃ r w',
    transition_request sample_ticket
      (to_ Rechazada (Some (s2p "  fuera de alcance ")) None)
      support_user world_pending = (Ok r, w')
    ∧ status r = Rechazada
    ∧ rejection_reason r = Some (s2p "fuera de alcance")
    ∧ completion_date r = Some 4000000.
Proof.
  assert (staff support_user) as Hs by by_evaluation.
  assert (∃ doc, find_one sample_ticket (requests world_pending) = Some doc
                 ∧ doc_status doc = Pendiente) as (doc & Hf & Hst).
  { eexists. split; by vm_compute. }
  destruct (reject_requires_comment world_pending sample_ticket doc
              support_user Hs Hf) as [Hrule _].
  destruct (Hrule Hst (to_ Rechazada (Some (s2p "  fuera de alcance ")) None) eq_refl)
    as [_ Hok].
  destruct Hok as (c & r & w' & H1 & H2 & _ & H3 & H4 & H5).
  - by vm_compute.
  - exists r, w'. split; [done|]. split; [done|].
    injection H1 as <-. split; [by rewrite H4; vm_compute|].
    by rewrite H5; vm_compute.
Defined.

(** ** The rework counter *)

Lemma allowed_never_reworks old new :
  ensure_transition old new = Ok tt → rework_inc old new = None.
Proof. by destruct old, new. Qed.

(** How a handler can change the [requests] collection. *)
Inductive requests_effect (w w' : World) : Prop :=
  | effect_none : requests w' = requests w → requests_effect w w'
  | effect_update rid ops :
      requests w' = update_one rid ops (requests w) →
      op_inc ops = None →
      requests_effect w w'
  | effect_insert d :
      requests w' = requests w ++ [d] →
      d_reabierto_count d = 0 →
      requests_effect w w'.

(** Case analysis on every test a handler makes, innermost first. *)
Ltac split_handler :=
  run;
  repeat (simpl;
          match goal with
          | |- context [match ?x with _ => _ end] =>
              lazymatch x with
              | context [match _ with _ => _ end] => fail
              | _ => destruct x eqn:?
              end
          end);
  simpl.

Lemma create_request_effect payload u w :
  requests_effect w (create_request payload u w).2.
Proof.
  unfold create_request. split_handler;
    solve [ by apply effect_none | eapply effect_insert; [done|]; done ].
Qed.

Lemma classify_request_effect rid payload u w :
  requests_effect w (classify_request rid payload u w).2.
Proof.
  unfold classify_request. split_handler;
    solve [ by apply effect_none | eapply effect_update; [done|]; done ].
Qed.

Lemma assign_request_effect rid payload u w :
  requests_effect w (assign_request rid payload u w).2.
Proof.
  unfold assign_request. split_handler;
    solve [ by apply effect_none | eapply effect_update; [done|]; done ].
Qed.

Lemma unassign_request_effect rid payload u w :
  requests_effect w (unassign_request rid payload u w).2.
Proof.
  unfold unassign_request. split_handler;
    solve [ by apply effect_none | eapply effect_update; [done|]; done ].
Qed.

Lemma submit_feedback_effect rid payload u w :
  requests_effect w (submit_feedback rid payload u w).2.
Proof.
  unfold submit_feedback. split_handler;
    solve [ by apply effect_none | eapply effect_update; [done|]; done ].
Qed.

Lemma transition_request_effect rid payload u w :
  requests_effect w (transition_request rid payload u w).2.
Proof.
  unfold transition_request. split_handler; try (by apply effect_none).
  all: eapply effect_update; [done|]; simpl.
  all: match goal with
       | H : ensure_transition _ _ = Ok ?t |- _ =>
           destruct t; by apply allowed_never_reworks
       end.
Qed.

Lemma update_request_generic_effect rid payload u w :
  requests_effect w (update_request_generic rid payload u w).2.
Proof.
  unfold update_request_generic. split_handler; try (by apply effect_none).
  all: eapply effect_update; [done|]; simpl; try done.
  all: match goal with
       | H : ensure_transition _ _ = Ok ?t |- _ =>
           destruct t; by apply allowed_never_reworks
       end.
Qed.

Lemma update_one_Forall (P : Doc → Prop) rid ops l :
  (∀ d, P d → P (apply_update ops d)) →
  Forall P l → Forall P (update_one rid ops l).
Proof.
  intros Hops. induction 1 as [|d l Hd Hl IH]; simpl; [done|].
  case_bool_decide; constructor; auto.
Qed.

Lemma requests_effect_counter w w' :
  requests_effect w w' →
  Forall (λ d, d_reabierto_count d = 0) (requests w) →
  Forall (λ d, d_reabierto_count d = 0) (requests w').
Proof.
  intros [E | rid ops E Hinc | d E Hd] Hw; rewrite E.
  - done.
  - apply update_one_Forall; [|done]. intros d Hd. simpl. by rewrite Hinc.
  - apply Forall_app. split; [done|]. by constructor.
Qed.

Lemma step_requests_effect w w' : step w w' → requests_effect w w'.
Proof.
  destruct 1.
  - apply create_request_effect.
  - apply classify_request_effect.
  - apply assign_request_effect.
  - apply unassign_request_effect.
  - apply transition_request_effect.
  - apply submit_feedback_effect.
  - apply update_request_generic_effect.
Qed.

Lemma steps_keep_counter w0 w :
  rtc step w0 w →
  Forall (λ d, d_reabierto_count d = 0) (requests w0) →
  Forall (λ d, d_reabierto_count d = 0) (requests w).
Proof.
  induction 1 as [w0|w0 w1 w2 Hstep _ IH]; [done|].
  intros Hw0. apply IH.
  by apply (requests_effect_counter w0 w1); [apply step_requests_effect|].
Qed.

(** C9: in every store reachable from an empty [requests] collection by
    calls to create, classify, assign, unassign, transition, feedback and
    the generic update, every ticket has [reabierto_count] 0, both as stored
    and as read back: tickets are created with 0 and the increment is only
    built for a transition out of [Finalizada], which the table refuses. *)
Theorem reabierto_count_stays_zero w :
  reachable w →
  Forall (λ d, d_reabierto_count d = 0 ∧ reabierto_count (request_view d) = 0)
         (requests w).
Proof.
  intros (w0 & Hempty & Hsteps).
  assert (Forall (λ d, d_reabierto_count d = 0) (requests w)) as Hall.
  { apply (steps_keep_counter w0 w Hsteps). rewrite Hempty. constructor. }
  eapply Forall_impl; [exact Hall|]. by intros d Hd.
Qed.

Lemma reabierto_count_stays_zero_witness :
  length (requests world_finalized) = 1%nat
  ∧ Forall (λ d, d_reabierto_count d = 0 ∧ reabierto_count (request_view d) = 0)
           (requests world_finalized).
Proof.
  split; [by vm_compute|].
  apply (reabierto_count_stays_zero world_finalized).
  exists empty_world. split; [done|].
  apply rtc_l with world_pending; [apply step_create|].
  apply rtc_l with world_in_progress; [apply step_transition|].
  apply rtc_l with world_in_review; [apply step_transition|].
  apply rtc_once, step_transition.
Defined.

(** ** The generic update against the dedicated transition *)

(** Where the target carries no rule of its own the two handlers build the
    same store and return the same request. *)
Lemma generic_update_matches_plain_transition w rid doc new u :
  staff u →
  find_one rid (requests w) = Some doc →
  new ∈ ALLOWED_TRANSITIONS (doc_status doc) →
  new ≠ Rechazada → new ≠ En_revision →
  update_request_generic rid (only_status new) u w
  = transition_request rid (to_ new None None) u w.
Proof.
  intros Hrole Hfind Hal Hrej Hrev. unfold staff in Hrole.
  assert (new ≠ doc_status doc) as Hne.
  { intros ->. by destruct (doc_status doc); apply (bool_decide_pack _) in Hal. }
  unfold update_request_generic, transition_request, requested_status_change.
  run. rewrite bool_decide_true by done. simpl.
  rewrite Hfind, !_to_request_view. simpl.
  rewrite (bool_decide_true (new ≠ _)) by done.
  rewrite ensure_transition_allowed by done. simpl.
  rewrite !(bool_decide_false (new = _)) by done. simpl.
  unfold transition_ops. simpl.
  rewrite !(bool_decide_false (new = _)) by done.
  done.
Qed.

(** C3 (the code departs from the claim): on the pending sample ticket, the
    generic update with [status = Rechazada] succeeds, leaves
    [rejection_reason] empty and writes a history entry and a flat event,
    whereas the dedicated transition to [Rechazada] by the same actor is
    refused with status 422 when it carries no comment and records the
    stripped comment when it carries one.  On the ticket in progress, the
    generic update to [En_revision] by a support user who is neither assignee
    nor assigner succeeds without evidence, whereas the transition is refused
    with status 403. *)
Theorem generic_update_skips_transition_rules :
  (status <$> returned (update_request_generic sample_ticket
                          (only_status Rechazada) support_user world_pending))
    = Some Rechazada
  ∧ (rejection_reason <$> returned (update_request_generic sample_ticket
                          (only_status Rechazada) support_user world_pending))
    = Some None
  ∧ (length ∘ state_history <$> returned (update_request_generic sample_ticket
                          (only_status Rechazada) support_user world_pending))
    = Some 2%nat
  ∧ length (ticket_status_events
              (update_request_generic sample_ticket (only_status Rechazada)
                 support_user world_pending).2) = 1%nat
  ∧ (transition_request sample_ticket (to_ Rechazada None None)
       support_user world_pending).1 = Raise Motivo_rechazo_requerido
  ∧ (rejection_reason <$> returned (transition_request sample_ticket
                          (to_ Rechazada (Some (s2p " duplicada ")) None)
                          support_user world_pending))
    = Some (Some (s2p "duplicada"))
  ∧ (status <$> returned (update_request_generic sample_ticket
                          (only_status En_revision) support_user world_in_progress))
    = Some En_revision
  ∧ (review_evidence <$> returned (update_request_generic sample_ticket
                          (only_status En_revision) support_user world_in_progress))
    = Some None
  ∧ (transition_request sample_ticket (to_ En_revision None None)
       support_user world_in_progress).1 = Raise Solo_asignado_o_asignador.
Proof. repeat split; by vm_compute. Qed.

(** ** The event log *)

(** No handler rewrites or drops a flat event: the log only grows at its
    end. *)
Lemma step_appends_events w w' :
  step w w' → ∃ l, ticket_status_events w' = ticket_status_events w ++ l.
Proof.
  destruct 1.
  - unfold create_request. split_handler; exists []; by rewrite app_nil_r.
  - unfold classify_request. split_handler; exists []; by rewrite app_nil_r.
  - unfold assign_request. split_handler; exists []; by rewrite app_nil_r.
  - unfold unassign_request. split_handler; exists []; by rewrite app_nil_r.
  - unfold transition_request. split_handler;
      solve [ exists []; by rewrite app_nil_r | by eexists [_] ].
  - unfold submit_feedback. split_handler; exists []; by rewrite app_nil_r.
  - unfold update_request_generic. split_handler;
      solve [ exists []; by rewrite app_nil_r | by eexists [_] ].
Qed.

(** C4 (the code departs from the claim): [create_request] never writes to
    [ticket_status_events].  Creating the sample ticket appends the synthetic
    [StateEvent] with no [from_status] to its history, and the event log stays
    empty. *)
Theorem create_request_writes_no_flat_event :
  (∀ payload u w,
     ticket_status_events (create_request payload u w).2 = ticket_status_events w)
  ∧ (state_history <$> returned (create_request sample_create employee_user empty_world))
    = Some [ {| from_status := None; to_status := Pendiente; at_ := 3000000;
                by_user_id := u_id employee_user;
                by_user_name := u_full_name employee_user |} ]
  ∧ ticket_status_events
      (create_request sample_create employee_user empty_world).2 = [].
Proof.
  split; [|split; by vm_compute].
  intros payload u w. unfold create_request. by split_handler.
Qed.

(** ** Assigning and unassigning *)

Lemma find_user_id uid l u : find_user uid l = Some u → u_id u = uid.
Proof.
  induction l as [|x l IH]; simpl; [done|].
  case_bool_decide; [by intros [= <-]|done].
Qed.

Lemma update_one_compose rid o1 o2 o12 l :
  (∀ d, apply_update o2 (apply_update o1 d) = apply_update o12 d) →
  update_one rid o2 (update_one rid o1 l) = update_one rid o12 l.
Proof.
  intros Hops. induction l as [|x l IH]; simpl; [done|].
  case_bool_decide as Hx; simpl.
  - rewrite bool_decide_true by done. by rewrite Hops.
  - rewrite bool_decide_false by done. by rewrite IH.
Qed.

Lemma unassign_request_run w rid payload u doc target :
  u_role u ∈ [role_admin] →
  find_one rid (requests w) = Some doc →
  find_user (target_user_id payload u) (users w) = Some target →
  let ops := {| op_set := unassign_update target payload (clock w (ticks w));
                op_push := None; op_inc := None |} in
  unassign_request rid payload u w
  = (Ok (request_view (apply_update ops doc)),
     with_requests (update_one rid ops (requests w)) (datetime_now w).2).
Proof.
  intros Hrole Hfind Htarget ops.
  unfold unassign_request. run. rewrite bool_decide_true by done. simpl.
  rewrite Hfind, Htarget. simpl.
  rewrite (find_one_update_one _ _ _ _ Hfind). by rewrite _to_request_view.
Qed.

Lemma assign_request_run w rid payload u doc target :
  u_role u ∈ [role_admin] →
  find_one rid (requests w) = Some doc →
  find_user (target_user_id payload u) (users w) = Some target →
  let ops := {| op_set := assign_update target payload u (clock w (ticks w));
                op_push := None; op_inc := None |} in
  assign_request rid payload u w
  = (Ok (request_view (apply_update ops doc)),
     with_requests (update_one rid ops (requests w)) (datetime_now w).2).
Proof.
  intros Hrole Hfind Htarget ops.
  unfold assign_request. run. rewrite bool_decide_true by done. simpl.
  rewrite Hfind, Htarget. simpl.
  rewrite (find_one_update_one _ _ _ _ Hfind). by rewrite _to_request_view.
Qed.

Lemma unassign_request_inv w rid payload u r w' :
  unassign_request rid payload u w = (Ok r, w') →
  u_role u ∈ [role_admin]
  ∧ ∃ doc target,
      find_one rid (requests w) = Some doc
      ∧ find_user (target_user_id payload u) (users w) = Some target.
Proof.
  unfold unassign_request. run.
  case_bool_decide as Hrole; simpl; [|done]. split; [done|].
  destruct (find_one rid (requests w)) as [doc|]; simpl; [|done].
  destruct (find_user _ (users w)) as [target|]; simpl; [|done].
  by exists doc, target.
Qed.

(** C10: a successful [unassign_request] leaves the ticket assigned: the
    assignee is the user named by the payload, or the calling admin when the
    payload names none (absent or empty); [estimated_hours] and
    [estimated_due] take the payload's values, null included.  The same call
    to [assign_request] returns the same request, and its store is the one
    left by [unassign_request] with [assigned_by_id] and [assigned_by_name]
    written in addition. *)
Theorem unassign_leaves_ticket_assigned w rid payload u r w' :
  unassign_request rid payload u w = (Ok r, w') →
  let target :=
    match ap_assigned_to payload with
    | Some (c :: t) => c :: t
    | _ => u_id u
    end in
  assigned_to r = Some target
  ∧ is_Some (assigned_to_name r)
  ∧ estimated_hours r = ap_estimated_hours payload
  ∧ estimated_due r = ap_estimated_due payload
  ∧ (request_view <$> find_one rid (requests w')) = Some r
  ∧ (d_assigned_by_id <$> find_one rid (requests w'))
    = (d_assigned_by_id <$> find_one rid (requests w))
  ∧ assign_request rid payload u w
    = (Ok r, with_requests (update_one rid (record_assigner u) (requests w')) w').
Proof.
  intros Hrun target.
  destruct (unassign_request_inv _ _ _ _ _ _ Hrun)
    as (Hrole & doc & tu & Hfind & Htarget).
  rewrite (unassign_request_run _ _ _ _ _ _ Hrole Hfind Htarget) in Hrun.
  injection Hrun as <- <-.
  assert (target_user_id payload u = target) as Hid.
  { unfold target_user_id, target. by destruct (ap_assigned_to payload) as [[|c t]|]. }
  apply find_user_id in Htarget as Htu. rewrite Hid in Htu.
  simpl. rewrite Htu. split; [done|]. split; [by eexists|].
  split; [done|]. split; [done|].
  rewrite (find_one_update_one _ _ _ _ Hfind), Hfind. simpl.
  split; [done|]. split; [done|].
  rewrite (assign_request_run _ _ _ _ _ _ Hrole Hfind Htarget).
  f_equal. unfold with_requests. simpl. f_equal.
  symmetry. by apply update_one_compose.
Qed.

Lemma unassign_leaves_ticket_assigned_witness :
  ∃ r w',
    unassign_request sample_ticket no_target admin_user world_in_progress
      = (Ok r, w')
    ∧ assigned_to r = Some (u_id admin_user)
    ∧ estimated_hours r = None
    ∧ (d_assigned_by_id <$> find_one sample_ticket (requests w')) = Some None.
Proof.
  assert (∃ r w', unassign_request sample_ticket no_target admin_user
                    world_in_progress = (Ok r, w')) as (r & w' & Hrun).
  { eexists _, _. by vm_compute. }
  exists r, w'. split; [done|].
  destruct (unassign_leaves_ticket_assigned _ _ _ _ _ _ Hrun)
    as (H1 & _ & H3 & _ & _ & H6 & _).
  split; [exact H1|]. split; [exact H3|]. rewrite H6. by vm_compute.
Defined.

(** ** Every handler answers with the normalised view of the stored ticket *)











(** ** Time by state *)

(** *** Summing segments does not depend on their order *)





(** *** The loop adds the pending segments *)






(** *** Sorting by ticket and time, then looking at one ticket *)








Section insertion_sort_facts.
Context {A : Type} (leb : A → A → bool).





End insertion_sort_facts.











(** Why the records must not be later than the window end: the handler
    selects the tickets that have a record up to [end_] and then reads all
    their records.  With the worked example and a window ending one hour
    after [t0 = 0], it still counts the two later records. *)
Lemma records_after_window_end_are_read :
  this <$> metrics_time_by_state (example_log (s2p "T1") admin_user 0) hour_us
    = list_to_map [ (status_label Pendiente, 2 # 1);
                    (status_label En_progreso, 3 # 1) ]
  ∧ this <$> spec_time_by_state (example_log (s2p "T1") admin_user 0) hour_us
    = list_to_map [ (status_label Pendiente, 1 # 1) ].
Proof. split; vm_compute; reflexivity. Qed.

(** * Further properties *)

(** ** What every handler call does to the store *)

Ltac close_change :=
  solve
    [ by apply change_none
    | eapply change_insert; [done|done|]; by repeat split
    | eapply change_update; [eassumption|done| |];
      [ split; [first [by left|by right]|];
        split; [done|]; split; [by left|]; by intros ? [=]
      | by left ] ].

Lemma create_request_change payload u w :
  store_change w (create_request payload u w).2.
Proof. unfold create_request. split_handler; close_change. Qed.

Lemma classify_request_change rid payload u w :
  store_change w (classify_request rid payload u w).2.
Proof. unfold classify_request. split_handler; close_change. Qed.

Lemma assign_request_change rid payload u w :
  store_change w (assign_request rid payload u w).2.
Proof. unfold assign_request. split_handler; close_change. Qed.

Lemma unassign_request_change rid payload u w :
  store_change w (unassign_request rid payload u w).2.
Proof. unfold unassign_request. split_handler; close_change. Qed.

(** Every [Request] a handler has read is the view of its document. *)
Ltac read_views :=
  repeat match goal with
         | H : _to_request _ = Ok _ |- _ =>
             rewrite _to_request_view in H; injection H as <-
         | H : _to_request _ = Raise _ |- _ =>
             by rewrite _to_request_view in H
         end;
  simpl in *.

Lemma submit_feedback_change rid payload u w :
  store_change w (submit_feedback rid payload u w).2.
Proof.
  unfold submit_feedback. split_handler; read_views; try close_change.
  all: eapply change_update; [eassumption|done| |by left].
  all: split; [|by repeat split; try left; try intros ? [=]].
  all: right; destruct (d_feedback _); [|done].
  all: by match goal with H : bool_decide (is_Some _) = false |- _ =>
            apply bool_decide_eq_false in H; destruct H end.
Qed.

Lemma status_read_label st : status_read (VStr (status_label st)) = st.
Proof. by destruct st; vm_compute. Qed.

Lemma completion_written_for_final (to : RequestStatus) (now : Z) :
  to ∈ [Finalizada; Rechazada] →
  (if is_member to [Finalizada; Rechazada] then Some (Some now) else None)
  = Some (Some now).
Proof. intros H. unfold is_member. by rewrite bool_decide_true. Qed.

Lemma transition_ops_handler_update d p u now stamp :
  ensure_transition (doc_status d) (tp_to_status p) = Ok tt →
  handler_update d (transition_ops (doc_status d) p u now stamp).
Proof.
  intros Hal. split; [by left|]. split; [by apply allowed_never_reworks|].
  simpl. split.
  - destruct (is_member _ _); [right; by eexists|by left].
  - intros v [= <-]. rewrite status_read_label. intros Hfinal. left.
    exists now. by apply completion_written_for_final.
Qed.

Lemma transition_request_change rid payload u w :
  store_change w (transition_request rid payload u w).2.
Proof.
  unfold transition_request. split_handler; read_views; try close_change.
  all: match goal with H : ensure_transition _ _ = Ok ?t |- _ => destruct t end.
  all: eapply change_update;
    [eassumption|done|by apply transition_ops_handler_update|].
  all: right; eexists _, _; simpl; by repeat split.
Qed.

Ltac generic_events :=
  first [ right; eexists _, _; simpl; by repeat split
        | left; simpl; by split ].

Ltac generic_handler_update :=
  split; [by left|]; split; simpl;
  [ first [ done
          | match goal with
            | H : ensure_transition _ _ = Ok ?t |- _ =>
                destruct t; by apply allowed_never_reworks
            end ]
  | split; [first [right; by eexists|by left]|];
    first
      [ by intros v [=]
      | intros v [= <-]; rewrite ?status_read_label; intros Hfinal;
        first
          [ left; by eexists
          | apply (bool_decide_pack _) in Hfinal; by vm_compute in Hfinal
          | match goal with
            | H : is_member _ _ = false |- _ =>
                unfold is_member in H; apply bool_decide_eq_false in H; done
            end
          | right; symmetry;
            match goal with
            | H : bool_decide (_ ≠ _) = false |- _ =>
                apply bool_decide_eq_false in H; by apply dec_stable in H
            end ] ] ].

Lemma update_request_generic_change rid payload u w :
  store_change w (update_request_generic rid payload u w).2.
Proof.
  unfold update_request_generic, requested_status_change.
  split_handler; read_views; try (by apply change_none).
  all: eapply change_update;
    [eassumption|done|generic_handler_update|generic_events].
Qed.

Lemma step_store_change w w' : step w w' → store_change w w'.
Proof.
  destruct 1.
  - apply create_request_change.
  - apply classify_request_change.
  - apply assign_request_change.
  - apply unassign_request_change.
  - apply transition_request_change.
  - apply submit_feedback_change.
  - apply update_request_generic_change.
Qed.

Lemma find_one_update_one_ne rid rid' ops l :
  rid ≠ rid' → find_one rid (update_one rid' ops l) = find_one rid l.
Proof.
  intros Hne. induction l as [|x l IH]; simpl; [done|].
  case_bool_decide as Hx; simpl.
  - rewrite !bool_decide_false by congruence. done.
  - by rewrite IH.
Qed.

Lemma find_one_app_l rid l l' d :
  find_one rid l = Some d → find_one rid (l ++ l') = Some d.
Proof.
  induction l as [|x l IH]; simpl; [done|]. by case_bool_decide.
Qed.

(** What one handler call does to the ticket found under [rid]. *)
Lemma store_change_ticket w w' rid d :
  store_change w w' →
  find_one rid (requests w) = Some d →
  find_one rid (requests w') = Some d
  ∨ ∃ ops, handler_update d ops
      ∧ find_one rid (requests w') = Some (apply_update ops d).
Proof.
  intros [E _ | rid' ops doc Hdoc E Hops _ | d0 E _ _] Hfind; rewrite E.
  - by left.
  - destruct (decide (rid = rid')) as [<-|Hne].
    + right. exists ops. rewrite Hfind in Hdoc. injection Hdoc as <-.
      split; [done|]. by apply find_one_update_one.
    + left. by rewrite find_one_update_one_ne.
  - left. by apply find_one_app_l.
Qed.

(** X1: once a ticket has feedback, no sequence of calls to the seven
    life-cycle handlers changes or removes it. *)
Theorem recorded_feedback_is_final w w' rid d fb :
  rtc step w w' →
  find_one rid (requests w) = Some d →
  d_feedback d = Some fb →
  ∃ d', find_one rid (requests w') = Some d' ∧ d_feedback d' = Some fb.
Proof.
  intros Hsteps. revert d. induction Hsteps as [w|w w1 w' Hstep _ IH];
    intros d Hfind Hfb; [by exists d|].
  destruct (store_change_ticket w w1 rid d (step_store_change _ _ Hstep) Hfind)
    as [Hsame | (ops & Hops & Hnew)].
  - by apply (IH d).
  - apply (IH _ Hnew). simpl. destruct Hops as ([-> | Hnone] & _); [done|].
    by rewrite Hnone in Hfb.
Qed.

Lemma recorded_feedback_is_final_witness :
  (fb_rating <$> (find_one sample_ticket
                    (requests (submit_feedback sample_ticket thumbs_down admin_user
                                 world_with_feedback).2)
                  ≫= d_feedback))
  = Some up.
Proof.
  assert (∃ d fb, find_one sample_ticket (requests world_with_feedback) = Some d
                  ∧ d_feedback d = Some fb ∧ fb_rating fb = up)
    as (d & fb & Hfind & Hfb & Hup).
  { eexists _, _. split; [by vm_compute|]. split; by vm_compute. }
  destruct (recorded_feedback_is_final world_with_feedback
              (submit_feedback sample_ticket thumbs_down admin_user
                 world_with_feedback).2 sample_ticket d fb)
    as (d' & Hfind' & Hfb'); [apply rtc_once, step_feedback|done|done|].
  rewrite Hfind'. simpl. rewrite Hfb'. simpl. by rewrite Hup.
Defined.

(** X2: over any sequence of calls to the seven life-cycle handlers a stored
    ticket stays findable under its id, keeps its id, requester, title,
    description, department and creation stamps, and its state history only
    grows at the end. *)
Theorem ticket_history_only_grows w w' rid d :
  rtc step w w' →
  find_one rid (requests w) = Some d →
  ∃ d' added,
    find_one rid (requests w') = Some d'
    ∧ d_state_history d' = d_state_history d ++ added
    ∧ d_id d' = d_id d
    ∧ d_requester_id d' = d_requester_id d
    ∧ d_requester_name d' = d_requester_name d
    ∧ d_title d' = d_title d
    ∧ d_description d' = d_description d
    ∧ d_department d' = d_department d
    ∧ d_requested_at d' = d_requested_at d
    ∧ d_created_at d' = d_created_at d.
Proof.
  intros Hsteps. revert d. induction Hsteps as [w|w w1 w' Hstep _ IH];
    intros d Hfind.
  { exists d, []. by rewrite app_nil_r. }
  destruct (store_change_ticket w w1 rid d (step_store_change _ _ Hstep) Hfind)
    as [Hsame | (ops & Hops & Hnew)]; [by apply IH|].
  destruct (IH _ Hnew) as (d' & added & Hfind' & Hhist & Hrest).
  simpl in Hhist, Hrest.
  exists d'. destruct (op_push ops) as [ev|].
  - exists (ev :: added). split; [done|]. split; [|done].
    by rewrite Hhist, <-app_assoc.
  - by exists added.
Qed.

Lemma ticket_history_only_grows_witness :
  ∃ d' added,
    find_one sample_ticket (requests world_finalized) = Some d'
    ∧ (to_status <$> d_state_history d')
      = [Pendiente] ++ (to_status <$> added)
    ∧ length added = 3%nat.
Proof.
  assert (∃ d, find_one sample_ticket (requests world_pending) = Some d
               ∧ (to_status <$> d_state_history d) = [Pendiente])
    as (d & Hfind & Hhist).
  { eexists. split; by vm_compute. }
  destruct (ticket_history_only_grows world_pending world_finalized
              sample_ticket d) as (d' & added & Hfind' & Hgrow & _).
  - apply rtc_l with world_in_progress; [apply step_transition|].
    apply rtc_l with world_in_review; [apply step_transition|].
    apply rtc_once, step_transition.
  - done.
  - exists d', added. split; [done|].
    split; [by rewrite Hgrow, fmap_app, Hhist|].
    assert (length (d_state_history d') = 4%nat) as Hlen.
    { assert (find_one sample_ticket (requests world_finalized)
              ≫= (λ x, Some (length (d_state_history x))) = Some 4%nat) as H
        by by vm_compute.
      rewrite Hfind' in H. by injection H. }
    rewrite Hgrow, length_app in Hlen.
    apply (f_equal length) in Hhist. rewrite length_fmap in Hhist.
    simpl in Hhist. lia.
Defined.

Lemma update_one_found_Forall (P : Doc → Prop) rid ops l d :
  find_one rid l = Some d →
  (P d → P (apply_update ops d)) →
  Forall P l → Forall P (update_one rid ops l).
Proof.
  intros Hfind Hd Hall. induction Hall as [|x l Hx Hl IH]; simpl; [done|].
  simpl in Hfind. case_bool_decide.
  - injection Hfind as ->. constructor; auto.
  - constructor; auto.
Qed.

Lemma doc_status_apply_update ops d :
  doc_status (apply_update ops d)
  = match set_status (op_set ops) with
    | Some v => status_read v
    | None => doc_status d
    end.
Proof. unfold doc_status, status_read. simpl. by destruct (set_status _). Qed.

(** X3: in every store built by the seven life-cycle handlers from an empty
    [requests] collection, a ticket that reads as [Finalizada] or
    [Rechazada] has a completion date. *)
Theorem closed_tickets_have_completion_date w :
  reachable w →
  Forall (λ d, doc_status d ∈ [Finalizada; Rechazada] →
               is_Some (d_completion_date d)) (requests w).
Proof.
  intros (w0 & Hempty & Hsteps).
  assert (Forall (λ d, doc_status d ∈ [Finalizada; Rechazada] →
                       is_Some (d_completion_date d)) (requests w0)) as H0.
  { rewrite Hempty. constructor. }
  clear Hempty. induction Hsteps as [w|w w1 w' Hstep _ IH]; [done|].
  apply IH.
  destruct (step_store_change _ _ Hstep)
    as [E _ | rid ops doc Hdoc E Hops _ | d E _ Hfresh]; rewrite E.
  - done.
  - apply (update_one_found_Forall _ _ _ _ _ Hdoc); [|done].
    intros Hold. rewrite doc_status_apply_update. simpl.
    destruct Hops as (_ & _ & Hcompl & Hstatus).
    destruct (set_status (op_set ops)) as [v|] eqn:Hv.
    + intros Hfinal. destruct (Hstatus v eq_refl Hfinal) as [[t ->] | Hsame].
      * by eexists.
      * destruct Hcompl as [-> | [t ->]]; [|by eexists].
        simpl. apply Hold. by rewrite Hsame.
    + intros Hfinal. destruct Hcompl as [-> | [t ->]]; [|by eexists].
      simpl. by apply Hold.
  - apply Forall_app. split; [done|]. constructor; [|done].
    destruct Hfresh as (Hst & _). rewrite (doc_status_stored_label _ _ Hst).
    intros Hfinal. by apply (bool_decide_pack _) in Hfinal.
Qed.

Lemma closed_tickets_have_completion_date_witness :
  (doc_status <$> requests world_finalized) = [Finalizada]
  ∧ Forall (λ d, doc_status d ∈ [Finalizada; Rechazada] →
                 is_Some (d_completion_date d)) (requests world_finalized).
Proof.
  split; [by vm_compute|].
  apply (closed_tickets_have_completion_date world_finalized).
  exists empty_world. split; [done|].
  apply rtc_l with world_pending; [apply step_create|].
  apply rtc_l with world_in_progress; [apply step_transition|].
  apply rtc_l with world_in_review; [apply step_transition|].
  apply rtc_once, step_transition.
Defined.

Lemma filter_update_one_ne rid rid' ops l :
  rid ≠ rid' →
  filter (λ d, d_id d = rid) (update_one rid' ops l)
  = filter (λ d, d_id d = rid) l.
Proof.
  intros Hne. induction l as [|x l IH]; simpl; [done|].
  case_bool_decide as Hx; simpl.
  - rewrite !filter_cons_False; [done|congruence|]. simpl. congruence.
  - by rewrite !filter_cons, IH.
Qed.

Lemma history_sum_update_one rid ops l d :
  find_one rid l = Some d →
  sum_list (length ∘ d_state_history
              <$> filter (λ d, d_id d = rid) (update_one rid ops l))
  = (sum_list (length ∘ d_state_history <$> filter (λ d, d_id d = rid) l)
     + match op_push ops with Some _ => 1 | None => 0 end)%nat
  ∧ length (filter (λ d, d_id d = rid) (update_one rid ops l))
    = length (filter (λ d, d_id d = rid) l).
Proof.
  induction l as [|x l IH]; simpl; [done|].
  case_bool_decide as Hx; simpl.
  - intros [= ->]. rewrite !filter_cons_True by done. simpl.
    split; [|done]. destruct (op_push ops); [rewrite length_app|]; simpl; lia.
  - intros Hfind. destruct (IH Hfind) as [IH1 IH2].
    rewrite !filter_cons_False by done. done.
Qed.

(** X4: in every store built by the seven life-cycle handlers from empty
    [requests] and [ticket_status_events] collections, for every ticket id
    the history entries of the tickets stored under it number the flat events
    written for it plus one per ticket: the entry made at creation is the
    only one without a flat event. *)
Theorem history_entries_match_flat_events w rid :
  reachable_from_scratch w →
  history_entries rid w = (tickets_with_id rid w + flat_events_of rid w)%nat.
Proof.
  intros (w0 & Hreq & Hev & Hsteps).
  assert (history_entries rid w0
          = (tickets_with_id rid w0 + flat_events_of rid w0)%nat) as H0.
  { unfold history_entries, tickets_with_id, flat_events_of.
    by rewrite Hreq, Hev. }
  clear Hreq Hev. induction Hsteps as [w|w w1 w' Hstep _ IH]; [done|].
  apply IH. clear IH.
  unfold history_entries, tickets_with_id, flat_events_of in *.
  destruct (step_store_change _ _ Hstep)
    as [E Ee | rid' ops doc Hdoc E Hops Hevents | d E Ee Hfresh].
  - by rewrite E, Ee.
  - rewrite E. destruct (decide (rid = rid')) as [<-|Hne].
    + destruct (history_sum_update_one rid ops _ _ Hdoc) as [-> ->].
      destruct Hevents as [[-> ->] | (ev & sev & -> & Hsev & ->)]; [lia|].
      rewrite filter_app, length_app, filter_cons_True by done. simpl. lia.
    + rewrite filter_update_one_ne by done.
      destruct Hevents as [[_ ->] | (ev & sev & _ & Hsev & ->)]; [done|].
      rewrite filter_app, filter_cons_False, app_nil_r by congruence. done.
  - rewrite E, Ee, filter_app. destruct Hfresh as (_ & Hlen & _).
    destruct (decide (d_id d = rid)) as [Hd|Hd].
    + rewrite filter_cons_True by done.
      rewrite fmap_app, sum_list_with_app, length_app. simpl. rewrite Hlen. lia.
    + rewrite filter_cons_False, app_nil_r by done. done.
Qed.

Lemma sample_run : rtc step empty_world world_finalized.
Proof.
  apply rtc_l with world_pending; [apply step_create|].
  apply rtc_l with world_in_progress; [apply step_transition|].
  apply rtc_l with world_in_review; [apply step_transition|].
  apply rtc_once, step_transition.
Qed.

Lemma history_entries_match_flat_events_witness :
  history_entries sample_ticket world_finalized = 4%nat
  ∧ history_entries sample_ticket world_finalized
    = (tickets_with_id sample_ticket world_finalized
       + flat_events_of sample_ticket world_finalized)%nat.
Proof.
  split; [vm_compute; reflexivity|].
  apply (history_entries_match_flat_events world_finalized sample_ticket).
  exists empty_world. repeat split; [reflexivity..|apply sample_run].
Defined.

Lemma update_one_ids rid ops l : d_id <$> update_one rid ops l = d_id <$> l.
Proof.
  induction l as [|x l IH]; [done|]. cbn [update_one].
  case_bool_decide; [done|]. rewrite !fmap_cons. by f_equal.
Qed.

(** X5: no sequence of calls to the seven life-cycle handlers deletes,
    reorders or rewrites a flat status event, and none deletes a ticket,
    changes a ticket's id or inserts one before the tickets already stored:
    the event log and the list of ticket ids only grow at their ends. *)
Theorem handlers_only_append w w' :
  rtc step w w' →
  ticket_status_events w `prefix_of` ticket_status_events w'
  ∧ (d_id <$> requests w) `prefix_of` (d_id <$> requests w').
Proof.
  induction 1 as [w|w w1 w' Hstep _ [IHe IHr]]; [done|].
  split.
  - destruct (step_appends_events _ _ Hstep) as [l Hl].
    etrans; [|exact IHe]. rewrite Hl. by apply prefix_app_r.
  - etrans; [|exact IHr].
    destruct (step_store_change _ _ Hstep) as [E _ | rid ops doc _ E _ _ | d E _ _];
      rewrite E.
    + done.
    + by rewrite update_one_ids.
    + rewrite fmap_app. by apply prefix_app_r.
Qed.

Lemma handlers_only_append_witness :
  length (ticket_status_events world_finalized) = 3%nat
  ∧ ticket_status_events empty_world `prefix_of` ticket_status_events world_finalized
  ∧ (d_id <$> requests empty_world) `prefix_of` (d_id <$> requests world_finalized).
Proof.
  split; [vm_compute; reflexivity|].
  apply (handlers_only_append empty_world world_finalized), sample_run.
Defined.

(** ** Calls that fail *)

Lemma find_one_update_one_is_Some rid ops l d :
  find_one rid l = Some d → find_one rid (update_one rid ops l) ≠ None.
Proof. intros H. by rewrite (find_one_update_one _ _ _ _ H). Qed.

(** A handler that raised did so before its first write. *)
Ltac raised_before_writing :=
  read_views; rewrite ?_to_request_view;
  try match goal with
      | H : find_one ?rid (update_one ?rid _ _) = None,
        H' : find_one ?rid _ = Some _ |- _ =>
          by destruct (find_one_update_one_is_Some _ _ _ _ H' H)
      end;
  solve [ by intros [=] | by intros _ ].

(** X6: a call to a life-cycle handler that raises, whatever the error, has
    written nothing: the [requests] and [ticket_status_events] collections
    are as they were before the call. *)
Theorem failed_call_writes_nothing c u w e :
  (handle c u w).1 = Raise e →
  requests (handle c u w).2 = requests w
  ∧ ticket_status_events (handle c u w).2 = ticket_status_events w.
Proof.
  destruct c; simpl.
  - unfold create_request. split_handler; raised_before_writing.
  - unfold classify_request. split_handler; raised_before_writing.
  - unfold assign_request. split_handler; raised_before_writing.
  - unfold unassign_request. split_handler; raised_before_writing.
  - unfold transition_request. split_handler; raised_before_writing.
  - unfold submit_feedback. split_handler; raised_before_writing.
  - unfold update_request_generic. split_handler; raised_before_writing.
Qed.

Lemma failed_call_writes_nothing_witness :
  (handle (Transition sample_ticket (to_ Pendiente None None))
     support_user world_finalized).1
  = Raise (Transicion_no_permitida Finalizada Pendiente)
  ∧ requests (handle (Transition sample_ticket (to_ Pendiente None None))
                support_user world_finalized).2
    = requests world_finalized
  ∧ ticket_status_events
      (handle (Transition sample_ticket (to_ Pendiente None None))
         support_user world_finalized).2
    = ticket_status_events world_finalized.
Proof.
  assert ((handle (Transition sample_ticket (to_ Pendiente None None))
             support_user world_finalized).1
          = Raise (Transicion_no_permitida Finalizada Pendiente)) as Hraised
    by (vm_compute; reflexivity).
  split; [exact Hraised|].
  exact (failed_call_writes_nothing _ support_user world_finalized _ Hraised).
Defined.

(** ** Creating a ticket *)

(** X7: [create_request] has one way to fail: an admin names a non-empty
    [assigned_to] that is no user's id, and the answer is then the 400
    "Usuario asignado no existe".  For any other caller or payload it
    returns a ticket. *)
Theorem create_request_fails_only_on_unknown_assignee payload u w e :
  (create_request payload u w).1 = Raise e
  ↔ u_role u = role_admin
    ∧ (∃ uid, rc_assigned_to payload = Some uid ∧ uid ≠ []
              ∧ find_user uid (users w) = None)
    ∧ e = Usuario_asignado_no_existe.
Proof.
  unfold create_request, opt_truthy, str_truthy. split.
  - run. case_bool_decide as Hadmin; simpl;
      destruct (rc_assigned_to payload) as [[|c uid]|]; simpl;
      destruct (rc_requested_at payload); simpl; try (by intros [=]).
    all: destruct (find_user (c :: uid) (users w)) eqn:Hnone; simpl;
      [by intros [=]|intros [= <-]].
    all: split; [done|]; split; [|done]; by exists (c :: uid).
  - intros (Hadmin & (uid & Huid & Hne & Hnone) & ->).
    run. rewrite bool_decide_true by done. rewrite Huid. simpl.
    destruct uid as [|c uid]; [done|]. simpl.
    destruct (rc_requested_at payload); simpl; by rewrite Hnone.
Qed.

Lemma create_request_fails_only_on_unknown_assignee_witness :
  (create_request create_for_stranger admin_user empty_world).1
  = Raise Usuario_asignado_no_existe
  ∧ status_code Usuario_asignado_no_existe = 400.
Proof.
  split; [|reflexivity].
  apply (create_request_fails_only_on_unknown_assignee
           create_for_stranger admin_user empty_world).
  split; [reflexivity|]. split; [|reflexivity].
  exists (s2p "nadie"). split; [reflexivity|]. split; [discriminate|].
  vm_compute; reflexivity.
Defined.

Lemma request_dict_read_back (r : Request) : _to_request (Request_dict r) = Ok r.
Proof.
  rewrite _to_request_view. f_equal. destruct r as []. unfold request_view.
  simpl. f_equal. by apply doc_status_stored_label.
Qed.

(** X8: a caller who is not an admin always gets a ticket from
    [create_request], and the ticket is stored at the end of the collection
    as returned: [Pendiente], requested by the caller, and with no level,
    assignee or estimate, whatever the payload asks for. *)
Theorem create_request_by_non_admin payload u w :
  u_role u ≠ role_admin →
  ∃ r, (create_request payload u w).1 = Ok r
    ∧ requests (create_request payload u w).2 = requests w ++ [Request_dict r]
    ∧ status r = Pendiente
    ∧ requester_id r = u_id u ∧ requester_name r = u_full_name u
    ∧ department r = u_department u
    ∧ level r = None ∧ assigned_to r = None ∧ assigned_to_name r = None
    ∧ estimated_hours r = None ∧ estimated_due r = None.
Proof.
  intros Hrole. unfold create_request. run.
  rewrite (bool_decide_false _ Hrole). simpl.
  destruct (rc_requested_at payload); simpl; eexists; by repeat split.
Qed.

Lemma create_request_by_non_admin_witness :
  ∃ r, (create_request greedy_create support_user empty_world).1 = Ok r
    ∧ requests (create_request greedy_create support_user empty_world).2
      = requests empty_world ++ [Request_dict r]
    ∧ status r = Pendiente
    ∧ requester_id r = u_id support_user
    ∧ requester_name r = u_full_name support_user
    ∧ department r = u_department support_user
    ∧ level r = None ∧ assigned_to r = None ∧ assigned_to_name r = None
    ∧ estimated_hours r = None ∧ estimated_due r = None.
Proof.
  apply (create_request_by_non_admin greedy_create support_user empty_world).
  discriminate.
Defined.

Lemma find_one_app_new rid l d :
  find_one rid l = None → d_id d = rid → find_one rid (l ++ [d]) = Some d.
Proof.
  intros Hnone Hd. induction l as [|x l IH]; simpl in *.
  - by rewrite bool_decide_true.
  - destruct (bool_decide (d_id x = rid)); [done|]. by apply IH.
Qed.

(** X9: the ticket [create_request] returns is the ticket a later read
    gives, provided the id it drew is not yet in the collection: the stored
    document is found under the returned id, it is a fresh ticket, and
    [_to_request] reads it back as the returned [Request]. *)
Theorem created_ticket_is_read_back payload u w r w' :
  create_request payload u w = (Ok r, w') →
  find_one (id r) (requests w) = None →
  id r = uuid_source w (uuids_drawn w)
  ∧ ∃ d, find_one (id r) (requests w') = Some d
      ∧ fresh_ticket d ∧ _to_request d = Ok r.
Proof.
  unfold create_request. split_handler; intros [= <- <-]; simpl; intros Hnew.
  all: split; [done|]; eexists; split;
    [by apply find_one_app_new|]; split; [by repeat split|].
  all: apply request_dict_read_back.
Qed.

Lemma created_ticket_is_read_back_witness :
  ∃ r, create_request sample_create employee_user empty_world
       = (Ok r, world_pending)
    ∧ id r = sample_ticket
    ∧ ∃ d, find_one (id r) (requests world_pending) = Some d
        ∧ fresh_ticket d ∧ _to_request d = Ok r.
Proof.
  assert (∃ r, create_request sample_create employee_user empty_world
               = (Ok r, world_pending)) as [r Hrun]
    by (eexists; vm_compute; reflexivity).
  exists r. split; [exact Hrun|].
  assert (id r = sample_ticket) as Hid by (by injection Hrun as <-).
  split; [exact Hid|].
  apply (created_ticket_is_read_back sample_create employee_user empty_world
           r world_pending Hrun).
  by rewrite Hid.
Defined.

(** ** Classifying and assigning *)

Lemma update_one_Forall2 (R : Doc → Doc → Prop) rid ops l :
  (∀ d, R d d) → (∀ d, R d (apply_update ops d)) →
  Forall2 R l (update_one rid ops l).
Proof.
  intros Hrefl Hops. induction l as [|x l IH]; simpl; [constructor|].
  case_bool_decide; constructor; try done. by apply Forall_Forall2_diag, Forall_forall.
Qed.

Lemma same_life_cycle_refl d : same_life_cycle d d.
Proof. by repeat split. Qed.

Ltac keeps_life_cycle :=
  split; [|done];
  first [ apply Forall_Forall2_diag, Forall_forall; intros; apply same_life_cycle_refl
        | apply update_one_Forall2;
          [apply same_life_cycle_refl|by repeat split] ].

(** X10: [classify_request], [assign_request] and [unassign_request] leave
    the life cycle of every stored ticket alone, whatever their outcome: the
    collection keeps its length and order, and each ticket its id, stored
    status, history, completion date, feedback, rejection reason, review
    evidence and rework counter; no flat event is written. *)
Theorem administrative_calls_keep_life_cycle c u w :
  administrative c →
  Forall2 same_life_cycle (requests w) (requests (handle c u w).2)
  ∧ ticket_status_events (handle c u w).2 = ticket_status_events w.
Proof.
  destruct c; simpl; try done; intros _.
  - unfold classify_request. split_handler; keeps_life_cycle.
  - unfold assign_request. split_handler; keeps_life_cycle.
  - unfold unassign_request. split_handler; keeps_life_cycle.
Qed.

Lemma administrative_calls_keep_life_cycle_witness :
  (assigned_to <$> returned (handle (Assign sample_ticket no_target) admin_user
                               world_in_review))
  = Some (Some (u_id admin_user))
  ∧ Forall2 same_life_cycle (requests world_in_review)
      (requests (handle (Assign sample_ticket no_target) admin_user
                   world_in_review).2)
  ∧ ticket_status_events
      (handle (Assign sample_ticket no_target) admin_user world_in_review).2
    = ticket_status_events world_in_review.
Proof.
  split; [vm_compute; reflexivity|].
  apply (administrative_calls_keep_life_cycle
           (Assign sample_ticket no_target) admin_user world_in_review).
  exact I.
Defined.

(** X11: assigning entitles.  Once an admin has assigned a ticket that is
    [En progreso] to a member of staff, that user's request to send it to
    review with a non-blank evidence link succeeds, whoever was assigned
    before: the ticket comes back [En revisión], still assigned to that
    user, with the stripped link recorded as evidence under the user's
    id. *)
Theorem assignee_can_send_to_review w rid payload a doc target ev :
  u_role a ∈ [role_admin] →
  find_one rid (requests w) = Some doc →
  doc_status doc = En_progreso →
  find_user (target_user_id payload a) (users w) = Some target →
  staff target →
  is_blank (Some ev) = false →
  ∃ r w', transition_request rid (to_ En_revision None (Some ev)) target
            (assign_request rid payload a w).2 = (Ok r, w')
    ∧ status r = En_revision
    ∧ assigned_to r = Some (u_id target)
    ∧ (re_url <$> review_evidence r) = Some (strip ev)
    ∧ (re_by <$> review_evidence r) = Some (u_id target).
Proof.
  intros Hadmin Hfind Hstatus Htarget Hstaff Hev.
  rewrite (assign_request_run _ _ _ _ _ _ Hadmin Hfind Htarget).
  set (ops := {| op_set := assign_update target payload a (clock w (ticks w));
                 op_push := None; op_inc := None |}).
  set (assigned := apply_update ops doc).
  set (w1 := with_requests _ _). cbn [snd].
  assert (find_one rid (requests w1) = Some assigned) as Hfind1
    by apply (find_one_update_one _ _ _ _ Hfind).
  assert (doc_status assigned = En_progreso) as Hstatus1
    by (unfold assigned; by rewrite doc_status_apply_update).
  destruct (transition_request_success w1 rid assigned
              (to_ En_revision None (Some ev)) target)
    as (r & w' & Hrun & -> & _); try done.
  - rewrite Hstatus1. apply list_elem_of_singleton. done.
  - intros _. split; [|done]. left. simpl. apply list_elem_of_here.
  - eexists _, w'. split; [exact Hrun|]. simpl.
    split; [by apply doc_status_stored_label|]. done.
Qed.

Lemma assignee_can_send_to_review_witness :
  ∃ r w', transition_request sample_ticket
            (to_ En_revision None (Some (s2p "https://docs/evidencia")))
            admin_user
            (assign_request sample_ticket no_target admin_user
               world_in_progress).2 = (Ok r, w')
    ∧ status r = En_revision
    ∧ assigned_to r = Some (u_id admin_user)
    ∧ (re_url <$> review_evidence r)
      = Some (strip (s2p "https://docs/evidencia"))
    ∧ (re_by <$> review_evidence r) = Some (u_id admin_user).
Proof.
  assert (∃ doc, find_one sample_ticket (requests world_in_progress) = Some doc
                 ∧ doc_status doc = En_progreso) as (doc & Hfind & Hstatus)
    by (eexists; split; vm_compute; reflexivity).
  apply (assignee_can_send_to_review world_in_progress sample_ticket no_target
           admin_user doc admin_user (s2p "https://docs/evidencia"));
    [by_evaluation|exact Hfind|exact Hstatus|vm_compute; reflexivity
    |by_evaluation|vm_compute; reflexivity].
Defined.

(** ** The generic update *)

(** X12: a generic update that carries [status: null] is accepted for any
    stored ticket, whatever its status, and stores the null: from then on
    the ticket reads as [Pendiente].  The table of transitions is not
    consulted, the history, the completion date and the feedback stay as
    they were, and no flat event is written. *)
Theorem generic_update_null_status_resets w rid doc upd u :
  staff u →
  find_one rid (requests w) = Some doc →
  ru_status upd = Some None →
  ∃ r w' doc', update_request_generic rid upd u w = (Ok r, w')
    ∧ find_one rid (requests w') = Some doc'
    ∧ d_status doc' = Some VNone
    ∧ status r = Pendiente
    ∧ state_history r = d_state_history doc
    ∧ completion_date r = d_completion_date doc
    ∧ feedback r = d_feedback doc
    ∧ reabierto_count r = d_reabierto_count doc
    ∧ ticket_status_events w' = ticket_status_events w.
Proof.
  intros Hrole Hfind Hnull. unfold staff in Hrole.
  unfold update_request_generic, requested_status_change. run.
  rewrite bool_decide_true by done. simpl.
  rewrite Hfind, !_to_request_view, Hnull. simpl.
  destruct (ru_assigned_to upd) as [[uid|]|]; simpl;
    [destruct (str_truthy uid); simpl|..].
  all: rewrite (find_one_update_one _ _ _ _ Hfind); simpl.
  all: rewrite _to_request_view.
  all: eexists _, _, _; split; [done|]; simpl.
  all: rewrite (find_one_update_one _ _ _ _ Hfind).
  all: by repeat split.
Qed.

Lemma generic_update_null_status_resets_witness :
  ∃ r w' doc',
    update_request_generic sample_ticket null_status support_user world_finalized
    = (Ok r, w')
    ∧ find_one sample_ticket (requests w') = Some doc'
    ∧ d_status doc' = Some VNone
    ∧ status r = Pendiente
    ∧ state_history r = d_state_history (sample_doc world_finalized)
    ∧ completion_date r = d_completion_date (sample_doc world_finalized)
    ∧ feedback r = d_feedback (sample_doc world_finalized)
    ∧ reabierto_count r = d_reabierto_count (sample_doc world_finalized)
    ∧ ticket_status_events w' = ticket_status_events world_finalized.
Proof.
  apply (generic_update_null_status_resets world_finalized sample_ticket
           (sample_doc world_finalized) null_status support_user);
    [by_evaluation|vm_compute; reflexivity|reflexivity].
Defined.

(** X13: the generic update does not check the assignee.  When it carries no
    status and a non-empty [assigned_to] that is no user's id, it succeeds:
    the ticket is stored as assigned to that id, and keeps the name of the
    previous assignee. *)
Theorem generic_update_accepts_unknown_assignee w rid doc upd u uid :
  staff u →
  find_one rid (requests w) = Some doc →
  ru_status upd = None →
  ru_assigned_to upd = Some (Some uid) →
  uid ≠ [] →
  find_user uid (users w) = None →
  ∃ r w', update_request_generic rid upd u w = (Ok r, w')
    ∧ (d_assigned_to <$> find_one rid (requests w')) = Some (Some uid)
    ∧ assigned_to r = Some uid
    ∧ assigned_to_name r = d_assigned_to_name doc
    ∧ status r = doc_status doc.
Proof.
  intros Hrole Hfind Hstatus Hto Hne Hnone. unfold staff in Hrole.
  unfold update_request_generic, requested_status_change. run.
  rewrite bool_decide_true by done. simpl.
  rewrite Hfind, !_to_request_view, Hstatus, Hto. simpl.
  destruct uid as [|c uid]; [done|]. simpl. rewrite Hnone. simpl.
  rewrite (find_one_update_one _ _ _ _ Hfind); simpl.
  rewrite _to_request_view.
  eexists _, _; split; [done|]; simpl.
  rewrite (find_one_update_one _ _ _ _ Hfind).
  by repeat split.
Qed.

Lemma generic_update_accepts_unknown_assignee_witness :
  ∃ r w',
    update_request_generic sample_ticket hand_to_stranger support_user
      world_in_progress = (Ok r, w')
    ∧ (d_assigned_to <$> find_one sample_ticket (requests w'))
      = Some (Some (s2p "nadie"))
    ∧ assigned_to r = Some (s2p "nadie")
    ∧ assigned_to_name r = d_assigned_to_name (sample_doc world_in_progress)
    ∧ status r = doc_status (sample_doc world_in_progress).
Proof.
  apply (generic_update_accepts_unknown_assignee world_in_progress sample_ticket
           (sample_doc world_in_progress) hand_to_stranger support_user
           (s2p "nadie"));
    [by_evaluation|vm_compute; reflexivity|reflexivity|reflexivity
    |discriminate|vm_compute; reflexivity].
Defined.

(** ** Feedback *)

(** A property of the ticket under [rid] that every update a handler makes
    preserves holds after any sequence of calls. *)
Lemma steps_keep_on_ticket (P : Doc → Prop) w w' rid d :
  (∀ d ops, P d → handler_update d ops → P (apply_update ops d)) →
  rtc step w w' →
  find_one rid (requests w) = Some d → P d →
  ∃ d', find_one rid (requests w') = Some d' ∧ P d'.
Proof.
  intros Hkeep Hsteps. revert d.
  induction Hsteps as [w|w w1 w' Hstep _ IH]; intros d Hfind Hd; [by exists d|].
  destruct (store_change_ticket w w1 rid d (step_store_change _ _ Hstep) Hfind)
    as [Hsame | (ops & Hops & Hnew)].
  - by apply (IH d).
  - apply (IH _ Hnew). by apply Hkeep.
Qed.

(** X14: feedback is given once.  After a successful [submit_feedback] on a
    ticket, and whatever calls to the life-cycle handlers follow, every
    further [submit_feedback] on that ticket raises, for every caller and
    payload, and the stored feedback still carries the first rating, signed
    by the first caller. *)
Theorem feedback_is_given_once rid p u w r w1 w2 p2 u2 :
  submit_feedback rid p u w = (Ok r, w1) →
  rtc step w1 w2 →
  returned (submit_feedback rid p2 u2 w2) = None
  ∧ ∃ d fb, find_one rid (requests (submit_feedback rid p2 u2 w2).2) = Some d
      ∧ d_feedback d = Some fb
      ∧ fb_rating fb = fp_rating p ∧ fb_by_user_id fb = u_id u.
Proof.
  intros Hrun Hsteps.
  pose (P := λ d : Doc, ∃ fb, d_feedback d = Some fb
                          ∧ fb_rating fb = fp_rating p ∧ fb_by_user_id fb = u_id u).
  assert (∃ d1, find_one rid (requests w1) = Some d1 ∧ P d1) as (d1 & Hd1 & HP1).
  { revert Hrun. unfold submit_feedback.
    split_handler; rewrite ?_to_request_view; try done.
    all: intros [= <- <-]; simpl.
    all: match goal with
         | H : find_one _ (update_one _ _ _) = Some ?d,
           H' : find_one _ (requests _) = Some _ |- _ =>
             exists d; split; [done|];
             rewrite (find_one_update_one _ _ _ _ H') in H; injection H as <-
         end.
    all: eexists; by repeat split. }
  destruct (steps_keep_on_ticket P w1 w2 rid d1) as (d2 & Hd2 & fb & Hfb & Hr & Hby);
    try done.
  { intros d ops (fb & Hfb & ?) ([Hset|Hnone] & _); [|by rewrite Hnone in Hfb].
    exists fb. simpl. by rewrite Hset. }
  assert (submit_feedback rid p2 u2 w2 = (Raise Not_authorized, w2)
          ∨ submit_feedback rid p2 u2 w2 = (Raise Solo_solicitante_feedback, w2)
          ∨ submit_feedback rid p2 u2 w2 = (Raise Solicitud_no_finalizada, w2)
          ∨ submit_feedback rid p2 u2 w2 = (Raise Feedback_ya_registrado, w2))
    as Hraise.
  { unfold submit_feedback. run. case_bool_decide; simpl; [|by left].
    rewrite Hd2, _to_request_view. simpl.
    destruct (_ && _); [by right; left|].
    case_bool_decide; [by right; right; left|].
    rewrite Hfb. rewrite bool_decide_true by done. by right; right; right. }
  destruct Hraise as [-> | [-> | [-> | ->]]]; (split; [done|]); simpl;
    by exists d2, fb.
Qed.

Lemma feedback_is_given_once_witness :
  returned (submit_feedback sample_ticket thumbs_down admin_user
              world_with_feedback) = None
  ∧ ∃ d fb,
      find_one sample_ticket
        (requests (submit_feedback sample_ticket thumbs_down admin_user
                     world_with_feedback).2) = Some d
      ∧ d_feedback d = Some fb
      ∧ fb_rating fb = fp_rating thumbs_up
      ∧ fb_by_user_id fb = u_id employee_user.
Proof.
  assert (∃ r, submit_feedback sample_ticket thumbs_up employee_user
                 world_finalized = (Ok r, world_with_feedback)) as [r Hrun]
    by (eexists; vm_compute; reflexivity).
  apply (feedback_is_given_once sample_ticket thumbs_up employee_user
           world_finalized r world_with_feedback world_with_feedback
           thumbs_down admin_user Hrun).
  apply rtc_refl.
Defined.

(** ** Migration *)

Lemma STATUS_SYNONYMS_items_map : STATUS_SYNONYMS = list_to_map STATUS_SYNONYMS_items.
Proof. reflexivity. Qed.

Lemma synonym_lookup_other (s : pystr) :
  Forall (λ kv, s ≠ kv.1) STATUS_SYNONYMS_items → STATUS_SYNONYMS !! s = None.
Proof.
  intros Hs. rewrite STATUS_SYNONYMS_items_map.
  apply not_elem_of_list_to_map_1. intros Hin.
  apply list_elem_of_fmap in Hin as (kv & -> & Hin).
  rewrite Forall_forall in Hs. by apply (Hs kv).
Qed.

Lemma with_requests_requests l w : requests (with_requests l w) = l.
Proof. reflexivity. Qed.

(** What the loop over the synonyms does to one document. *)
Lemma synonym_loop_requests (items : list (pystr * pystr)) w :
  let body := λ kv : pystr * pystr,
    requests_update_many (λ d, bool_decide (d_status d = Some (VStr kv.1)))
      (doc_set_status (VStr kv.2)) in
  let turn := λ (d : Doc) (kv : pystr * pystr),
    if bool_decide (d_status d = Some (VStr kv.1))
    then doc_set_status (VStr kv.2) d else d in
  (for_each items body w).1 = Ok tt
  ∧ requests (for_each items body w).2
    = (λ d, foldl turn d items) <$> requests w
  ∧ ticket_status_events (for_each items body w).2 = ticket_status_events w
  ∧ users (for_each items body w).2 = users w.
Proof.
  intros body turn. revert w.
  induction items as [|kv items IH]; intros w.
  - cbn. by rewrite list_fmap_id.
  - cbn [for_each]. unfold mbind, M_bind.
    change (body kv w) with
      (Ok tt, with_requests
                (update_many (λ d, bool_decide (d_status d = Some (VStr kv.1)))
                   (doc_set_status (VStr kv.2)) (requests w)) w).
    cbv beta iota. destruct (IH (with_requests
      (update_many (λ d, bool_decide (d_status d = Some (VStr kv.1)))
         (doc_set_status (VStr kv.2)) (requests w)) w)) as (-> & -> & -> & ->).
    repeat split. rewrite with_requests_requests. unfold update_many.
    rewrite <- list_fmap_compose. done.
Qed.

Lemma synonym_loop_other (items : list (pystr * pystr)) (d : Doc) :
  Forall (λ kv, d_status d ≠ Some (VStr kv.1)) items →
  foldl (λ (d : Doc) (kv : pystr * pystr),
           if bool_decide (d_status d = Some (VStr kv.1))
           then doc_set_status (VStr kv.2) d else d) d items = d.
Proof.
  induction 1 as [|kv items Hkv _ IH]; [done|]. cbn [foldl].
  by rewrite bool_decide_false.
Qed.

Lemma doc_set_status_same d v : d_status d = Some v → doc_set_status v d = d.
Proof. destruct d. simpl. by intros ->. Qed.

Lemma synonym_loop_status (d : Doc) (v : pyval) :
  d_status d = Some v →
  foldl (λ (d : Doc) (kv : pystr * pystr),
           if bool_decide (d_status d = Some (VStr kv.1))
           then doc_set_status (VStr kv.2) d else d) d STATUS_SYNONYMS_items
  = doc_set_status (apply_synonym v) d.
Proof.
  intros Hv.
  assert (∀ s, v = VStr s → Forall (λ kv, s ≠ kv.1) STATUS_SYNONYMS_items →
            Forall (λ kv : pystr * pystr, d_status d ≠ Some (VStr kv.1))
              STATUS_SYNONYMS_items) as Hother.
  { intros s -> Hs. eapply Forall_impl; [exact Hs|]. intros kv Hkv.
    rewrite Hv. by intros [= ->]. }
  destruct v as [|s|z].
  - rewrite synonym_loop_other; [by rewrite doc_set_status_same|].
    apply Forall_forall. intros kv _. rewrite Hv. discriminate.
  - destruct (decide (Forall (λ kv : pystr * pystr, s ≠ kv.1)
                        STATUS_SYNONYMS_items)) as [Hs|Hs];
      [|apply (not_Forall_Exists _) in Hs].
    + rewrite synonym_loop_other by by apply (Hother s).
      simpl. rewrite (synonym_lookup_other s Hs). by rewrite doc_set_status_same.
    + destruct d as [? ? ? ? ? ? ? st ? ? ? ? ? ? ? ? ? ? ? ? ? ? ? ? ? ?].
      simpl in Hv. subst st. clear Hother.
      unfold STATUS_SYNONYMS_items in Hs.
      repeat (apply Exists_cons in Hs as [Hs|Hs];
              [apply dec_stable in Hs; simpl in Hs; subst s;
               vm_compute; reflexivity|]).
      by apply Exists_nil in Hs.
  - rewrite synonym_loop_other; [by rewrite doc_set_status_same|].
    apply Forall_forall. intros kv _. rewrite Hv. discriminate.
Qed.

Lemma bind_update_many {B} query set (k : unit → M B) w :
  (requests_update_many query set ≫= k) w
  = k tt (with_requests (update_many query set (requests w)) w).
Proof. reflexivity. Qed.

Lemma fill_type d :
  (if bool_decide (d_type d = None) then doc_set_type Soporte d else d)
  = doc_set_type (default Soporte (d_type d)) d.
Proof. destruct d as [? ? ? ? [ty|] ? ? ? ? ? ? ? ? ? ? ? ? ? ? ? ? ? ? ? ? ?]; done. Qed.

Lemma fill_channel d :
  (if bool_decide (d_channel d = None) then doc_set_channel Sistema d else d)
  = doc_set_channel (default Sistema (d_channel d)) d.
Proof. destruct d as [? ? ? ? ? [ch|] ? ? ? ? ? ? ? ? ? ? ? ? ? ? ? ? ? ? ? ?]; done. Qed.

Lemma fill_status d :
  (if bool_decide (d_status d = None)
   then doc_set_status (VStr (status_label Pendiente)) d else d)
  = doc_set_status (default (VStr (status_label Pendiente)) (d_status d)) d.
Proof. destruct d as [? ? ? ? ? ? ? [st|] ? ? ? ? ? ? ? ? ? ? ? ? ? ? ? ? ? ?]; done. Qed.

(** The eleven [update_many] calls of the migration amount to one pass over
    the collection. *)
Lemma migrate_requests_schema_pass w :
  (migrate_requests_schema w).1 = Ok tt
  ∧ requests (migrate_requests_schema w).2 = migrated <$> requests w
  ∧ ticket_status_events (migrate_requests_schema w).2 = ticket_status_events w
  ∧ users (migrate_requests_schema w).2 = users w.
Proof.
  unfold migrate_requests_schema.
  rewrite bind_update_many. cbv beta.
  rewrite bind_update_many. cbv beta.
  rewrite bind_update_many. cbv beta.
  match goal with
  | |- context [for_each _ _ ?w3] =>
      pose proof (synonym_loop_requests STATUS_SYNONYMS_items w3) as Hloop
  end.
  cbv zeta in Hloop. destruct Hloop as (-> & -> & -> & ->).
  repeat split. rewrite !with_requests_requests. unfold update_many.
  rewrite <- !list_fmap_compose. apply list_fmap_ext. intros _ d _.
  unfold compose. rewrite fill_type, fill_channel, fill_status.
  rewrite (synonym_loop_status (doc_set_status _ _) _ eq_refl).
  by destruct d.
Qed.

Lemma synonym_is_valid (s canon : pystr) :
  STATUS_SYNONYMS !! s = Some canon →
  canon ∈ VALID_STATUSES ∧ STATUS_SYNONYMS !! canon = None.
Proof.
  rewrite STATUS_SYNONYMS_items_map. intros Hin.
  apply elem_of_list_to_map_2 in Hin. unfold STATUS_SYNONYMS_items in Hin.
  repeat (apply elem_of_cons in Hin as [[= -> ->]|Hin];
          [split; [by_evaluation|vm_compute; reflexivity]|]).
  by apply not_elem_of_nil in Hin.
Qed.

Lemma apply_synonym_idem v : apply_synonym (apply_synonym v) = apply_synonym v.
Proof.
  destruct v as [|s|z]; try done. simpl.
  destruct (STATUS_SYNONYMS !! s) as [canon|] eqn:Hs; simpl.
  - by destruct (synonym_is_valid _ _ Hs) as [_ ->].
  - by rewrite Hs.
Qed.

Lemma apply_synonym_unknown v :
  in_valid_statuses (apply_synonym v) = false → apply_synonym v = v.
Proof.
  destruct v as [|s|z]; try done. simpl.
  destruct (STATUS_SYNONYMS !! s) as [canon|] eqn:Hs; [|done]. simpl.
  destruct (synonym_is_valid _ _ Hs) as [Hvalid _].
  by rewrite bool_decide_true.
Qed.

Lemma normalize_status_migrated d :
  normalize_status (d_status (migrated d)) = normalize_status (d_status d).
Proof. unfold normalize_status. simpl. by rewrite apply_synonym_idem. Qed.

(** X15: the start-up migration always completes and is invisible through
    the API: every stored document is read by [_to_request] as the same
    [Request] after it as before, in the same order, and the flat events and
    the users are untouched. *)
Theorem migration_is_invisible_to_reads w :
  (migrate_requests_schema w).1 = Ok tt
  ∧ (_to_request <$> requests (migrate_requests_schema w).2)
    = (_to_request <$> requests w)
  ∧ ticket_status_events (migrate_requests_schema w).2 = ticket_status_events w
  ∧ users (migrate_requests_schema w).2 = users w.
Proof.
  destruct (migrate_requests_schema_pass w) as (-> & -> & -> & ->).
  repeat split. rewrite <- list_fmap_compose. apply list_fmap_ext.
  intros _ d _. unfold compose. rewrite !_to_request_view. f_equal.
  unfold request_view, doc_status. rewrite normalize_status_migrated.
  simpl. by destruct (d_type d), (d_channel d).
Qed.

(** X16: running the migration a second time changes nothing. *)
Theorem migration_is_idempotent w :
  requests (migrate_requests_schema (migrate_requests_schema w).2).2
  = requests (migrate_requests_schema w).2.
Proof.
  destruct (migrate_requests_schema_pass (migrate_requests_schema w).2)
    as (_ & -> & _).
  destruct (migrate_requests_schema_pass w) as (_ & -> & _).
  rewrite <- list_fmap_compose. apply list_fmap_ext. intros _ d _.
  unfold compose, migrated. simpl. by rewrite apply_synonym_idem.
Qed.

(** X17: what the migration stores.  A document whose status normalisation
    recognises (absent, a valid label, or a synonym) is replaced by its
    normalised form, so reading it no longer changes it.  A document whose
    status is anything else keeps that status in the store: the migration
    does not repair it, and it goes on being read as [Pendiente]. *)
Theorem migration_stores_known_statuses_normalised w :
  Forall2 (λ d d',
             (known_status d → d' = _normalize_request_doc d)
             ∧ (¬ known_status d →
                  d_status d' = d_status d
                  ∧ d_status d' ≠ d_status (_normalize_request_doc d)
                  ∧ doc_status d' = Pendiente))
    (requests w) (requests (migrate_requests_schema w).2).
Proof.
  destruct (migrate_requests_schema_pass w) as (_ & -> & _).
  apply Forall2_fmap_r, Forall_Forall2_diag, Forall_forall. intros d _.
  unfold known_status. split.
  - intros Hknown. unfold migrated, _normalize_request_doc, normalize_status.
    simpl. destruct (d_status d) as [v|]; simpl; [by rewrite Hknown|done].
  - intros Hunknown. destruct (d_status d) as [v|] eqn:Hv; [|done].
    apply not_true_is_false in Hunknown.
    assert (d_status (migrated d) = Some v) as Hkept.
    { unfold migrated. simpl. rewrite Hv. simpl.
      by rewrite apply_synonym_unknown. }
    split; [done|]. split.
    + rewrite Hkept. simpl. rewrite Hv. unfold normalize_status. simpl.
      rewrite Hunknown. intros [= ->].
      by rewrite apply_synonym_unknown in Hunknown.
    + unfold doc_status. rewrite normalize_status_migrated, Hv.
      unfold normalize_status. simpl. by rewrite Hunknown.
Qed.

(** ** Deleting a user *)

Ltac run_admin :=
  unfold mbind, AM_bind, mret, AM_ret, refuse, admin_only; simpl.

Lemma users_delete_one_length uid l u :
  find_user uid l = Some u →
  (length (users_delete_one uid l) + 1 = length l)%nat.
Proof.
  induction l as [|x l IH]; simpl; [done|].
  case_bool_decide; simpl; [lia|]. intros Hfind. rewrite <- (IH Hfind). lia.
Qed.

Lemma users_delete_one_other uid l u :
  u_id u ≠ uid → u ∈ l → u ∈ users_delete_one uid l.
Proof.
  intros Hne. induction l as [|x l IH]; simpl; [done|].
  intros [->|Hin]%elem_of_cons.
  - rewrite bool_decide_false by done. apply list_elem_of_here.
  - case_bool_decide; [done|]. apply list_elem_of_further. by apply IH.
Qed.


(** What a successful [delete_user] has checked about the tickets. *)
Lemma delete_user_success_facts uid cu w w' :
  delete_user uid cu w = (Answer tt, w') →
  Forall (λ d, d_assigned_to d = Some uid → stored_open d = false) (requests w)
  ∧ requests w = requests w'.
Proof.
  unfold delete_user. run_admin.
  case_bool_decide as Hadmin; simpl; [|done].
  case_bool_decide as Hself; simpl; [done|].
  destruct (find_user uid (users w)) as [target|] eqn:Htarget; simpl; [|done].
  destruct (bool_decide (u_role target = role_admin)) eqn:Htadmin; simpl;
    [destruct (bool_decide (_ ≤ 1)%nat) eqn:Hadmins; simpl; [done|]|].
  all: destruct (bool_decide (0 < _)%nat) eqn:Hopen; simpl; [done|].
  all: intros [= <-]; simpl; split; [|done].
  all: apply bool_decide_eq_false in Hopen.
  all: apply Forall_forall; intros d Hd Hto.
  all: destruct (stored_open d) eqn:Hso; [|done]; exfalso; apply Hopen.
  all: assert (d ∈ filter (λ d, d_assigned_to d = Some uid
                                ∧ stored_open d = true) (requests w))
         as Hin by (by apply list_elem_of_filter).
  all: destruct (filter _ (requests w));
         [by apply not_elem_of_nil in Hin|simpl; lia].
Qed.

(** X18: when [delete_user] succeeds, the caller is an admin other than the
    user deleted, that user existed, exactly one user document is gone, the
    caller's own document is still there, no ticket assigned to the deleted
    user is stored with an open status, and tickets and flat events are
    untouched. *)
Theorem delete_user_success uid cu w w' :
  delete_user uid cu w = (Answer tt, w') →
  u_role cu = role_admin ∧ uid ≠ u_id cu
  ∧ (∃ target, find_user uid (users w) = Some target
       ∧ (u_role target = role_admin →
            (2 ≤ length (filter (λ u, u_role u = role_admin) (users w)))%nat))
  ∧ (length (users w') + 1 = length (users w))%nat
  ∧ (cu ∈ users w → cu ∈ users w')
  ∧ Forall (λ d, d_assigned_to d = Some uid → stored_open d = false) (requests w')
  ∧ requests w' = requests w
  ∧ ticket_status_events w' = ticket_status_events w.
Proof.
  unfold delete_user. run_admin.
  case_bool_decide as Hadmin; simpl; [|done].
  apply list_elem_of_singleton in Hadmin.
  case_bool_decide as Hself; simpl; [done|].
  destruct (find_user uid (users w)) as [target|] eqn:Htarget; simpl; [|done].
  destruct (bool_decide (u_role target = role_admin)) eqn:Htadmin; simpl;
    [destruct (bool_decide (_ ≤ 1)%nat) eqn:Hadmins; simpl; [done|]|].
  all: destruct (bool_decide (0 < _)%nat) eqn:Hopen; simpl; [done|].
  all: intros [= <-]; simpl.
  all: apply bool_decide_eq_false in Hopen.
  all: split; [done|]; split; [by intros ->|]; split.
  all: try (split; [by apply (users_delete_one_length _ _ target)|];
            split; [intros Hcu; apply users_delete_one_other; [by intros <-|done]|];
            split; [|done];
            apply Forall_forall; intros d Hd Hto;
            destruct (stored_open d) eqn:Hso; [|done]; exfalso; apply Hopen;
            assert (d ∈ filter (λ d, d_assigned_to d = Some uid
                                     ∧ stored_open d = true) (requests w))
              as Hin by (by apply list_elem_of_filter);
            destruct (filter _ (requests w));
            [by apply not_elem_of_nil in Hin|simpl; lia]).
  - exists target. split; [done|]. intros _.
    apply bool_decide_eq_false in Hadmins. lia.
  - exists target. split; [done|]. intros Hrole.
    by apply bool_decide_eq_false in Htadmin.
Qed.

Lemma delete_user_success_witness :
  delete_user (u_id support_user) admin_user world_finalized
  = (Answer tt,
     with_users (users_delete_one (u_id support_user) (users world_finalized))
       world_finalized)
  ∧ (length (users (with_users (users_delete_one (u_id support_user)
                                  (users world_finalized)) world_finalized)) + 1
     = length (users world_finalized))%nat.
Proof.
  assert (delete_user (u_id support_user) admin_user world_finalized
          = (Answer tt,
             with_users (users_delete_one (u_id support_user)
                           (users world_finalized)) world_finalized)) as Hrun
    by (vm_compute; reflexivity).
  split; [exact Hrun|].
  apply (delete_user_success (u_id support_user) admin_user world_finalized _ Hrun).
Defined.




(** ** The stored status *)

Ltac keeps_written_status :=
  simpl;
  first
    [ assumption
    | apply update_one_Forall; [|assumption];
      intros ? [? | [? ?]]; simpl;
      solve [ by left | right; by eexists ]
    | apply Forall_app; split; [assumption|];
      apply Forall_singleton; right; by exists Pendiente ].

Lemma step_keeps_written_status w w' :
  step w w' →
  Forall written_status (requests w) → Forall written_status (requests w').
Proof.
  intros Hstep Hw. destruct Hstep.
  - unfold create_request. split_handler; keeps_written_status.
  - unfold classify_request. split_handler; keeps_written_status.
  - unfold assign_request. split_handler; keeps_written_status.
  - unfold unassign_request. split_handler; keeps_written_status.
  - unfold transition_request. split_handler; keeps_written_status.
  - unfold submit_feedback. split_handler; keeps_written_status.
  - unfold update_request_generic. split_handler; keeps_written_status.
Qed.

Lemma steps_keep_written_status w w' :
  rtc step w w' →
  Forall written_status (requests w) → Forall written_status (requests w').
Proof.
  induction 1 as [|w w1 w' Hstep _ IH]; [done|].
  intros Hw. by apply IH, (step_keeps_written_status w).
Qed.

(** X20: tickets made and changed through the life-cycle handlers never
    need the synonyms.  In every store they build from an empty collection,
    each stored status is one of the five labels or the null written by a
    generic update; a stored status that is not null is the status the
    ticket reads as. *)
Theorem handlers_store_labels_or_null w :
  reachable w →
  Forall (λ d, written_status d
               ∧ (d_status d ≠ Some VNone →
                    d_status d = Some (VStr (status_label (doc_status d)))))
    (requests w).
Proof.
  intros (w0 & Hempty & Hsteps).
  assert (Forall written_status (requests w)) as Hw.
  { apply (steps_keep_written_status w0); [done|]. by rewrite Hempty. }
  eapply Forall_impl; [exact Hw|]. intros d Hd. split; [done|].
  intros Hnull. destruct Hd as [Hd | [st Hd]]; [done|].
  by rewrite (doc_status_stored_label d st).
Qed.

Lemma sample_run_reset : rtc step empty_world world_reset.
Proof.
  apply rtc_l with world_pending; [apply step_create|].
  apply rtc_l with world_in_progress; [apply step_transition|].
  apply rtc_l with world_assigned; [apply step_assign|].
  apply rtc_once, step_update.
Qed.

Lemma handlers_store_labels_or_null_witness :
  (d_status <$> requests world_reset) = [Some VNone]
  ∧ Forall (λ d, written_status d
                 ∧ (d_status d ≠ Some VNone →
                      d_status d = Some (VStr (status_label (doc_status d)))))
      (requests world_reset).
Proof.
  split; [vm_compute; reflexivity|].
  apply (handlers_store_labels_or_null world_reset).
  exists empty_world. split; [reflexivity|apply sample_run_reset].
Defined.

(** X21: [delete_user] looks at the stored status, not at the status the
    ticket is read with.  In a store built by the life-cycle handlers, a
    successful deletion can leave behind tickets assigned to the deleted user
    that read as open, and they are exactly those whose stored status is
    null. *)
Theorem delete_user_overlooks_null_status uid cu w w' :
  reachable w →
  delete_user uid cu w = (Answer tt, w') →
  Forall (λ d, d_assigned_to d = Some uid →
               (doc_status d ∈ OPEN_STATES ↔ d_status d = Some VNone))
    (requests w').
Proof.
  intros (w0 & Hempty & Hsteps) Hrun.
  assert (Forall written_status (requests w)) as Hw.
  { apply (steps_keep_written_status w0); [done|]. by rewrite Hempty. }
  destruct (delete_user_success_facts uid cu w w' Hrun) as (Hclosed & <-).
  rewrite Forall_forall in Hw, Hclosed. apply Forall_forall. intros d Hd Hto.
  specialize (Hclosed d Hd Hto). split.
  - intros Hopen. destruct (Hw d Hd) as [Hnull | [st Hst]]; [done|]. exfalso.
    rewrite (doc_status_stored_label d st Hst) in Hopen.
    unfold stored_open in Hclosed. rewrite Hst in Hclosed.
    apply bool_decide_eq_false in Hclosed. apply Hclosed.
    by apply list_elem_of_fmap_2.
  - intros Hnull. unfold doc_status. rewrite Hnull. by_evaluation.
Qed.

Lemma delete_user_overlooks_null_status_witness :
  (doc_status <$> requests world_reset) = [Pendiente]
  ∧ (d_assigned_to <$> requests world_reset) = [Some (u_id support_user)]
  ∧ Forall (λ d, d_assigned_to d = Some (u_id support_user) →
                 (doc_status d ∈ OPEN_STATES ↔ d_status d = Some VNone))
      (requests (with_users (users_delete_one (u_id support_user)
                               (users world_reset)) world_reset)).
Proof.
  split; [vm_compute; reflexivity|]. split; [vm_compute; reflexivity|].
  apply (delete_user_overlooks_null_status (u_id support_user) admin_user
           world_reset).
  - exists empty_world. split; [reflexivity|apply sample_run_reset].
  - vm_compute; reflexivity.
Defined.

(** ** The trash *)

Ltac run_archive :=
  unfold mbind, AM_bind, mret, AM_ret, refuse, admin_only, archive_now,
    requests_trash_insert_one; simpl.

Lemma find_one_id rid l d : find_one rid l = Some d → d_id d = rid.
Proof.
  induction l as [|x l IH]; simpl; [done|].
  case_bool_decide; [by intros [= <-]|done].
Qed.

Lemma find_one_None_filter rid l :
  find_one rid l = None ↔ filter (λ d, d_id d = rid) l = [].
Proof.
  induction l as [|x l IH]; simpl; [done|].
  case_bool_decide.
  - rewrite filter_cons_True by done. done.
  - by rewrite filter_cons_False.
Qed.


Lemma requests_delete_one_unique rid l :
  length (filter (λ d, d_id d = rid) l) = 1%nat →
  find_one rid (requests_delete_one rid l) = None.
Proof.
  induction l as [|x l IH]; simpl; [done|].
  case_bool_decide.
  - rewrite filter_cons_True by done. simpl. intros [= Hlen].
    apply find_one_None_filter. by apply nil_length_inv.
  - rewrite filter_cons_False by done. simpl.
    rewrite bool_decide_false by done. apply IH.
Qed.

Lemma trash_find_one_id rid l t : trash_find_one rid l = Some t → t_id t = rid.
Proof.
  induction l as [|x l IH]; simpl; [done|].
  case_bool_decide; [by intros [= <-]|done].
Qed.



Lemma trash_find_one_app_new rid l t :
  trash_find_one rid l = None → t_id t = rid →
  trash_find_one rid (l ++ [t]) = Some t
  ∧ trash_delete_one rid (l ++ [t]) = l.
Proof.
  intros Hnone Ht. induction l as [|x l IH]; simpl in *.
  - by rewrite bool_decide_true.
  - destruct (bool_decide (t_id x = rid)); [done|].
    destruct (IH Hnone) as [-> ->]. done.
Qed.

(** X22: restoring undoes deleting.  When an admin deletes a ticket whose id
    is that of no other live ticket and is not in the trash, and then
    restores it, both calls succeed; in between no live ticket has the id;
    afterwards the ticket is live again, at the end of the collection and
    with nothing changed but [updated_at], the trash is as it was, and the
    flat events were never touched. *)
Theorem restore_undoes_delete rid u a doc :
  u_role u = role_admin →
  find_one rid (requests (live a)) = Some doc →
  tickets_with_id rid (live a) = 1%nat →
  trash_find_one rid (requests_trash a) = None →
  ∃ a1 r a2 restored,
    delete_request rid u a = (Answer tt, a1)
    ∧ find_one rid (requests (live a1)) = None
    ∧ restore_request rid u a1 = (Answer r, a2)
    ∧ restored = doc_set_updated_at (clock (live a1) (ticks (live a1))) doc
    ∧ r = request_view restored
    ∧ requests (live a2)
      = requests_delete_one rid (requests (live a)) ++ [restored]
    ∧ requests_trash a2 = requests_trash a
    ∧ ticket_status_events (live a2) = ticket_status_events (live a).
Proof.
  intros Hadmin Hfind Hone Htrash.
  pose proof (find_one_id _ _ _ Hfind) as Hid.
  unfold delete_request, restore_request. run_archive.
  rewrite !bool_decide_true by (rewrite Hadmin; apply list_elem_of_here).
  simpl. rewrite Hfind. simpl. rewrite Hid, Htrash.
  rewrite (bool_decide_false (is_Some None)) by by intros [? [=]].
  rewrite andb_false_r. simpl.
  eexists _, _, _, _. split; [done|]. simpl.
  rewrite (requests_delete_one_unique _ _ Hone).
  split; [done|].
  set (t := {| t_id := rid |}).
  destruct (trash_find_one_app_new rid (requests_trash a) t Htrash eq_refl)
    as [-> Hdel].
  simpl. rewrite (requests_delete_one_unique _ _ Hone). simpl.
  rewrite _to_request_view. simpl. rewrite Hdel.
  by repeat split.
Qed.

Lemma restore_undoes_delete_witness :
  ∃ a1 r a2 restored,
    delete_request sample_ticket admin_user sample_archive = (Answer tt, a1)
    ∧ find_one sample_ticket (requests (live a1)) = None
    ∧ restore_request sample_ticket admin_user a1 = (Answer r, a2)
    ∧ restored = doc_set_updated_at (clock (live a1) (ticks (live a1)))
                   (sample_doc world_finalized)
    ∧ r = request_view restored
    ∧ requests (live a2)
      = requests_delete_one sample_ticket (requests (live sample_archive))
        ++ [restored]
    ∧ requests_trash a2 = requests_trash sample_archive
    ∧ ticket_status_events (live a2) = ticket_status_events (live sample_archive).
Proof.
  apply (restore_undoes_delete sample_ticket admin_user sample_archive
           (sample_doc world_finalized));
    vm_compute; reflexivity.
Defined.


Lemma call_on_missing_ticket c u w rid :
  call_target c = Some rid →
  find_one rid (requests w) = None →
  (handle c u w).1 = Raise Request_not_found
  ∨ (handle c u w).1 = Raise Not_authorized.
Proof.
  destruct c; simpl; try done; intros [= ->] Hnone.
  - unfold classify_request. run. case_bool_decide; simpl; [|by right].
    rewrite Hnone. by left.
  - unfold assign_request. run. case_bool_decide; simpl; [|by right].
    rewrite Hnone. by left.
  - unfold unassign_request. run. case_bool_decide; simpl; [|by right].
    rewrite Hnone. by left.
  - unfold transition_request. run. case_bool_decide; simpl; [|by right].
    rewrite Hnone. by left.
  - unfold submit_feedback. run. case_bool_decide; simpl; [|by right].
    rewrite Hnone. by left.
  - unfold update_request_generic. run. case_bool_decide; simpl; [|by right].
    rewrite Hnone. by left.
Qed.

(** X24: a deleted ticket is out of the handlers' reach, but not out of the
    event log.  After a successful [delete_request] of a ticket whose id no
    other live ticket has, every life-cycle call about that id is answered
    404, or 403 where the caller's role is not allowed; the trash holds the
    ticket as it was, due to expire fourteen days after the deletion; and
    the flat events written for it are all still there. *)
Theorem deleted_ticket_is_out_of_reach rid u a a' :
  delete_request rid u a = (Answer tt, a') →
  tickets_with_id rid (live a) = 1%nat →
  (∀ c u', call_target c = Some rid →
     (handle c u' (live a')).1 = Raise Request_not_found
     ∨ (handle c u' (live a')).1 = Raise Not_authorized)
  ∧ (∃ t, last (requests_trash a') = Some t
       ∧ find_one rid (requests (live a)) = Some (request_doc t)
       ∧ expireAt t = deleted_at t + 14 * 86400000000)
  ∧ ticket_status_events (live a') = ticket_status_events (live a).
Proof.
  unfold delete_request. run_archive.
  case_bool_decide; simpl; [|done].
  destruct (find_one rid (requests (live a))) as [doc|] eqn:Hfind; simpl; [|done].
  destruct (_ && _); simpl; [done|]. intros [= <-] Hone. simpl.
  split; [|split; [|done]].
  - intros c u' Hc. apply (call_on_missing_ticket c u' _ rid Hc). simpl.
    by apply requests_delete_one_unique.
  - eexists. rewrite last_snoc. by repeat split.
Qed.

Lemma deleted_ticket_is_out_of_reach_witness :
  (∀ c u', call_target c = Some sample_ticket →
     (handle c u' (live (delete_request sample_ticket admin_user
                           sample_archive).2)).1 = Raise Request_not_found
     ∨ (handle c u' (live (delete_request sample_ticket admin_user
                             sample_archive).2)).1 = Raise Not_authorized)
  ∧ (∃ t, last (requests_trash (delete_request sample_ticket admin_user
                                  sample_archive).2) = Some t
       ∧ find_one sample_ticket (requests (live sample_archive))
         = Some (request_doc t)
       ∧ expireAt t = deleted_at t + 14 * 86400000000)
  ∧ ticket_status_events (live (delete_request sample_ticket admin_user
                                  sample_archive).2)
    = ticket_status_events (live sample_archive).
Proof.
  apply (deleted_ticket_is_out_of_reach sample_ticket admin_user sample_archive);
    vm_compute; reflexivity.
Defined.

(** ** Rework and backlog metrics *)

Lemma filter_none {A} (P : A → Prop) `{∀ x, Decision (P x)} (l : list A) :
  Forall (λ x, ¬ P x) l → filter P l = [].
Proof.
  induction 1 as [|x l Hx _ IH]; [done|]. by rewrite filter_cons_False.
Qed.

(** X25: the rework metric is blind.  Over any range, on any store built by
    the life-cycle handlers from an empty collection, [metrics_rework]
    answers staff with no reworked ticket and a percentage of zero; only
    [total] varies, and counts the tickets requested in the range. *)
Theorem rework_metric_is_always_zero start end_ u w :
  reachable w → staff u →
  ∃ report, metrics_rework start end_ u w = (Ok report, w)
    ∧ rw_con_retrabajo report = 0
    ∧ rw_pct report = Q2Qc 0
    ∧ rw_total report
      = Z.of_nat (length (filter (λ d, start ≤ d_requested_at d ≤ end_)
                            (requests w))).
Proof.
  intros (w0 & Hempty & Hsteps) Hstaff. unfold staff in Hstaff.
  assert (Forall (λ d, d_reabierto_count d = 0) (requests w)) as Hzero.
  { apply (steps_keep_counter w0); [done|]. by rewrite Hempty. }
  unfold metrics_rework. run. rewrite bool_decide_true by done. simpl.
  set (matched := filter _ (requests w)).
  assert (filter (λ d, 0 < d_reabierto_count d) matched = []) as ->.
  { apply filter_none, Forall_forall. intros d Hd.
    apply list_elem_of_filter in Hd as [_ Hd].
    rewrite Forall_forall in Hzero. rewrite (Hzero d Hd). lia. }
  destruct matched as [|d matched']; simpl; eexists; (split; [done|]); simpl;
    [done|].
  split; [done|]. split; [|done].
  change (Q2Qc (inject_Z (Z.of_nat 0))) with (Q2Qc 0).
  unfold Qcdiv. by rewrite !Qcmult_0_l.
Qed.

Lemma rework_metric_is_always_zero_witness :
  ∃ report, metrics_rework 0 1000000000 support_user world_finalized
            = (Ok report, world_finalized)
    ∧ rw_con_retrabajo report = 0
    ∧ rw_pct report = Q2Qc 0
    ∧ rw_total report
      = Z.of_nat (length (filter (λ d, 0 ≤ d_requested_at d ≤ 1000000000)
                            (requests world_finalized))).
Proof.
  apply (rework_metric_is_always_zero 0 1000000000 support_user world_finalized).
  - exists empty_world. split; [reflexivity|apply sample_run].
  - by_evaluation.
Defined.

Lemma filter_length_split {A} (P Q R : A → Prop)
    `{∀ x, Decision (P x)} `{∀ x, Decision (Q x)} `{∀ x, Decision (R x)}
    (l : list A) :
  (∀ x, R x ↔ P x ∨ Q x) → (∀ x, P x → Q x → False) →
  (length (filter P l) + length (filter Q l) = length (filter R l))%nat.
Proof.
  intros HR Hdisj. induction l as [|x l IH]; [done|].
  rewrite !filter_cons.
  destruct (decide (P x)) as [HP|HP], (decide (Q x)) as [HQ|HQ],
    (decide (R x)) as [HRx|HRx]; simpl; try lia.
  all: exfalso; first [by eapply Hdisj | apply HRx, HR; tauto | apply HR in HRx; tauto].
Qed.

Lemma requested_within_split a b c w :
  a ≤ b → b ≤ c →
  selected (requested_within a b) w + selected (requested_within b c) w
  = selected (requested_within a c) w.
Proof.
  intros Hab Hbc. unfold selected. rewrite <- Nat2Z.inj_add. f_equal.
  apply filter_length_split; unfold requested_within; intros d.
  - rewrite !bool_decide_eq_true. lia.
  - rewrite !bool_decide_eq_true. lia.
Qed.

Lemma completed_within_split a b c w :
  a ≤ b → b ≤ c →
  selected (completed_within a b) w + selected (completed_within b c) w
  = selected (completed_within a c) w.
Proof.
  intros Hab Hbc. unfold selected. rewrite <- Nat2Z.inj_add. f_equal.
  apply filter_length_split; unfold completed_within; intros d;
    destruct (d_completion_date d); rewrite ?bool_decide_eq_true;
    try lia; naive_solver.
Qed.

Lemma selected_empty_range (query : Doc → bool) w :
  (∀ d, query d = false) → selected query w = 0.
Proof.
  intros Hq. unfold selected. rewrite filter_none; [done|].
  apply Forall_forall. intros d _. by rewrite Hq.
Qed.

(** The loop of [backlog_trend], started at day [k] with the counts
    accumulated over the days before it. *)
Lemma trend_rows_closed_form start (n : nat) k w :
  0 ≤ k →
  ∀ acc_new acc_closed,
  acc_new = selected (requested_within start (start + days_us k)) w →
  acc_closed = selected (completed_within start (start + days_us k)) w →
  ∃ rows,
    trend_rows start (seqZ k (Z.of_nat n)) acc_new acc_closed w = (Ok rows, w)
    ∧ length rows = n
    ∧ ∀ (j : nat) row, rows !! j = Some row →
        let d0 := start + days_us (k + Z.of_nat j) in
        let d1 := d0 + days_us 1 in
        tr_date row = d0
        ∧ tr_new row = selected (requested_within d0 d1) w
        ∧ tr_closed row = selected (completed_within d0 d1) w
        ∧ tr_backlog row
          = Z.max (selected (requested_within start d1) w
                   - selected (completed_within start d1) w) 0.
Proof.
  revert k. induction n as [|n IH]; intros k Hk acc_new acc_closed Hnew Hclosed.
  - exists []. by repeat split.
  - rewrite Nat2Z.inj_succ, seqZ_cons by lia. rewrite Z.pred_succ.
    cbn [trend_rows]. unfold mbind, M_bind, requests_count_documents.
    cbv beta iota. fold (selected (requested_within (start + days_us k)
                                     (start + days_us k + days_us 1)) w).
    fold (selected (completed_within (start + days_us k)
                      (start + days_us k + days_us 1)) w).
    assert (start + days_us k + days_us 1 = start + days_us (Z.succ k)) as Hnext
      by (unfold days_us; lia).
    destruct (IH (Z.succ k) ltac:(lia)
                (acc_new + selected (requested_within (start + days_us k)
                                       (start + days_us k + days_us 1)) w)
                (acc_closed + selected (completed_within (start + days_us k)
                                          (start + days_us k + days_us 1)) w))
      as (rows & -> & Hlen & Hrows).
    { rewrite Hnew, <- Hnext. apply requested_within_split; unfold days_us; lia. }
    { rewrite Hclosed, <- Hnext. apply completed_within_split; unfold days_us; lia. }
    eexists. split; [done|]. split; [simpl; by rewrite Hlen|].
    intros [|j] row; simpl.
    + intros [= <-]. simpl. rewrite Z.add_0_r. repeat split.
      rewrite Hnew, Hclosed.
      by rewrite requested_within_split, completed_within_split
        by (unfold days_us; lia).
    + intros Hrow. specialize (Hrows j row Hrow). simpl in Hrows.
      by replace (k + Z.of_nat (S j)) with (Z.succ k + Z.of_nat j) by lia.
Qed.

(** X26: what the backlog trend reports.  For staff and a positive number of
    days, [backlog_trend] answers with one row per day, the days being
    consecutive midnights that end with today's.  A row counts the tickets
    requested and the tickets completed on its day, and its backlog is the
    number requested since the first day of the window minus the number
    completed since then, or zero when more were completed: tickets
    requested before the window never count as backlog. *)
Theorem backlog_trend_counts_inside_the_window days u w :
  staff u → 1 ≤ days →
  ∃ t, backlog_trend days u w = (Ok t, (datetime_now w).2)
    ∧ trend_to t = midnight (clock w (ticks w))
    ∧ trend_from t = trend_to t - days_us (days - 1)
    ∧ Z.of_nat (length (trend_rows_ t)) = days
    ∧ ∀ (j : nat) row, trend_rows_ t !! j = Some row →
        let d0 := trend_from t + days_us (Z.of_nat j) in
        let d1 := d0 + days_us 1 in
        tr_date row = d0
        ∧ tr_new row = selected (requested_within d0 d1) w
        ∧ tr_closed row = selected (completed_within d0 d1) w
        ∧ tr_backlog row
          = Z.max (selected (requested_within (trend_from t) d1) w
                   - selected (completed_within (trend_from t) d1) w) 0.
Proof.
  intros Hstaff Hdays. unfold staff in Hstaff.
  unfold backlog_trend. run. rewrite bool_decide_true by done. simpl.
  set (w1 := {| requests := requests w |}).
  set (start := midnight (clock w (ticks w)) - days_us (days - 1)).
  destruct (trend_rows_closed_form start (Z.to_nat days) 0 w1 ltac:(lia) 0 0)
    as (rows & Hrun & Hlen & Hrows).
  { symmetry. apply selected_empty_range. intros d. unfold requested_within.
    apply bool_decide_eq_false. unfold days_us. lia. }
  { symmetry. apply selected_empty_range. intros d. unfold completed_within.
    destruct (d_completion_date d); [|done].
    apply bool_decide_eq_false. unfold days_us. lia. }
  rewrite Z2Nat.id in Hrun by lia. rewrite Hrun. simpl.
  eexists. split; [done|]. simpl. split; [done|]. split; [done|].
  split; [rewrite Hlen; lia|].
  intros j row Hrow. specialize (Hrows j row Hrow). simpl in Hrows.
  exact Hrows.
Qed.

Lemma backlog_trend_counts_inside_the_window_witness :
  ∃ t, backlog_trend 3 support_user world_finalized
       = (Ok t, (datetime_now world_finalized).2)
    ∧ trend_to t = midnight (clock world_finalized (ticks world_finalized))
    ∧ trend_from t = trend_to t - days_us (3 - 1)
    ∧ Z.of_nat (length (trend_rows_ t)) = 3
    ∧ ∀ (j : nat) row, trend_rows_ t !! j = Some row →
        let d0 := trend_from t + days_us (Z.of_nat j) in
        let d1 := d0 + days_us 1 in
        tr_date row = d0
        ∧ tr_new row = selected (requested_within d0 d1) world_finalized
        ∧ tr_closed row = selected (completed_within d0 d1) world_finalized
        ∧ tr_backlog row
          = Z.max (selected (requested_within (trend_from t) d1) world_finalized
                   - selected (completed_within (trend_from t) d1)
                       world_finalized) 0.
Proof.
  apply (backlog_trend_counts_inside_the_window 3 support_user world_finalized).
  - by_evaluation.
  - lia.
Defined.

(** ** Listing tickets *)

Section listing.

Variable cursor_sort : pystr → Z → list Doc → list Doc.
Variable text_search : pystr → Doc → bool.

(** The store's sort returns the documents it was given. *)
Hypothesis cursor_sort_perm : ∀ field dir l, cursor_sort field dir l ≡ₚ l.

Lemma to_requests_view docs : to_requests docs = Ok (request_view <$> docs).
Proof.
  induction docs as [|d docs IH]; [done|]. cbn [to_requests].
  by rewrite _to_request_view, IH.
Qed.

Lemma get_requests_items query u w :
  ∃ p, get_requests cursor_sort text_search query u w = (Ok p, w)
    ∧ items p = request_view <$> listed cursor_sort text_search query u w
    ∧ pg_total p
      = Z.of_nat (length (filter (λ d, requests_filt text_search query u d = true)
                            (requests w)))
    ∧ pg_page_size p = gq_page_size query
    ∧ pg_total_pages p
      = Z.max ((pg_total p + gq_page_size query - 1) `div` gq_page_size query) 1
    ∧ pg_page p = Z.min (gq_page query) (pg_total_pages p)
    ∧ pg_has_prev p = bool_decide (1 < pg_page p)
    ∧ pg_has_next p = bool_decide (pg_page p < pg_total_pages p).
Proof.
  unfold get_requests, listed. destruct (sort_spec (gq_sort query)) as [field dir].
  rewrite to_requests_view. eexists. split; [done|]. by repeat split.
Qed.



(** X28: pages.  For a page number and a page size of at least one,
    [get_requests] reports the number of matching tickets and the number of
    pages needed for them, at least one; it clamps the page asked for to the
    last page, so that a request beyond the end is answered with the last
    page; the page holds as many tickets as are left from its offset, at
    most [page_size], and is never empty when a ticket matches; and
    [has_prev] and [has_next] say whether a page lies before and after. *)
Theorem listing_pages query u w :
  1 ≤ gq_page query → 1 ≤ gq_page_size query →
  ∃ p, get_requests cursor_sort text_search query u w = (Ok p, w)
    ∧ pg_total p
      = Z.of_nat (length (filter (λ d, requests_filt text_search query u d = true)
                            (requests w)))
    ∧ (pg_total_pages p - 1) * gq_page_size query < Z.max (pg_total p) 1
      ≤ pg_total_pages p * gq_page_size query
    ∧ pg_page p = Z.min (gq_page query) (pg_total_pages p)
    ∧ 1 ≤ pg_page p ≤ pg_total_pages p
    ∧ Z.of_nat (length (items p))
      = Z.min (gq_page_size query)
          (pg_total p - (pg_page p - 1) * gq_page_size query)
    ∧ (0 < pg_total p → items p ≠ [])
    ∧ (pg_has_prev p = true ↔ 1 < pg_page p)
    ∧ (pg_has_next p = true ↔ pg_page p < pg_total_pages p).
Proof.
  intros Hpage Hsize.
  destruct (get_requests_items query u w)
    as (p & Hrun & Hitems & Htotal & _ & Hpages & Hp & Hprev & Hnext).
  exists p. split; [done|]. split; [done|].
  set (ps := gq_page_size query) in *.
  set (total := pg_total p) in *.
  assert (0 ≤ total) as Htotal0 by (rewrite Htotal; lia).
  assert ((pg_total_pages p - 1) * ps < Z.max total 1 ≤ pg_total_pages p * ps)
    as Hbounds.
  { rewrite Hpages.
    pose proof (Z.mul_div_le (total + ps - 1) ps ltac:(lia)).
    pose proof (Z.mul_succ_div_gt (total + ps - 1) ps ltac:(lia)).
    nia. }
  assert (1 ≤ pg_page p ≤ pg_total_pages p) as Hin by lia.
  assert (Z.of_nat (length (items p))
          = Z.min ps (total - (pg_page p - 1) * ps)) as Hlen.
  { rewrite Hitems, length_fmap. unfold listed. fold ps.
    rewrite <- Htotal. fold total. rewrite <- Hpages, <- Hp.
    rewrite length_take, length_drop, cursor_sort_perm.
    assert (Z.of_nat (length (filter (λ d, requests_filt text_search query u d = true)
                                (requests w))) = total) as Hlen by done.
    nia. }
  split; [exact Hbounds|]. split; [exact Hp|]. split; [exact Hin|].
  split; [exact Hlen|]. split.
  - intros Hsome Hnil. rewrite Hnil in Hlen. simpl in Hlen. nia.
  - split; [rewrite Hprev|rewrite Hnext]; apply bool_decide_eq_true.
Qed.

End listing.


Lemma listing_pages_witness :
  ∃ p, get_requests natural_order match_all (plain_query 7 10) support_user
         world_finalized = (Ok p, world_finalized)
    ∧ pg_total p
      = Z.of_nat (length (filter
                            (λ d, requests_filt match_all (plain_query 7 10)
                                    support_user d = true)
                            (requests world_finalized)))
    ∧ (pg_total_pages p - 1) * gq_page_size (plain_query 7 10)
      < Z.max (pg_total p) 1
      ≤ pg_total_pages p * gq_page_size (plain_query 7 10)
    ∧ pg_page p = Z.min (gq_page (plain_query 7 10)) (pg_total_pages p)
    ∧ 1 ≤ pg_page p ≤ pg_total_pages p
    ∧ Z.of_nat (length (items p))
      = Z.min (gq_page_size (plain_query 7 10))
          (pg_total p - (pg_page p - 1) * gq_page_size (plain_query 7 10))
    ∧ (0 < pg_total p → items p ≠ [])
    ∧ (pg_has_prev p = true ↔ 1 < pg_page p)
    ∧ (pg_has_next p = true ↔ pg_page p < pg_total_pages p).
Proof.
  apply (listing_pages natural_order match_all).
  - intros field dir l. reflexivity.
  - simpl. lia.
  - simpl. lia.
Defined.

(** ** Login *)

Section login_lock.

Variable verify_password : pystr → pystr → bool.
Variable create_access_token : pystr → pystr.
Variables threshold window_min : Z.








End login_lock.


